(** * VS Code Time Tracker: tracking state machine and storage layer

    A shallow embedding of [tracker.ts] (class [TrackerService]), of
    [storage.ts] (class [StorageService]) and of the declarations of
    [types.ts] they use, followed by the properties of the activity state
    machine and of the per-day aggregation.

    Conventions of the embedding.
    - A JavaScript [Date] is its millisecond timestamp, a [Z]; an ISO
      string made by [toISOString] is the same timestamp (the two
      determine each other), and [x.split('T')[0]] is [isoDate x].
    - Durations are [Z]: the program only adds and subtracts integral
      millisecond counts, far below 2^53.
    - A JavaScript [Map] and an object used as a dictionary are association
      lists in insertion order, which is the order [Map.values] and
      [Object.entries] enumerate (keys are language identifiers and paths,
      never array indices). A language identifier that is the name of a
      member of [Object.prototype] ([toString], [constructor], ...) is
      outside the embedding: see [plainKey].
    - The host is an oracle: the n-th query of the program to it is
      answered by [clock n] when it is [new Date()] or [Date.now()] and
      by [random n] when it is the random suffix of a session id.
    - Methods are computations in a state monad over the two service
      objects; every [new Date()] of the source is one [newDate] here. An
      [async] method is one step: the answers of [GitService] it awaits
      are part of the editor's state it is given.
    - Records are values. In the program the session that [updateSession]
      puts into a day's record is the live session object, and the
      entries of its [repositories] array are the entries of the live
      map, so that billing shows through a stored session before the next
      [updateSession]. The counters of the live session are written by
      [updateTimeCounters] only, which [heartbeat] and [stop] follow by
      [updateSession] within the same event; the properties of stored
      records below are about those counters and about lists without
      duplicates, which the shared entries keep, and the properties of
      billing are about the live map.
    - File operations succeed: the [catch] branches of [saveDailyData] and
      [cleanupOldData] are not taken. *)

From stdpp Require Import gmap strings list fin_maps.
From Stdlib Require Import ZArith Ascii DecimalString Lia.
From Stdlib Require DecimalZ.

Open Scope Z_scope.

(** ** Dictionaries in insertion order *)

Section Dict.
Context {V : Type}.

(** [obj[k]], [map.get(k)]: the value of the first (and only) entry of
    key [k]. *)
Fixpoint dget (k : string) (d : list (string * V)) : option V :=
  match d with
  | [] => None
  | (k', v) :: d' => if String.eqb k k' then Some v else dget k d'
  end.

(** [obj[k] = f(obj[k])], [map.set(k, v)]: an existing key keeps its
    place, a new key goes last. *)
Fixpoint dupd (k : string) (f : option V → V) (d : list (string * V))
  : list (string * V) :=
  match d with
  | [] => [(k, f None)]
  | (k', v) :: d' =>
      if String.eqb k k' then (k', f (Some v)) :: d'
      else (k', v) :: dupd k f d'
  end.

(** [Array.from(map.values())] *)
Definition dvalues (d : list (string * V)) : list V := map snd d.
End Dict.

(** ** types.ts *)

(** [interface LanguageTime { [languageId: string]: number }] *)
Definition LanguageTime : Type := list (string * Z).

(** The names that an object made by [{}] inherits from
    [Object.prototype]. On an object with no entry of its own for such a
    name, [obj[k]] is the inherited member, not [undefined]. *)
Definition inheritedKeys : list string :=
  ["constructor"; "hasOwnProperty"; "isPrototypeOf"; "propertyIsEnumerable";
   "toLocaleString"; "toString"; "valueOf"; "__proto__";
   "__defineGetter__"; "__defineSetter__"; "__lookupGetter__";
   "__lookupSetter__"].

(** A key for which [obj[k]] reads the entries of [obj] itself. *)
Definition plainKey (k : string) : bool :=
  negb (bool_decide (k ∈ inheritedKeys)).

(** [(obj[l] || 0)], for a plain key [l]: the number of the entry, 0
    where there is none. For an inherited name the expression of the
    program is a function, or the text it has stored under the name; the
    properties of language times are stated for plain keys. *)
Definition langTime (l : string) (m : LanguageTime) : Z :=
  default 0 (dget l m).

(** [obj[l] = (obj[l] || 0) + t], for a plain key [l]. *)
Definition addLang (l : string) (t : Z) (m : LanguageTime) : LanguageTime :=
  dupd l (λ o, default 0 o + t) m.

Module RepoActivity.
Record t := mk {
  repoPath : string;
  repoName : string;
  branchName : string;
  remoteUrl : option string;
  timeSpent : Z;
  filesEdited : list string;
  languages : LanguageTime
}.
End RepoActivity.

Module TrackingSession.
Record t := mk {
  sessionId : string;
  startTime : Z;
  endTime : option Z;
  totalDuration : Z;
  activeTime : Z;
  idleTime : Z;
  repositories : list RepoActivity.t
}.
End TrackingSession.

Module RepoSummary.
Record t := mk {
  repoName : string;
  repoPath : string;
  branchesWorkedOn : list string;
  totalTime : Z;
  filesEdited : list string;
  languages : LanguageTime
}.
End RepoSummary.

Module DailyData.
Record t := mk {
  date : string;
  totalTime : Z;
  activeTime : Z;
  idleTime : Z;
  sessions : list TrackingSession.t;
  repositories : list RepoSummary.t;
  languages : LanguageTime;
  emailSent : bool;
  emailSentAt : option Z
}.
End DailyData.

Module CurrentRepoInfo.
Record t := mk {
  path : string;
  name : string;
  branch : string;
  remoteUrl : option string;
  activeFile : option string;
  language : option string;
  startTime : Z
}.
End CurrentRepoInfo.

Module TrackingState.
Record t := mk {
  isTracking : bool;
  sessionStart : Z;
  lastActivityTime : Z;
  currentRepo : option CurrentRepoInfo.t;
  isWindowFocused : bool;
  isIdle : bool;
  sessionActiveTime : Z;
  sessionIdleTime : Z;
  idleStartTime : option Z
}.
End TrackingState.

Module TrackingConfig.
Record t := mk {
  idleThresholdMinutes : Z;
  heartbeatIntervalSeconds : Z
}.
End TrackingConfig.

(** [gitService.ts]: [interface GitRepoInfo] *)
Module GitRepoInfo.
Record t := mk {
  path : string;
  name : string;
  branch : string;
  remoteUrl : option string
}.
End GitRepoInfo.

(** ** The host: dates *)

Definition msPerDay : Z := 86400000.

(** Year, month and day of the proleptic Gregorian calendar for a count of
    days since 1970-01-01. *)
Definition civilFromDays (days : Z) : Z * Z * Z :=
  let z := days + 719468 in
  let era := z / 146097 in
  let doe := z - era * 146097 in
  let yoe := (doe - doe / 1460 + doe / 36524 - doe / 146096) / 365 in
  let doy := doe - (365 * yoe + yoe / 4 - yoe / 100) in
  let mp := (5 * doy + 2) / 153 in
  let d := doy - (153 * mp + 2) / 5 + 1 in
  let m := if mp <? 10 then mp + 3 else mp - 9 in
  let y := yoe + era * 400 + (if m <=? 2 then 1 else 0) in
  (y, m, d).

Definition digitChar (n : Z) : ascii :=
  ascii_of_nat (48 + Z.to_nat (n mod 10)).

(** The [w] low decimal digits of [n], most significant first. *)
Fixpoint padDigits (w : nat) (n : Z) : string :=
  match w with
  | O => EmptyString
  | S w' => padDigits w' (n / 10) +:+ String (digitChar n) EmptyString
  end.

(** [new Date(ms).toISOString().split('T')[0]]: the UTC calendar date,
    with the expanded six-digit year of ECMAScript outside 0000..9999. *)
Definition isoDate (ms : Z) : string :=
  let '(y, m, d) := civilFromDays (ms / msPerDay) in
  let year :=
    if (0 <=? y) && (y <=? 9999) then padDigits 4 y
    else (if y <? 0 then "-" else "+") +:+ padDigits 6 (Z.abs y) in
  year +:+ "-" +:+ padDigits 2 m +:+ "-" +:+ padDigits 2 d.

(** Decimal numeral of an integer, as a template literal prints it. *)
Definition showZ (z : Z) : string := NilZero.string_of_int (Z.to_int z).

(** ** The two service objects and the host oracle *)

(** The event listeners [setupEventListeners] registers. *)
Inductive Listener :=
  | OnDidChangeWindowState
  | OnDidChangeTextDocument
  | OnDidChangeActiveTextEditor
  | OnDidSaveTextDocument
  | OnDidChangeWorkspaceFolders
  | OnDidChangeConfiguration.

(** Fields of [class TrackerService]. [heartbeatInterval] holds the period
    of the running interval timer. *)
Record TrackerFields := mkTracker {
  state : TrackingState.t;
  heartbeatInterval : option Z;
  disposables : list Listener;
  repoActivityMap : list (string * RepoActivity.t);
  currentSession : TrackingSession.t;
  config : TrackingConfig.t
}.

(** Fields of [class StorageService]. [files] is the content of the
    directory [storagePath], by file name: [Some d] is a file holding the
    JSON text of [d], [None] a file on which [JSON.parse] throws.
    [saveDebounceTimer] holds the record the pending timeout will write. *)
Record StorageFields := mkStorage {
  files : gmap string (option DailyData.t);
  currentDayData : option DailyData.t;
  saveDebounceTimer : option DailyData.t
}.

(** What the methods read from the editor: [vscode.window.state.focused],
    [vscode.window.activeTextEditor] as (fsPath, languageId),
    [vscode.workspace.workspaceFolders?.[0]] as (fsPath, name), the
    settings under [timeTracker.tracking], and the answers of the two
    [GitService] queries. *)
Record VSCode := mkVSCode {
  focused : bool;
  activeTextEditor : option (string * string);
  workspaceFolder : option (string * string);
  settings : TrackingConfig.t;
  getRepoForFile : string → option GitRepoInfo.t;
  getRepoFromVSCodeGit : string → option GitRepoInfo.t
}.

Record World := mkWorld {
  tracker : TrackerFields;
  storage : StorageFields;
  queries : nat
}.

Definition M (A : Type) : Type := World → A * World.

Definition ret {A} (a : A) : M A := λ w, (a, w).

Definition bind {A B} (m : M A) (k : A → M B) : M B :=
  λ w, let (a, w') := m w in k a w'.

Notation "'let!' x ':=' m 'in' k" := (bind m (λ x, k))
  (at level 10, x name, m at level 100, k at level 200, only parsing).
Notation "m >>> k" := (bind m (λ _, k))
  (at level 100, k at level 200, right associativity, only parsing).

Definition when (b : bool) (m : M unit) : M unit :=
  if b then m else ret tt.

Definition exec {A} (m : M A) (w : World) : World := snd (m w).

Definition getTracker : M TrackerFields := λ w, (tracker w, w).
Definition getStorage : M StorageFields := λ w, (storage w, w).

Definition modTracker (f : TrackerFields → TrackerFields) : M unit :=
  λ w, (tt, mkWorld (f (tracker w)) (storage w) (queries w)).
Definition modStorage (f : StorageFields → StorageFields) : M unit :=
  λ w, (tt, mkWorld (tracker w) (f (storage w)) (queries w)).

Definition getState : M TrackingState.t := λ w, (state (tracker w), w).

Definition set_state (st : TrackingState.t) (t : TrackerFields) :=
  mkTracker st (heartbeatInterval t) (disposables t) (repoActivityMap t)
            (currentSession t) (config t).
Definition set_heartbeatInterval (h : option Z) (t : TrackerFields) :=
  mkTracker (state t) h (disposables t) (repoActivityMap t)
            (currentSession t) (config t).
Definition set_disposables (l : list Listener) (t : TrackerFields) :=
  mkTracker (state t) (heartbeatInterval t) l (repoActivityMap t)
            (currentSession t) (config t).
Definition set_repoActivityMap (m : list (string * RepoActivity.t))
  (t : TrackerFields) :=
  mkTracker (state t) (heartbeatInterval t) (disposables t) m
            (currentSession t) (config t).
Definition set_currentSession (s : TrackingSession.t) (t : TrackerFields) :=
  mkTracker (state t) (heartbeatInterval t) (disposables t)
            (repoActivityMap t) s (config t).
Definition set_config (c : TrackingConfig.t) (t : TrackerFields) :=
  mkTracker (state t) (heartbeatInterval t) (disposables t)
            (repoActivityMap t) (currentSession t) c.

Definition modState (f : TrackingState.t → TrackingState.t) : M unit :=
  modTracker (λ t, set_state (f (state t)) t).

Definition set_files (f : gmap string (option DailyData.t))
  (s : StorageFields) :=
  mkStorage f (currentDayData s) (saveDebounceTimer s).
Definition set_currentDayData (d : option DailyData.t) (s : StorageFields) :=
  mkStorage (files s) d (saveDebounceTimer s).
Definition set_saveDebounceTimer (d : option DailyData.t)
  (s : StorageFields) :=
  mkStorage (files s) (currentDayData s) d.

Section Host.
(** [clock n]: the time read by the n-th host query; no order between
    successive readings is assumed. [random n]: the text of
    [Math.random().toString(36).substr(2, 9)] at the n-th query.
    [parseDate s]: the time value of [new Date(s)], [None] for an
    invalid date (time value NaN). [localTZA t true]: the offset of local
    time from UTC at the time value [t], and [localTZA t false]: the same
    at the local time value [t] (LocalTZA of ECMAScript). *)
Variable clock : nat → Z.
Variable random : nat → string.
Variable parseDate : string → option Z.
Variable localTZA : Z → bool → Z.

(** [new Date()], [Date.now()] *)
Definition newDate : M Z :=
  λ w, (clock (queries w),
        mkWorld (tracker w) (storage w) (S (queries w))).

Definition newRandom : M string :=
  λ w, (random (queries w),
        mkWorld (tracker w) (storage w) (S (queries w))).

(** [types.ts]: [getTodayDateString] *)
Definition getTodayDateString : M string :=
  let! now := newDate in
  ret (isoDate now).

(** [types.ts]: [generateSessionId] *)
Definition generateSessionId : M string :=
  let! now := newDate in
  let! r := newRandom in
  ret ("session_" +:+ showZ now +:+ "_" +:+ r).

(** *** storage.ts: class StorageService *)

(** [getDataFilePath], relative to [storagePath] *)
Definition getDataFilePath (date : string) : string := date +:+ ".json".

Definition createEmptyDailyData (date : string) : DailyData.t :=
  DailyData.mk date 0 0 0 [] [] [] false None.

Definition loadDailyData (date : string) : M DailyData.t :=
  let! s := getStorage in
  match files s !! getDataFilePath date with
  | Some (Some d) => ret d
  | _ => ret (createEmptyDailyData date)
  end.

Definition getTodayData : M DailyData.t :=
  let! today := getTodayDateString in
  let! s := getStorage in
  match currentDayData s with
  | Some d =>
      if String.eqb (DailyData.date d) today then ret d
      else
        let! d' := loadDailyData today in
        modStorage (set_currentDayData (Some d')) >>>
        ret d'
  | None =>
      let! d' := loadDailyData today in
      modStorage (set_currentDayData (Some d')) >>>
      ret d'
  end.

Definition saveDailyData (data : DailyData.t) : M unit :=
  modStorage (λ s,
    set_files (<[getDataFilePath (DailyData.date data) := Some data]>
                 (files s)) s).

(** The pending timeout, if any, is cleared and a new one is armed. *)
Definition saveTodayData (data : DailyData.t) : M unit :=
  modStorage (set_currentDayData (Some data)) >>>
  modStorage (set_saveDebounceTimer (Some data)).

(** The callback of the timeout armed by [saveTodayData], run by the
    host five seconds later. It writes the record as [saveTodayData] was
    given it; in the program the record is serialised when the timeout
    fires, with what the billing since has added to the contexts that
    its last session shares with the live map (see the conventions). *)
Definition saveDebounceTimer_fires : M unit :=
  let! s := getStorage in
  match saveDebounceTimer s with
  | Some data =>
      saveDailyData data >>>
      modStorage (set_saveDebounceTimer None)
  | None => ret tt
  end.

Definition forceSave : M unit :=
  modStorage (set_saveDebounceTimer None) >>>
  let! s := getStorage in
  match currentDayData s with
  | Some d => saveDailyData d
  | None => ret tt
  end.

Definition markEmailSent : M unit :=
  let! data := getTodayData in
  let! emailSentAt := newDate in
  let data :=
    DailyData.mk (DailyData.date data) (DailyData.totalTime data)
                 (DailyData.activeTime data) (DailyData.idleTime data)
                 (DailyData.sessions data) (DailyData.repositories data)
                 (DailyData.languages data) true (Some emailSentAt) in
  saveTodayData data >>>
  forceSave.

(** [arr.includes(x)] then [arr.push(x)] *)
Definition pushNew (x : string) (l : list string) : list string :=
  if bool_decide (x ∈ l) then l else l ++ [x].

Definition addLanguages (src : LanguageTime) (acc : LanguageTime)
  : LanguageTime :=
  fold_left (λ a lt, addLang (fst lt) (snd lt) a) src acc.

(** The [reduce] over [session.repositories] in [recalculateTotals]. *)
Definition sessionLanguages (session : TrackingSession.t) : LanguageTime :=
  fold_left (λ acc repo, addLanguages (RepoActivity.languages repo) acc)
            (TrackingSession.repositories session) [].

(** One turn of [for (const repo of session.repositories)]. *)
Definition aggregateRepo (repoMap : list (string * RepoSummary.t))
  (repo : RepoActivity.t) : list (string * RepoSummary.t) :=
  dupd (RepoActivity.repoPath repo)
    (λ o, match o with
          | Some existing =>
              RepoSummary.mk
                (RepoSummary.repoName existing)
                (RepoSummary.repoPath existing)
                (pushNew (RepoActivity.branchName repo)
                         (RepoSummary.branchesWorkedOn existing))
                (RepoSummary.totalTime existing
                 + RepoActivity.timeSpent repo)
                (fold_left (λ fs file, pushNew file fs)
                           (RepoActivity.filesEdited repo)
                           (RepoSummary.filesEdited existing))
                (addLanguages (RepoActivity.languages repo)
                              (RepoSummary.languages existing))
          | None =>
              RepoSummary.mk
                (RepoActivity.repoName repo)
                (RepoActivity.repoPath repo)
                [RepoActivity.branchName repo]
                (RepoActivity.timeSpent repo)
                (RepoActivity.filesEdited repo)
                (RepoActivity.languages repo)
          end)
    repoMap.

(** One turn of [for (const session of data.sessions)]: the record under
    construction and the local [repoMap]. *)
Definition aggregateSession
  (acc : DailyData.t * list (string * RepoSummary.t))
  (session : TrackingSession.t)
  : DailyData.t * list (string * RepoSummary.t) :=
  let (data, repoMap) := acc in
  (DailyData.mk
     (DailyData.date data)
     (DailyData.totalTime data + TrackingSession.totalDuration session)
     (DailyData.activeTime data + TrackingSession.activeTime session)
     (DailyData.idleTime data + TrackingSession.idleTime session)
     (DailyData.sessions data)
     (DailyData.repositories data)
     (addLanguages (sessionLanguages session) (DailyData.languages data))
     (DailyData.emailSent data)
     (DailyData.emailSentAt data),
   fold_left aggregateRepo (TrackingSession.repositories session) repoMap).

Definition recalculateTotals (data : DailyData.t) : DailyData.t :=
  let zeroed :=
    DailyData.mk (DailyData.date data) 0 0 0 (DailyData.sessions data)
                 (DailyData.repositories data) []
                 (DailyData.emailSent data) (DailyData.emailSentAt data) in
  let (data', repoMap) :=
    fold_left aggregateSession (DailyData.sessions data) (zeroed, []) in
  DailyData.mk (DailyData.date data') (DailyData.totalTime data')
               (DailyData.activeTime data') (DailyData.idleTime data')
               (DailyData.sessions data') (dvalues repoMap)
               (DailyData.languages data')
               (DailyData.emailSent data') (DailyData.emailSentAt data').

(** [sessions.findIndex(s => s.sessionId === id)] *)
Fixpoint findIndex (id : string) (l : list TrackingSession.t)
  : option nat :=
  match l with
  | [] => None
  | s :: l' =>
      if String.eqb (TrackingSession.sessionId s) id then Some 0%nat
      else S <$> findIndex id l'
  end.

(** The first four lines of [updateSession]: replace by id or push. *)
Definition putSession (session : TrackingSession.t)
  (l : list TrackingSession.t) : list TrackingSession.t :=
  match findIndex (TrackingSession.sessionId session) l with
  | Some existingIndex => <[existingIndex := session]> l
  | None => l ++ [session]
  end.

Definition set_sessions (l : list TrackingSession.t) (d : DailyData.t)
  : DailyData.t :=
  DailyData.mk (DailyData.date d) (DailyData.totalTime d)
               (DailyData.activeTime d) (DailyData.idleTime d) l
               (DailyData.repositories d) (DailyData.languages d)
               (DailyData.emailSent d) (DailyData.emailSentAt d).

(** What [updateSession] makes of the record [data] that [getTodayData]
    hands it, before it passes the record to [saveTodayData]. *)
Definition updateSessionOn (session : TrackingSession.t)
  (data : DailyData.t) : DailyData.t :=
  recalculateTotals
    (set_sessions (putSession session (DailyData.sessions data)) data).

Definition updateSession (session : TrackingSession.t) : M unit :=
  let! data := getTodayData in
  saveTodayData (updateSessionOn session data).

(** [s.endsWith(suffix)] *)
Definition endsWith (suffix s : string) : bool :=
  let n := String.length s in
  let m := String.length suffix in
  (m <=? n)%nat && String.eqb (String.substring (n - m) m s) suffix.

(** [s.replace(pat, rep)] for a non-empty string pattern: the first
    occurrence only. *)
Fixpoint replaceFirst (pat rep s : string) : string :=
  if String.prefix pat s
  then rep +:+ String.substring (String.length pat)
                                (String.length s - String.length pat) s
  else match s with
       | EmptyString => EmptyString
       | String c s' => String c (replaceFirst pat rep s')
       end.

(** [LocalTime(t)] and [UTC(t)] of ECMAScript. *)
Definition localTime (t : Z) : Z := t + localTZA t true.
Definition utcTime (t : Z) : Z := t - localTZA t false.

(** [d.setDate(d.getDate() - n)]: the same local time of day, [n] days
    earlier in the local calendar. *)
Definition setDateBack (n : Z) (t : Z) : Z :=
  utcTime (localTime t - n * msPerDay).

(** The test under which [cleanupOldData] unlinks [file]; a comparison
    with an invalid date is false. *)
Definition isOldDataFile (cutoffDate : Z) (file : string) : bool :=
  endsWith ".json" file &&
  match parseDate (replaceFirst ".json" "" file) with
  | Some fileDate => fileDate <? cutoffDate
  | None => false
  end.

Definition cleanupOldData : M unit :=
  let! now := newDate in
  let cutoffDate := setDateBack 90 now in
  modStorage (λ s,
    set_files
      (filter (λ kv, isOldDataFile cutoffDate (fst kv) = false) (files s))
      s).

(** *** tracker.ts: class TrackerService *)

(** Assignments to single fields of [this.state]. *)
Definition with_isTracking (x : bool) (st : TrackingState.t) :=
  TrackingState.mk x (TrackingState.sessionStart st)
    (TrackingState.lastActivityTime st) (TrackingState.currentRepo st)
    (TrackingState.isWindowFocused st) (TrackingState.isIdle st)
    (TrackingState.sessionActiveTime st)
    (TrackingState.sessionIdleTime st) (TrackingState.idleStartTime st).
Definition with_sessionStart (x : Z) (st : TrackingState.t) :=
  TrackingState.mk (TrackingState.isTracking st) x
    (TrackingState.lastActivityTime st) (TrackingState.currentRepo st)
    (TrackingState.isWindowFocused st) (TrackingState.isIdle st)
    (TrackingState.sessionActiveTime st)
    (TrackingState.sessionIdleTime st) (TrackingState.idleStartTime st).
Definition with_lastActivityTime (x : Z) (st : TrackingState.t) :=
  TrackingState.mk (TrackingState.isTracking st)
    (TrackingState.sessionStart st) x (TrackingState.currentRepo st)
    (TrackingState.isWindowFocused st) (TrackingState.isIdle st)
    (TrackingState.sessionActiveTime st)
    (TrackingState.sessionIdleTime st) (TrackingState.idleStartTime st).
Definition with_currentRepo (x : option CurrentRepoInfo.t)
  (st : TrackingState.t) :=
  TrackingState.mk (TrackingState.isTracking st)
    (TrackingState.sessionStart st) (TrackingState.lastActivityTime st) x
    (TrackingState.isWindowFocused st) (TrackingState.isIdle st)
    (TrackingState.sessionActiveTime st)
    (TrackingState.sessionIdleTime st) (TrackingState.idleStartTime st).
Definition with_isWindowFocused (x : bool) (st : TrackingState.t) :=
  TrackingState.mk (TrackingState.isTracking st)
    (TrackingState.sessionStart st) (TrackingState.lastActivityTime st)
    (TrackingState.currentRepo st) x (TrackingState.isIdle st)
    (TrackingState.sessionActiveTime st)
    (TrackingState.sessionIdleTime st) (TrackingState.idleStartTime st).
Definition with_isIdle (x : bool) (st : TrackingState.t) :=
  TrackingState.mk (TrackingState.isTracking st)
    (TrackingState.sessionStart st) (TrackingState.lastActivityTime st)
    (TrackingState.currentRepo st) (TrackingState.isWindowFocused st) x
    (TrackingState.sessionActiveTime st)
    (TrackingState.sessionIdleTime st) (TrackingState.idleStartTime st).
Definition with_sessionIdleTime (x : Z) (st : TrackingState.t) :=
  TrackingState.mk (TrackingState.isTracking st)
    (TrackingState.sessionStart st) (TrackingState.lastActivityTime st)
    (TrackingState.currentRepo st) (TrackingState.isWindowFocused st)
    (TrackingState.isIdle st) (TrackingState.sessionActiveTime st) x
    (TrackingState.idleStartTime st).
Definition with_idleStartTime (x : option Z) (st : TrackingState.t) :=
  TrackingState.mk (TrackingState.isTracking st)
    (TrackingState.sessionStart st) (TrackingState.lastActivityTime st)
    (TrackingState.currentRepo st) (TrackingState.isWindowFocused st)
    (TrackingState.isIdle st) (TrackingState.sessionActiveTime st)
    (TrackingState.sessionIdleTime st) x.

(** Truthiness of an optional string: [undefined] and the empty string
    are falsy. *)
Definition truthy (s : option string) : option string :=
  match s with
  | Some EmptyString => None
  | _ => s
  end.

Definition loadConfig (ide : VSCode) : TrackingConfig.t := settings ide.

Definition initializeState (ide : VSCode) : M TrackingState.t :=
  let! sessionStart := newDate in
  let! lastActivityTime := newDate in
  ret (TrackingState.mk false sessionStart lastActivityTime None
                        (focused ide) false 0 0 None).

Definition createNewSession : M TrackingSession.t :=
  let! sessionId := generateSessionId in
  let! startTime := newDate in
  ret (TrackingSession.mk sessionId startTime None 0 0 0 []).

(** The constructor, on a storage object already constructed. *)
Definition newTrackerService (ide : VSCode) : M unit :=
  let! st := initializeState ide in
  let! session := createNewSession in
  modTracker (λ _, mkTracker st None [] [] session (loadConfig ide)).

Definition setupEventListeners : M unit :=
  modTracker (λ t,
    set_disposables
      (disposables t ++
       [OnDidChangeWindowState; OnDidChangeTextDocument;
        OnDidChangeActiveTextEditor; OnDidSaveTextDocument;
        OnDidChangeWorkspaceFolders; OnDidChangeConfiguration]) t).

Definition startHeartbeat : M unit :=
  modTracker (λ t,
    let intervalMs :=
      TrackingConfig.heartbeatIntervalSeconds (config t) * 1000 in
    set_heartbeatInterval (Some intervalMs) t).

(** The entry of the live map is replaced by one with the time added;
    in the program the entry is an object changed in place, which the
    [repositories] of the session last given to [updateSession] share
    (see the conventions). *)
Definition addTimeToRepo (repo : CurrentRepoInfo.t) (timeMs : Z)
  : M unit :=
  let key := CurrentRepoInfo.path repo +:+ ":" +:+
             CurrentRepoInfo.branch repo in
  modTracker (λ t,
    set_repoActivityMap
      (dupd key
         (λ o,
            let activity :=
              match o with
              | Some activity => activity
              | None =>
                  RepoActivity.mk
                    (CurrentRepoInfo.path repo)
                    (CurrentRepoInfo.name repo)
                    (CurrentRepoInfo.branch repo)
                    (CurrentRepoInfo.remoteUrl repo) 0 [] []
              end in
            RepoActivity.mk
              (RepoActivity.repoPath activity)
              (RepoActivity.repoName activity)
              (RepoActivity.branchName activity)
              (RepoActivity.remoteUrl activity)
              (RepoActivity.timeSpent activity + timeMs)
              (RepoActivity.filesEdited activity)
              (match truthy (CurrentRepoInfo.language repo) with
               | Some language =>
                   addLang language timeMs
                           (RepoActivity.languages activity)
               | None => RepoActivity.languages activity
               end))
         (repoActivityMap t)) t).

Definition finalizeRepoTime (repo : CurrentRepoInfo.t) : M unit :=
  let! now := newDate in
  let elapsed := now - CurrentRepoInfo.startTime repo in
  addTimeToRepo repo elapsed.

Definition enterIdleState : M unit :=
  let! st := getState in
  if TrackingState.isIdle st then ret tt
  else
    modState (with_isIdle true) >>>
    modState (λ st,
      with_idleStartTime (Some (TrackingState.lastActivityTime st)) st).

Definition exitIdleState : M unit :=
  let! st := getState in
  if negb (TrackingState.isIdle st) then ret tt
  else
    match TrackingState.idleStartTime st with
    | Some idleStartTime =>
        let! now := newDate in
        let idleDuration := now - idleStartTime in
        modState (λ st,
          with_sessionIdleTime
            (TrackingState.sessionIdleTime st + idleDuration) st)
    | None => ret tt
    end >>>
    modState (with_isIdle false) >>>
    modState (with_idleStartTime None).

Definition recordActivity : M unit :=
  let! now := newDate in
  let! st := getState in
  when (TrackingState.isIdle st) exitIdleState >>>
  let! st := getState in
  match TrackingState.currentRepo st with
  | Some repo =>
      let elapsed := now - TrackingState.lastActivityTime st in
      addTimeToRepo repo elapsed
  | None => ret tt
  end >>>
  modState (with_lastActivityTime now).

(** The first statement of [updateCurrentRepo(filePath?)]: the value of
    [repoInfo], the queries to [GitService] being answered by [ide]. *)
Definition resolveRepo (ide : VSCode) (filePath : option string)
  : option GitRepoInfo.t :=
  match truthy filePath with
  | Some filePath => getRepoForFile ide filePath
  | None =>
      match activeTextEditor ide with
      | Some editor => getRepoForFile ide (fst editor)
      | None =>
          match workspaceFolder ide with
          | Some folder => getRepoFromVSCodeGit ide (fst folder)
          | None => None
          end
      end
  end.

(** [updateCurrentRepo(filePath?)], taken as one step. *)
Definition updateCurrentRepo (ide : VSCode) (filePath : option string)
  : M unit :=
  let repoInfo := resolveRepo ide filePath in
  let! st := getState in
  match TrackingState.currentRepo st, repoInfo with
  | Some currentRepo, Some info =>
      when (negb (String.eqb (CurrentRepoInfo.path currentRepo)
                             (GitRepoInfo.path info)))
           (finalizeRepoTime currentRepo)
  | _, _ => ret tt
  end >>>
  match repoInfo with
  | Some info =>
      let! startTime := newDate in
      modState (with_currentRepo (Some
        (CurrentRepoInfo.mk
           (GitRepoInfo.path info) (GitRepoInfo.name info)
           (GitRepoInfo.branch info) (GitRepoInfo.remoteUrl info)
           (fst <$> activeTextEditor ide)
           (snd <$> activeTextEditor ide)
           startTime)))
  | None =>
      match workspaceFolder ide with
      | Some folder =>
          let! startTime := newDate in
          modState (with_currentRepo (Some
            (CurrentRepoInfo.mk
               (fst folder) (snd folder) "N/A" None
               (fst <$> activeTextEditor ide)
               (snd <$> activeTextEditor ide)
               startTime)))
      | None => ret tt
      end
  end.

Definition recordFileEdit (filePath : string) : M unit :=
  let! st := getState in
  match TrackingState.currentRepo st with
  | None => ret tt
  | Some currentRepo =>
      let key := CurrentRepoInfo.path currentRepo +:+ ":" +:+
                 CurrentRepoInfo.branch currentRepo in
      let! t := getTracker in
      match dget key (repoActivityMap t) with
      | Some activity =>
          if bool_decide (filePath ∈ RepoActivity.filesEdited activity)
          then ret tt
          else
            modTracker (set_repoActivityMap
              (dupd key
                 (λ _,
                    RepoActivity.mk
                      (RepoActivity.repoPath activity)
                      (RepoActivity.repoName activity)
                      (RepoActivity.branchName activity)
                      (RepoActivity.remoteUrl activity)
                      (RepoActivity.timeSpent activity)
                      (RepoActivity.filesEdited activity ++ [filePath])
                      (RepoActivity.languages activity))
                 (repoActivityMap t)))
      | None => ret tt
      end
  end.

(** The assignments of [updateTimeCounters] to [this.currentSession],
    for the reading [now] of the clock. *)
Definition countersAt (now : Z) (st : TrackingState.t)
  (session : TrackingSession.t) : TrackingSession.t :=
  let sessionDuration := now - TrackingSession.startTime session in
  let totalDuration := sessionDuration in
  let idleTime := TrackingState.sessionIdleTime st in
  let activeTime := sessionDuration - TrackingState.sessionIdleTime st in
  let '(idleTime, activeTime) :=
    match TrackingState.isIdle st, TrackingState.idleStartTime st with
    | true, Some idleStartTime =>
        let currentIdleTime := now - idleStartTime in
        let idleTime := idleTime + currentIdleTime in
        (idleTime, totalDuration - idleTime)
    | _, _ => (idleTime, activeTime)
    end in
  TrackingSession.mk
    (TrackingSession.sessionId session)
    (TrackingSession.startTime session)
    (TrackingSession.endTime session)
    totalDuration activeTime idleTime
    (TrackingSession.repositories session).

Definition updateTimeCounters : M unit :=
  let! now := newDate in
  modTracker (λ t,
    set_currentSession (countersAt now (state t) (currentSession t)) t).

Definition saveCurrentSession : M unit :=
  modTracker (λ t,
    let s := currentSession t in
    set_currentSession
      (TrackingSession.mk
         (TrackingSession.sessionId s) (TrackingSession.startTime s)
         (TrackingSession.endTime s) (TrackingSession.totalDuration s)
         (TrackingSession.activeTime s) (TrackingSession.idleTime s)
         (dvalues (repoActivityMap t))) t) >>>
  let! endTime := newDate in
  modTracker (λ t,
    let s := currentSession t in
    set_currentSession
      (TrackingSession.mk
         (TrackingSession.sessionId s) (TrackingSession.startTime s)
         (Some endTime) (TrackingSession.totalDuration s)
         (TrackingSession.activeTime s) (TrackingSession.idleTime s)
         (TrackingSession.repositories s)) t) >>>
  let! t := getTracker in
  updateSession (currentSession t).

Definition handleDayChange (ide : VSCode) : M unit :=
  saveCurrentSession >>>
  forceSave >>>
  let! st := initializeState ide in
  modTracker (set_state st) >>>
  modState (with_isTracking true) >>>
  let! session := createNewSession in
  modTracker (set_currentSession session) >>>
  modTracker (set_repoActivityMap []).

(** The callback [onTimeUpdate] given to the constructor repaints the
    status bar; it holds no field of the two services. *)
Definition onTimeUpdate (totalTime : Z) : M unit := ret tt.

Definition heartbeat (ide : VSCode) : M unit :=
  let! st := getState in
  if negb (TrackingState.isTracking st) then ret tt
  else
    let! now := newDate in
    let timeSinceLastActivity := now - TrackingState.lastActivityTime st in
    let! t := getTracker in
    let idleThresholdMs :=
      TrackingConfig.idleThresholdMinutes (config t) * 60 * 1000 in
    let! today := getTodayDateString in
    if negb (String.eqb today
               (isoDate (TrackingSession.startTime (currentSession t))))
    then handleDayChange ide
    else
      when (negb (TrackingState.isIdle st)
            && (idleThresholdMs <? timeSinceLastActivity))
           enterIdleState >>>
      updateTimeCounters >>>
      saveCurrentSession >>>
      let! todayData := getTodayData in
      onTimeUpdate (DailyData.totalTime todayData).

Definition handleWindowStateChange (focused : bool) : M unit :=
  modState (with_isWindowFocused focused) >>>
  if focused then
    recordActivity >>>
    let! st := getState in
    when (TrackingState.isIdle st) exitIdleState
  else
    let! now := newDate in
    modState (with_idleStartTime (Some now)).

(** [handleEditorChange(editor)], [editor] as (fsPath, languageId). *)
Definition handleEditorChange (ide : VSCode)
  (editor : option (string * string)) : M unit :=
  recordActivity >>>
  match editor with
  | Some (fsPath, languageId) =>
      updateCurrentRepo ide (Some fsPath) >>>
      modState (λ st,
        match TrackingState.currentRepo st with
        | Some r =>
            with_currentRepo (Some
              (CurrentRepoInfo.mk
                 (CurrentRepoInfo.path r) (CurrentRepoInfo.name r)
                 (CurrentRepoInfo.branch r) (CurrentRepoInfo.remoteUrl r)
                 (Some fsPath) (Some languageId)
                 (CurrentRepoInfo.startTime r))) st
        | None => st
        end)
  | None => ret tt
  end.

Definition getCurrentSession : M TrackingSession.t :=
  updateTimeCounters >>>
  modTracker (λ t,
    let s := currentSession t in
    set_currentSession
      (TrackingSession.mk
         (TrackingSession.sessionId s) (TrackingSession.startTime s)
         (TrackingSession.endTime s) (TrackingSession.totalDuration s)
         (TrackingSession.activeTime s) (TrackingSession.idleTime s)
         (dvalues (repoActivityMap t))) t) >>>
  let! t := getTracker in
  ret (currentSession t).

Definition start (ide : VSCode) : M unit :=
  let! st := getState in
  if TrackingState.isTracking st then ret tt
  else
    modState (with_isTracking true) >>>
    let! sessionStart := newDate in
    modState (with_sessionStart sessionStart) >>>
    let! lastActivityTime := newDate in
    modState (with_lastActivityTime lastActivityTime) >>>
    let! session := createNewSession in
    modTracker (set_currentSession session) >>>
    setupEventListeners >>>
    startHeartbeat >>>
    updateCurrentRepo ide None.

Definition stop : M unit :=
  let! st := getState in
  if negb (TrackingState.isTracking st) then ret tt
  else
    match TrackingState.currentRepo st with
    | Some currentRepo => finalizeRepoTime currentRepo
    | None => ret tt
    end >>>
    updateTimeCounters >>>
    saveCurrentSession >>>
    forceSave >>>
    modTracker (set_heartbeatInterval None) >>>
    modTracker (set_disposables []) >>>
    modState (with_isTracking false).
End Host.

(** ** Observations used by the properties *)

(** The key of [repoActivityMap] under which [addTimeToRepo] bills. *)
Definition repoKey (repo : CurrentRepoInfo.t) : string :=
  CurrentRepoInfo.path repo +:+ ":" +:+ CurrentRepoInfo.branch repo.

(** [timeSpent] of the context [key] in the live map, 0 when the context
    has no entry yet. *)
Definition repoTime (key : string) (w : World) : Z :=
  match dget key (repoActivityMap (tracker w)) with
  | Some activity => RepoActivity.timeSpent activity
  | None => 0
  end.

(** Time of language [l] under the context [key] in the live map. *)
Definition repoLangTime (key l : string) (w : World) : Z :=
  match dget key (repoActivityMap (tracker w)) with
  | Some activity => langTime l (RepoActivity.languages activity)
  | None => 0
  end.

(** Conservation of a session: active and idle time make up its
    duration. *)
Definition conserved (s : TrackingSession.t) : Prop :=
  TrackingSession.activeTime s + TrackingSession.idleTime s
  = TrackingSession.totalDuration s.

Definition sumOf {A} (f : A → Z) (l : list A) : Z :=
  foldr (λ x acc, f x + acc) 0 l.

(** A host whose clock reads [t] at every query: an event handled within
    one millisecond. *)
Definition always (t : Z) : nat → Z := λ _, t.

Definition someSuffix : nat → string := λ _, "k3x9q1z7a".

(** An editor window with a file of repository [/a] open, then one with a
    file of repository [/b]; [git] answers for both repositories. *)
Definition git (filePath : string) : option GitRepoInfo.t :=
  if String.prefix "/a/" filePath
  then Some (GitRepoInfo.mk "/a" "a" "main" None)
  else if String.prefix "/b/" filePath
  then Some (GitRepoInfo.mk "/b" "b" "dev" None)
  else None.

Definition editorInA : VSCode :=
  mkVSCode true (Some ("/a/f.ts", "typescript")) (Some ("/a", "a"))
           (TrackingConfig.mk 3 30) git (λ _, None).

Definition editorInB : VSCode :=
  mkVSCode true (Some ("/b/g.py", "python")) (Some ("/a", "a"))
           (TrackingConfig.mk 3 30) git (λ _, None).

(** The extension right after activation at time [t0] on an empty storage
    directory: [new StorageService], [new TrackerService], [start()]. *)
Definition unbuilt : World :=
  mkWorld
    (mkTracker (TrackingState.mk false 0 0 None false false 0 0 None)
               None [] [] (TrackingSession.mk "" 0 None 0 0 0 [])
               (TrackingConfig.mk 0 0))
    (mkStorage ∅ None None) 0.

Definition activated (t0 : Z) (ide : VSCode) : World :=
  exec (start (always t0) someSuffix ide)
       (exec (newTrackerService (always t0) someSuffix ide) unbuilt).

(** The two local accumulators of [recalculateTotals] as folds of a session
    list: the [repoMap] and [data.languages]. *)
Definition repoMapOf (ss : list TrackingSession.t)
  (m : list (string * RepoSummary.t)) : list (string * RepoSummary.t) :=
  fold_left (λ m s, fold_left aggregateRepo (TrackingSession.repositories s) m)
            ss m.

Definition languagesOf (ss : list TrackingSession.t) (a : LanguageTime)
  : LanguageTime :=
  fold_left (λ a s, addLanguages (sessionLanguages s) a) ss a.

(** No file path twice in [filesEdited]. *)
Definition filesDistinct (r : RepoActivity.t) : Prop :=
  NoDup (RepoActivity.filesEdited r).
Definition summaryDistinct (r : RepoSummary.t) : Prop :=
  NoDup (RepoSummary.filesEdited r).

(** What [loadDailyData] and [getTodayData] return on a storage object. *)
Definition loadedRecord (date : string) (s : StorageFields) : DailyData.t :=
  match files s !! getDataFilePath date with
  | Some (Some d) => d
  | _ => createEmptyDailyData date
  end.

Definition todayRecord (today : string) (s : StorageFields) : DailyData.t :=
  match currentDayData s with
  | Some d =>
      if String.eqb (DailyData.date d) today then d
      else loadedRecord today s
  | None => loadedRecord today s
  end.

(** A day's record holding one idle session of ten minutes. *)
Definition idleSessionRecord : DailyData.t :=
  DailyData.mk "1970-01-01" 7 7 7
    [countersAt 600000
       (TrackingState.mk true 0 0 None true true 0 0 (Some 400000))
       (TrackingSession.mk "session_0_k3x9q1z7a" 0 None 0 0 0 [])]
    [] [] false None.

(** ** A host parser for the witnesses of the retention property *)

(** Days since 1970-01-01 of a date of the proleptic Gregorian calendar. *)
Definition daysFromCivil (y m d : Z) : Z :=
  let y := if m <=? 2 then y - 1 else y in
  let era := y / 400 in
  let yoe := y - era * 400 in
  let doy := (153 * (if 2 <? m then m - 3 else m + 9) + 2) / 5 + d - 1 in
  let doe := yoe * 365 + yoe / 4 - yoe / 100 + doy in
  era * 146097 + doe - 719468.

(** The value of a decimal digit. *)
Definition digitOf (c : ascii) : option Z :=
  let n := Z.of_nat (nat_of_ascii c) in
  if (48 <=? n) && (n <=? 57) then Some (n - 48) else None.

Fixpoint numberOf (acc : Z) (s : string) : option Z :=
  match s with
  | EmptyString => Some acc
  | String c s' =>
      match digitOf c with
      | Some n => numberOf (10 * acc + n) s'
      | None => None
      end
  end.

(** [new Date(s)] on the date-only form [YYYY-MM-DD], which ECMAScript
    reads as midnight UTC; any other text reads as an invalid date here. *)
Definition parseDateOnly (s : string) : option Z :=
  if negb (String.length s =? 10)%nat then None
  else if negb (String.eqb (String.substring 4 1 s) "-"
                && String.eqb (String.substring 7 1 s) "-") then None
  else
    match numberOf 0 (String.substring 0 4 s),
          numberOf 0 (String.substring 5 2 s),
          numberOf 0 (String.substring 8 2 s) with
    | Some y, Some m, Some d =>
        if (1 <=? m) && (m <=? 12) && (1 <=? d) && (d <=? 31)
        then Some (daysFromCivil y m d * msPerDay)
        else None
    | _, _, _ => None
    end.

(** No full stop among the characters of a string. *)
Fixpoint dotFree (s : string) : bool :=
  match s with
  | EmptyString => true
  | String c s' => negb (Ascii.eqb c ".") && dotFree s'
  end.

(** A time zone one hour east of UTC all year. *)
Definition centralEurope : Z → bool → Z := λ _ _, 3600000.

(** A storage directory with the records of 1970-01-02 and 1970-01-04 and
    a file that is no record, at a time of day 92 (1970-04-03). *)
Definition retentionWorld : World :=
  mkWorld (tracker unbuilt)
    (mkStorage
       (<["1970-01-02.json" := Some (createEmptyDailyData "1970-01-02")]>
        (<["1970-01-04.json" := Some (createEmptyDailyData "1970-01-04")]>
         (<["notes.json" := None]> ∅)))
       None None)
    0.

(** The amount [addTimeToRepo] adds to the language [l] when it bills [t]
    to the context [repo]. *)
Definition languageShare (repo : CurrentRepoInfo.t) (l : string) (t : Z) : Z :=
  match truthy (CurrentRepoInfo.language repo) with
  | Some language => if String.eqb l language then t else 0
  | None => 0
  end.

(** The extension activated at time 0 in repository [/a] and left alone:
    the heartbeat of 3:01 finds no activity since 0 and enters the idle
    state. *)
Definition idleWorld : World :=
  exec (heartbeat (always 181000) someSuffix editorInA)
       (activated 0 editorInA).

(** The extension activated at 1000 with an activity event at 5000. *)
Definition busyWorld : World :=
  exec (recordActivity (always 5000)) (activated 1000 editorInA).

(** A switch of context between two activity events: activation in [/a] at
    0, an edit at 1000, the workspace folders change at 1500 while the
    active editor shows a file of [/b], an edit at 2000. *)
Definition beforeSwitch : World :=
  exec (recordActivity (always 1000)) (activated 0 editorInA).
Definition switched : World :=
  exec (updateCurrentRepo (always 1500) editorInB None) beforeSwitch.
Definition afterSwitch : World :=
  exec (recordActivity (always 2000)) switched.

(** The same switch made by showing the file of [/b] in the editor. *)
Definition switchedByEditor : World :=
  exec (handleEditorChange (always 1500) editorInB
                           (Some ("/b/g.py", "python")))
       beforeSwitch.
Definition afterEditorSwitch : World :=
  exec (recordActivity (always 2000)) switchedByEditor.

(** A session across midnight: activation at 00:00:01 of 1970-01-01, the
    heartbeat of 00:01:00, the debounced write that follows it, and the
    first heartbeat of 1970-01-02, at 00:00:05. *)
Definition lastEvening : World :=
  exec saveDebounceTimer_fires
       (exec (heartbeat (always 60000) someSuffix editorInA)
             (activated 1000 editorInA)).
Definition nextMorning : World :=
  exec (heartbeat (always (msPerDay + 5000)) someSuffix editorInA)
       lastEvening.

Definition sessionIds (d : option DailyData.t) : list string :=
  match d with
  | Some d => map TrackingSession.sessionId (DailyData.sessions d)
  | None => []
  end.

Definition sessionEnds (d : option DailyData.t) : list (option Z) :=
  match d with
  | Some d => map TrackingSession.endTime (DailyData.sessions d)
  | None => []
  end.

Definition fileRecord (w : World) (date : string) : option DailyData.t :=
  match files (storage w) !! getDataFilePath date with
  | Some (Some d) => Some d
  | _ => None
  end.

(** ** Runs of the extension *)

(** What the host can make the two services do: the commands and the
    activation code of [extension.ts], the calls of [emailService.ts] and
    [statusBar.ts] into the storage, the listeners and the two timers.
    [getCurrentSession] has no caller in the extension and raises no
    event. *)
Inductive Event :=
  | Started (ide : VSCode)
  | Stopped
  | HeartbeatFired (ide : VSCode)
  | TextChanged
  | DocumentSaved (fsPath : string)
  | WindowStateChanged (focused : bool)
  | EditorChanged (ide : VSCode) (editor : option (string * string))
  | FoldersChanged (ide : VSCode)
  | ConfigurationChanged (ide : VSCode)
  | SaveTimerFired
  | TodayRead
  | EmailSent
  | SaveForced
  | TodayReset
  | CleanedUp.

Section Events.
Variable clock : nat → Z.
Variable random : nat → string.
Variable parseDate : string → option Z.
Variable localTZA : Z → bool → Z.

(** [resetTodayData] of [extension.ts], between its [stop()] and its
    [start()]: an empty record is written for today. *)
Definition writeEmptyToday : M unit :=
  let! today := getTodayDateString clock in
  saveDailyData (createEmptyDailyData today).

Definition handle (e : Event) : M unit :=
  match e with
  | Started ide => start clock random ide
  | Stopped => stop clock
  | HeartbeatFired ide => heartbeat clock random ide
  | TextChanged => recordActivity clock
  | DocumentSaved fsPath => recordActivity clock >>> recordFileEdit fsPath
  | WindowStateChanged focused => handleWindowStateChange clock focused
  | EditorChanged ide editor => handleEditorChange clock ide editor
  | FoldersChanged ide => updateCurrentRepo clock ide None
  | ConfigurationChanged ide => modTracker (set_config (loadConfig ide))
  | SaveTimerFired => saveDebounceTimer_fires
  | TodayRead => getTodayData clock >>> ret tt
  | EmailSent => markEmailSent clock
  | SaveForced => forceSave
  | TodayReset => writeEmptyToday
  | CleanedUp => cleanupOldData clock parseDate localTZA
  end.
End Events.

(** What the records and the live session are expected to satisfy. *)
Definition sessionGood (s : TrackingSession.t) : Prop :=
  conserved s ∧ Forall filesDistinct (TrackingSession.repositories s).

Definition recordGood (d : DailyData.t) : Prop :=
  Forall sessionGood (DailyData.sessions d) ∧
  Forall summaryDistinct (DailyData.repositories d) ∧
  DailyData.totalTime d
  = sumOf TrackingSession.totalDuration (DailyData.sessions d) ∧
  DailyData.activeTime d + DailyData.idleTime d = DailyData.totalTime d.

Definition storageGood (s : StorageFields) : Prop :=
  (∀ file d, files s !! file = Some (Some d) → recordGood d) ∧
  (∀ d, currentDayData s = Some d → recordGood d) ∧
  (∀ d, saveDebounceTimer s = Some d → recordGood d).

Definition trackerGood (t : TrackerFields) : Prop :=
  sessionGood (currentSession t) ∧
  Forall filesDistinct (dvalues (repoActivityMap t)).

Definition Good (w : World) : Prop :=
  trackerGood (tracker w) ∧ storageGood (storage w).

(** The worlds of all runs: the two services are constructed on a storage
    directory whose records, written by earlier runs, are good, and the
    host then raises events, each with clock readings of its own. *)
Inductive reachable : World → Prop :=
  | reachable_new clock random ide t0 dir :
      (∀ file d, dir !! file = Some (Some d) → recordGood d) →
      reachable (exec (newTrackerService clock random ide)
                      (mkWorld t0 (mkStorage dir None None) 0))
  | reachable_step clock random parseDate localTZA e w :
      reachable w →
      reachable (exec (handle clock random parseDate localTZA e) w).

(** The session as [saveCurrentSession] hands it to the storage: with the
    contexts of the live map and an end time. *)
Definition closedAt (endTime : Z) (t : TrackerFields) : TrackingSession.t :=
  let s := currentSession t in
  TrackingSession.mk
    (TrackingSession.sessionId s) (TrackingSession.startTime s)
    (Some endTime) (TrackingSession.totalDuration s)
    (TrackingSession.activeTime s) (TrackingSession.idleTime s)
    (dvalues (repoActivityMap t)).

(** The records a world holds: in memory, in the pending write, in the
    files. *)
Definition holds (w : World) (d : DailyData.t) : Prop :=
  currentDayData (storage w) = Some d ∨
  saveDebounceTimer (storage w) = Some d ∨
  ∃ file, files (storage w) !! file = Some (Some d).

(** ** The rest of types.ts *)

Module Duration.
Record t := mk {
  hours : Z;
  minutes : Z;
  formatted : string
}.
End Duration.

(** [formatDuration]. [Math.floor(a / b)] is the quotient [a / b] of
    [Z], which rounds down, and [a % b] is [Z.rem a b], whose sign is the
    sign of [a]. *)
Definition formatDuration (ms : Z) : Duration.t :=
  let totalMinutes := ms / 60000 in
  let hours := totalMinutes / 60 in
  let minutes := Z.rem totalMinutes 60 in
  if 0 <? hours
  then Duration.mk hours minutes
         (showZ hours +:+ "h " +:+ showZ minutes +:+ "m")
  else Duration.mk hours minutes (showZ minutes +:+ "m").

(** ** The rest of storage.ts *)

Section StorageReads.
Variable clock : nat → Z.
Variable localTZA : Z → bool → Z.

Definition wasEmailSentToday : M bool :=
  let! data := getTodayData clock in
  ret (DailyData.emailSent data).

(** The turns [i], [i + 1], ... of the loop of [getHistoricalData], [n] of
    them, on the list [result] built so far. *)
Fixpoint historicalLoop (today : Z) (i : nat) (n : nat)
  (result : list DailyData.t) : M (list DailyData.t) :=
  match n with
  | O => ret result
  | S n' =>
      let date := setDateBack localTZA (Z.of_nat i) today in
      let dateStr := isoDate date in
      let! data := loadDailyData dateStr in
      historicalLoop today (S i) n'
        (if 0 <? DailyData.totalTime data then result ++ [data]
         else result)
  end.

Definition getHistoricalData (days : nat) : M (list DailyData.t) :=
  let! today := newDate clock in
  historicalLoop today 0 days [].
End StorageReads.

Module AggregateTotals.
Record t := mk {
  last7Days : Z;
  overall : Z;
  weekToDate : Z;
  monthToDate : Z;
  yearToDate : Z
}.
End AggregateTotals.

(** The four instants [getAggregateTotals] compares the dates with. *)
Record Starts := mkStarts {
  startOfWeek : Z;
  startOfLast7 : Z;
  startOfMonth : Z;
  startOfYear : Z
}.

Section Aggregates.
Variable clock : nat → Z.
Variable parseDate : string → option Z.
Variable localTZA : Z → bool → Z.
(** [fs.readdirSync(this.storagePath)]: the names in the directory, in
    the order of the host. *)
Variable readdirSync : gmap string (option DailyData.t) → list string.

(** [Day(t)] of ECMAScript *)
Definition dayOf (t : Z) : Z := t / msPerDay.

(** [getDay()]: 1970-01-01 was a Thursday. *)
Definition getDay (t : Z) : Z := (dayOf (localTime localTZA t) + 4) mod 7.

Definition getFullYear (t : Z) : Z :=
  let '(y, _, _) := civilFromDays (dayOf (localTime localTZA t)) in y.

(** [getMonth()], from 0 *)
Definition getMonth (t : Z) : Z :=
  let '(_, m, _) := civilFromDays (dayOf (localTime localTZA t)) in m - 1.

(** [setHours(0, 0, 0, 0)] *)
Definition setHoursZero (t : Z) : Z :=
  utcTime localTZA (dayOf (localTime localTZA t) * msPerDay).

(** [new Date(year, monthIndex, 1)], for a month index from 0 to 11; a
    year from 0 to 99 is taken as a year of the twentieth century. *)
Definition newDateFirstOf (year monthIndex : Z) : Z :=
  let yr := if (0 <=? year) && (year <=? 99) then 1900 + year else year in
  utcTime localTZA (daysFromCivil yr (monthIndex + 1) 1 * msPerDay).

Definition getStartOfWeek (date : Z) : Z :=
  let result := date in
  let day := getDay result in
  let diff := (day + 6) mod 7 in
  let result := setDateBack localTZA diff result in
  setHoursZero result.

(** The first lines of [getAggregateTotals], down to the four calls of
    [setHours]. *)
Definition startsAt (now : Z) : Starts :=
  let startOfWeek := getStartOfWeek now in
  let startOfLast7 := setDateBack localTZA 6 now in
  let startOfMonth := newDateFirstOf (getFullYear now) (getMonth now) in
  let startOfYear := newDateFirstOf (getFullYear now) 0 in
  mkStarts (setHoursZero startOfWeek) (setHoursZero startOfLast7)
           (setHoursZero startOfMonth) (setHoursZero startOfYear).

(** The closure [addData], on the totals and the set [processedDates]. *)
Definition addData (starts : Starts) (data : DailyData.t)
  (acc : AggregateTotals.t * list string) : AggregateTotals.t * list string :=
  let (totals, processedDates) := acc in
  if String.eqb (DailyData.date data) ""
     || bool_decide (DailyData.date data ∈ processedDates)
  then acc
  else
    match parseDate (DailyData.date data) with
    | None => acc
    | Some dateObj =>
        let add (start : Z) (total : Z) :=
          if start <=? dateObj then total + DailyData.totalTime data
          else total in
        (AggregateTotals.mk
           (add (startOfLast7 starts) (AggregateTotals.last7Days totals))
           (AggregateTotals.overall totals + DailyData.totalTime data)
           (add (startOfWeek starts) (AggregateTotals.weekToDate totals))
           (add (startOfMonth starts) (AggregateTotals.monthToDate totals))
           (add (startOfYear starts) (AggregateTotals.yearToDate totals)),
         DailyData.date data :: processedDates)
    end.

(** The loop over the directory listing. *)
Fixpoint addFiles (starts : Starts) (files : list string)
  (acc : AggregateTotals.t * list string)
  : M (AggregateTotals.t * list string) :=
  match files with
  | [] => ret acc
  | file :: files =>
      if negb (endsWith ".json" file) then addFiles starts files acc
      else
        let dateStr := replaceFirst ".json" "" file in
        if bool_decide (dateStr ∈ snd acc) then addFiles starts files acc
        else
          let! data := loadDailyData dateStr in
          addFiles starts files (addData starts data acc)
  end.

Definition getAggregateTotals : M AggregateTotals.t :=
  let totals := AggregateTotals.mk 0 0 0 0 0 in
  let! now := newDate clock in
  let starts := startsAt now in
  let processedDates := [] in
  let! todayData := getTodayData clock in
  let acc := addData starts todayData (totals, processedDates) in
  let! s := getStorage in
  let files := readdirSync (files s) in
  let! acc := addFiles starts files acc in
  ret (fst acc).
End Aggregates.

(** ** extension.ts *)

Section Extension.
Variable clock : nat → Z.
Variable random : nat → string.

(** [resetTodayData]; the status bar and the notification it ends with
    hold no field of the two services. *)
Definition resetTodayData (ide : VSCode) : M unit :=
  stop clock >>>
  let! now := newDate clock in
  let emptyData := DailyData.mk (isoDate now) 0 0 0 [] [] [] false None in
  saveDailyData emptyData >>>
  start clock random ide.
End Extension.

(** ** gitService.ts: cleanRemoteUrl *)

(** [s.slice(0, -n)] *)
Definition dropLast (n : nat) (s : string) : string :=
  String.substring 0 (String.length s - n) s.

(** [s.indexOf('@')] *)
Fixpoint indexOfAt (s : string) : option nat :=
  match s with
  | EmptyString => None
  | String c s' => if Ascii.eqb c "@" then Some O else S <$> indexOfAt s'
  end.

(** What is left of [s] after a match of [/[^@]+@/] at its start: the
    class takes every character up to the first [@], and at least one. *)
Definition afterCredentials (s : string) : option string :=
  match indexOfAt s with
  | Some (S j) =>
      Some (String.substring (S (S j)) (String.length s - S (S j)) s)
  | _ => None
  end.

(** [s.replace(/\/\/[^@]+@/, '//')]: the leftmost match is replaced. *)
Fixpoint stripCredentials (s : string) : string :=
  match s with
  | EmptyString => EmptyString
  | String c s' =>
      match (if Ascii.eqb c "/"
             then match s' with
                  | String c' rest =>
                      if Ascii.eqb c' "/" then afterCredentials rest else None
                  | EmptyString => None
                  end
             else None) with
      | Some rest => "//" +:+ rest
      | None => String c (stripCredentials s')
      end
  end.

Definition cleanRemoteUrl (url : string) : string :=
  let url := if endsWith ".git" url then dropLast 4 url else url in
  let url := stripCredentials url in
  if String.prefix "git@" url
  then replaceFirst ":" "/" (replaceFirst "git@" "https://" url)
  else url.

(** ** Further observations *)

(** No occurrence of the character [c] in a string. *)
Fixpoint charFree (c : ascii) (s : string) : bool :=
  match s with
  | EmptyString => true
  | String c' s' => negb (Ascii.eqb c' c) && charFree c s'
  end.

(** [Object.keys(obj)], [Array.from(map.keys())] *)
Definition dkeys {V} (d : list (string * V)) : list string := map fst d.

(** All the contexts of a day, session after session. *)
Definition activitiesOf (ss : list TrackingSession.t) : list RepoActivity.t :=
  concat (map TrackingSession.repositories ss).

(** The time billed to the repository at [path], and the branches worked
    on in it, over a list of contexts. *)
Definition timeAt (path : string) (acts : list RepoActivity.t) : Z :=
  sumOf RepoActivity.timeSpent
        (filter (λ a, RepoActivity.repoPath a = path) acts).

Definition branchesAt (path : string) (acts : list RepoActivity.t)
  : list string :=
  map RepoActivity.branchName
      (filter (λ a, RepoActivity.repoPath a = path) acts).

(** The time of language [l] over a list of contexts. *)
Definition languageTimeOf (l : string) (acts : list RepoActivity.t) : Z :=
  sumOf (λ a, langTime l (RepoActivity.languages a)) acts.

(** What the local [repoMap] of [recalculateTotals] holds after the
    contexts [acts]: an entry for each path among them, and no other. *)
Definition summarises (acts : list RepoActivity.t)
  (m : list (string * RepoSummary.t)) : Prop :=
  NoDup (dkeys m) ∧
  ∀ k, match dget k m with
       | Some v =>
           RepoSummary.repoPath v = k ∧
           RepoSummary.totalTime v = timeAt k acts ∧
           NoDup (RepoSummary.branchesWorkedOn v) ∧
           (∀ b, b ∈ RepoSummary.branchesWorkedOn v ↔ b ∈ branchesAt k acts) ∧
           (∃ a, a ∈ acts ∧ RepoActivity.repoPath a = k)
       | None => ∀ a, a ∈ acts → RepoActivity.repoPath a ≠ k
       end.

(** The record [markEmailSent] makes of today's record. *)
Definition withEmailSent (at_ : Z) (data : DailyData.t) : DailyData.t :=
  DailyData.mk (DailyData.date data) (DailyData.totalTime data)
               (DailyData.activeTime data) (DailyData.idleTime data)
               (DailyData.sessions data) (DailyData.repositories data)
               (DailyData.languages data) true (Some at_).

(** The records that the turns [i], ..., [i + n - 1] of the loop of
    [getHistoricalData] look at. *)
Definition historyOf (localTZA : Z → bool → Z) (today : Z)
  (s : StorageFields) (i n : nat) : list DailyData.t :=
  map (λ j, loadedRecord
              (isoDate (setDateBack localTZA (Z.of_nat j) today)) s)
      (seq i n).

(** The share of a record in a total that counts the dates from [start]
    on; [None] is the total of all dates. *)
Definition amount (parseDate : string → option Z) (start : option Z)
  (data : DailyData.t) : Z :=
  if String.eqb (DailyData.date data) "" then 0
  else match parseDate (DailyData.date data) with
       | None => 0
       | Some dateObj =>
           if match start with
              | Some start => start <=? dateObj
              | None => true
              end
           then DailyData.totalTime data else 0
       end.

(** The records of the other dates that the loop of [getAggregateTotals]
    loads. *)
Definition otherRecords (s : StorageFields) (today : DailyData.t)
  (listing : list string) : list DailyData.t :=
  map (λ file, loadedRecord (replaceFirst ".json" "" file) s)
      (filter (λ file, endsWith ".json" file = true ∧
                       replaceFirst ".json" "" file ≠ DailyData.date today)
              listing).

Definition totalFrom (parseDate : string → option Z) (start : option Z)
  (today : DailyData.t) (others : list DailyData.t) : Z :=
  amount parseDate start today + sumOf (amount parseDate start) others.

Definition totalsFrom (parseDate : string → option Z) (starts : Starts)
  (today : DailyData.t) (others : list DailyData.t) : AggregateTotals.t :=
  AggregateTotals.mk
    (totalFrom parseDate (Some (startOfLast7 starts)) today others)
    (totalFrom parseDate None today others)
    (totalFrom parseDate (Some (startOfWeek starts)) today others)
    (totalFrom parseDate (Some (startOfMonth starts)) today others)
    (totalFrom parseDate (Some (startOfYear starts)) today others).

(** Every record file is named after the date of its record, and every
    name [x.json] of the listing has no full stop in [x]. *)
Definition namedByDate (dir : gmap string (option DailyData.t)) : Prop :=
  ∀ file d, dir !! file = Some (Some d) →
            file = getDataFilePath (DailyData.date d).

Definition plainNames (listing : list string) : Prop :=
  ∀ file, file ∈ listing → endsWith ".json" file = true →
          ∃ x, file = getDataFilePath x ∧ dotFree x = true.

Definition wellNamed (w : World) : Prop := namedByDate (files (storage w)).

(** One turn of the loop of [getAggregateTotals] on a storage whose files
    it only reads. *)
Definition addFile (parseDate : string → option Z) (s : StorageFields)
  (starts : Starts) (acc : AggregateTotals.t * list string) (file : string)
  : AggregateTotals.t * list string :=
  if negb (endsWith ".json" file) then acc
  else
    let dateStr := replaceFirst ".json" "" file in
    if bool_decide (dateStr ∈ snd acc) then acc
    else addData parseDate starts (loadedRecord dateStr s) acc.

(** A record that [addData] counts when its date is not yet processed. *)
Definition counted (parseDate : string → option Z) (data : DailyData.t)
  : bool :=
  negb (String.eqb (DailyData.date data) "")
  && bool_decide (is_Some (parseDate (DailyData.date data))).

(** What holds of the totals and of [processedDates] once the loop has
    gone through the names [pre]. *)
Definition loopState (parseDate : string → option Z) (starts : Starts)
  (s : StorageFields) (today : DailyData.t) (pre : list string)
  (acc : AggregateTotals.t * list string) : Prop :=
  fst acc = totalsFrom parseDate starts today (otherRecords s today pre) ∧
  (counted parseDate today = true → DailyData.date today ∈ snd acc) ∧
  (∀ x, x ∈ snd acc →
        x = DailyData.date today ∨
        ∃ file, file ∈ pre ∧ endsWith ".json" file = true ∧
                replaceFirst ".json" "" file = x).

(** The listeners of [setupEventListeners], in the order of their
    registration. *)
Definition allListeners : list Listener :=
  [OnDidChangeWindowState; OnDidChangeTextDocument;
   OnDidChangeActiveTextEditor; OnDidSaveTextDocument;
   OnDidChangeWorkspaceFolders; OnDidChangeConfiguration].

(** What ties the listeners and the heartbeat timer to [isTracking]. *)
Definition wiring (t : TrackerFields) : bool * list Listener * option Z :=
  (TrackingState.isTracking (state t), disposables t, heartbeatInterval t).

Definition wired (t : TrackerFields) : Prop :=
  if TrackingState.isTracking (state t)
  then disposables t = allListeners ∧ is_Some (heartbeatInterval t)
  else disposables t = [] ∧ heartbeatInterval t = None.

(** Computations that leave an observation of the world as it is, and
    computations that maintain a property of it. *)
Definition keeps {X A} (obs : World → X) (m : M A) : Prop :=
  ∀ w, obs (snd (m w)) = obs w.

Definition preserves {A} (P : World → Prop) (m : M A) : Prop :=
  ∀ w, P w → P (snd (m w)).

(** Observations of the tracker object alone. *)
Definition ofTracker {X} (f : TrackerFields → X) : World → X :=
  λ w, f (tracker w).

(** [this.state] after the call of [exitIdleState] in [recordActivity],
    [now] being the clock reading of that call. *)
Definition activeAgain (now : Z) (st : TrackingState.t) : TrackingState.t :=
  if TrackingState.isIdle st
  then with_idleStartTime None
         (with_isIdle false
            (match TrackingState.idleStartTime st with
             | Some idleStartTime =>
                 with_sessionIdleTime
                   (TrackingState.sessionIdleTime st + (now - idleStartTime))
                   st
             | None => st
             end))
  else st.

(** The files recorded for the context [key] in the live map. *)
Definition filesOf (key : string) (t : TrackerFields) : list string :=
  match dget key (repoActivityMap t) with
  | Some activity => RepoActivity.filesEdited activity
  | None => []
  end.

(** The world after the first part of [stop]: the current context is
    finalized and the counters are brought up to date. *)
Definition beforeFinalSave (clock : nat → Z) (w : World) : World :=
  exec (updateTimeCounters clock)
    (match TrackingState.currentRepo (state (tracker w)) with
     | Some currentRepo => exec (finalizeRepoTime clock currentRepo) w
     | None => w
     end).

(** What a stored session and a stored record hold apart from the
    contexts, which a stored session shares with the live map. *)
Definition sessionCounters (s : TrackingSession.t)
  : string * Z * option Z * Z * Z * Z :=
  (TrackingSession.sessionId s, TrackingSession.startTime s,
   TrackingSession.endTime s, TrackingSession.totalDuration s,
   TrackingSession.activeTime s, TrackingSession.idleTime s).

Definition recordCounters (d : DailyData.t)
  : string * Z * Z * Z * list (string * Z * option Z * Z * Z * Z) :=
  (DailyData.date d, DailyData.totalTime d, DailyData.activeTime d,
   DailyData.idleTime d, map sessionCounters (DailyData.sessions d)).

(** The day's record of the example with an activity event, its session
    closed at 00:01:00. *)
Definition busyRecord : DailyData.t :=
  updateSessionOn (closedAt 60000 (tracker busyWorld))
                  (createEmptyDailyData "1970-01-01").

(** A storage directory with the records of 1970-01-02 and 1970-04-01 and
    a file that is no record, and a host whose [readdirSync] lists the
    names in the order of the directory. *)
Definition archiveWorld : World :=
  mkWorld (tracker unbuilt)
    (mkStorage
       (<["1970-01-02.json" :=
            Some (DailyData.mk "1970-01-02" 1000 1000 0 [] [] [] false None)]>
        (<["1970-04-01.json" :=
             Some (DailyData.mk "1970-04-01" 500 400 100 [] [] [] false None)]>
         (<["notes.json" := None]> ∅)))
       None None)
    0.

Definition directoryListing (dir : gmap string (option DailyData.t))
  : list string :=
  (map_to_list dir).*1.

(** A context whose [languages] object has plain keys only (and, as an
    object, no key twice). *)
Definition plainLanguages (a : RepoActivity.t) : Prop :=
  NoDup (dkeys (RepoActivity.languages a)) ∧
  Forall (λ k, plainKey k = true) (dkeys (RepoActivity.languages a)).

(** Two sittings on one day: the example with an activity event goes on
    to the heartbeat of 00:01:00 and is stopped at 00:01:10; tracking is
    started again at 00:01:20, with an activity event at 00:01:25 and the
    heartbeat of 00:02:00. The day's record then holds two sessions. *)
Definition firstSitting : World :=
  exec (stop (always 70000))
       (exec (heartbeat (always 60000) someSuffix editorInA) busyWorld).
Definition twoSessions : World :=
  exec (heartbeat (always 120000) someSuffix editorInA)
       (exec (recordActivity (always 85000))
             (exec (start (always 80000) someSuffix editorInA) firstSitting)).
Definition twoSessionsRecord : DailyData.t :=
  todayRecord "1970-01-01" (storage twoSessions).

(** The example with an activity event after two files were saved; the
    same run as a sequence of events, the first file saved once more,
    up to the heartbeat of 00:01:00; and a day's record with two
    sessions that edited the same files. *)
Definition twoFiles : World :=
  exec (recordFileEdit "/a/g.ts") (exec (recordFileEdit "/a/f.ts") busyWorld).

Definition savedEvening : World :=
  exec (handle (always 60000) someSuffix parseDateOnly centralEurope
               (HeartbeatFired editorInA))
    (exec (handle (always 8000) someSuffix parseDateOnly centralEurope
                  (DocumentSaved "/a/f.ts"))
       (exec (handle (always 7000) someSuffix parseDateOnly centralEurope
                     (DocumentSaved "/a/g.ts"))
          (exec (handle (always 6000) someSuffix parseDateOnly centralEurope
                        (DocumentSaved "/a/f.ts"))
             busyWorld))).

Definition sharedFilesRecord : DailyData.t :=
  let s := closedAt 60000 (tracker twoFiles) in
  updateSessionOn
    (TrackingSession.mk "session_70000_k3x9q1z7a" 70000 (Some 90000)
                        20000 20000 0 (TrackingSession.repositories s))
    (updateSessionOn s (createEmptyDailyData "1970-01-01")).

(** Local time in Berlin in 2024 up to the end of October: one hour
    east of UTC until 2024-03-31T01:00Z, two hours from then on. A local
    time that the change skips is read with the offset before it. *)
Definition berlin2024 : Z → bool → Z := λ t isUTC,
  let change := 19813 * msPerDay + 3600000 in
  if isUTC
  then if t <? change then 3600000 else 7200000
  else if t <? change + 7200000 then 3600000 else 7200000.

(** A storage directory with the record of 2024-03-18. *)
Definition summerWorld : World :=
  mkWorld (tracker unbuilt)
    (mkStorage
       (<["2024-03-18.json" := Some (createEmptyDailyData "2024-03-18")]> ∅)
       None None)
    0.

(** * Properties *)

(** ** The state monad *)

Lemma exec_bind {A B} (m : M A) (k : A → M B) (w : World) :
  exec (bind m k) w = exec (k (fst (m w))) (snd (m w)).
Proof. unfold exec, bind. now destruct (m w). Qed.

Lemma run_bind {A B} (m : M A) (k : A → M B) (w : World) :
  bind m k w = k (fst (m w)) (snd (m w)).
Proof. unfold bind. now destruct (m w). Qed.

(** Unfolds the monadic plumbing of a goal or of a hypothesis down to
    the record operations. *)
Ltac monad_unfold :=
  unfold exec, when, bind, ret, getState, getTracker, getStorage, modState,
    modTracker, modStorage, newDate, newRandom in *.

#[global] Arguments isoDate : simpl never.
#[global] Arguments showZ : simpl never.
#[global] Arguments updateSessionOn : simpl never.
#[global] Arguments countersAt : simpl never.
#[global] Arguments getDataFilePath : simpl never.
#[global] Arguments recalculateTotals : simpl never.
#[global] Arguments getTodayData : simpl never.
#[global] Arguments loadDailyData : simpl never.
#[global] Arguments saveDailyData : simpl never.
#[global] Arguments saveTodayData : simpl never.
#[global] Arguments forceSave : simpl never.
#[global] Arguments updateSession : simpl never.
#[global] Arguments cleanupOldData : simpl never.
#[global] Arguments initializeState : simpl never.
#[global] Arguments createNewSession : simpl never.
#[global] Arguments addTimeToRepo : simpl never.
#[global] Arguments finalizeRepoTime : simpl never.
#[global] Arguments enterIdleState : simpl never.
#[global] Arguments exitIdleState : simpl never.
#[global] Arguments recordActivity : simpl never.
#[global] Arguments updateCurrentRepo : simpl never.
#[global] Arguments recordFileEdit : simpl never.
#[global] Arguments updateTimeCounters : simpl never.
#[global] Arguments saveCurrentSession : simpl never.
#[global] Arguments handleDayChange : simpl never.
#[global] Arguments heartbeat : simpl never.
#[global] Arguments start : simpl never.
#[global] Arguments stop : simpl never.

(** ** Frame properties of the methods *)

Section Frames.
Variable clock : nat → Z.
Variable random : nat → string.

Lemma tracker_getTodayData w :
  tracker (snd (getTodayData clock w)) = tracker w.
Proof.
  unfold getTodayData, getTodayDateString, loadDailyData. monad_unfold. cbn.
  destruct (currentDayData (storage w)) as [d|]; cbn.
  - destruct (String.eqb _ _); cbn; [done|].
    destruct (files (storage w) !! _) as [[?|]|]; done.
  - destruct (files (storage w) !! _) as [[?|]|]; done.
Qed.

Lemma tracker_updateSession session w :
  tracker (snd (updateSession clock session w)) = tracker w.
Proof.
  unfold updateSession. rewrite run_bind. unfold saveTodayData.
  monad_unfold. cbn. apply tracker_getTodayData.
Qed.

Lemma state_updateTimeCounters w :
  state (tracker (snd (updateTimeCounters clock w))) = state (tracker w).
Proof. reflexivity. Qed.

Lemma state_saveCurrentSession w :
  state (tracker (snd (saveCurrentSession clock w))) = state (tracker w).
Proof.
  unfold saveCurrentSession. rewrite !run_bind. cbn.
  rewrite tracker_updateSession. reflexivity.
Qed.

Lemma enterIdleState_state w :
  state (tracker (snd (enterIdleState w))) =
  if TrackingState.isIdle (state (tracker w)) then state (tracker w)
  else with_idleStartTime
         (Some (TrackingState.lastActivityTime (state (tracker w))))
         (with_isIdle true (state (tracker w))).
Proof.
  unfold enterIdleState. rewrite run_bind. cbn.
  destruct (TrackingState.isIdle (state (tracker w))) eqn:E; [done|].
  cbn. destruct (state (tracker w)); reflexivity.
Qed.

(** A heartbeat that neither returns at once nor rolls the day over
    leaves in [this.state] what its idle check leaves. *)
Lemma heartbeat_state ide w :
  TrackingState.isTracking (state (tracker w)) = true →
  isoDate (clock (S (queries w))) =
    isoDate (TrackingSession.startTime (currentSession (tracker w))) →
  state (tracker (exec (heartbeat clock random ide) w)) =
  let st := state (tracker w) in
  if negb (TrackingState.isIdle st)
     && (TrackingConfig.idleThresholdMinutes (config (tracker w)) * 60 * 1000
         <? clock (queries w) - TrackingState.lastActivityTime st)
  then with_idleStartTime (Some (TrackingState.lastActivityTime st))
         (with_isIdle true st)
  else st.
Proof.
  intros Ht Hd.
  unfold heartbeat. rewrite exec_bind. cbn. rewrite Ht. cbn.
  rewrite !exec_bind. cbn. rewrite Hd, String.eqb_refl. cbn.
  rewrite !exec_bind. unfold exec, onTimeUpdate, ret. cbn.
  rewrite tracker_getTodayData, state_saveCurrentSession,
    state_updateTimeCounters.
  destruct (negb _ && _) eqn:E; cbn; [|done].
  rewrite enterIdleState_state. cbn.
  apply andb_prop in E as [E _]. apply negb_true_iff in E. now rewrite E.
Qed.
End Frames.

(** ** Idle threshold *)

(** C6, as the code has it. A heartbeat of a tracking, non-idle tracker
    that finds the session started on the current date, with
    [idleThresholdMinutes = 3], enters the idle state exactly when the
    time since the last activity is strictly more than 180000 ms: not at
    a gap of 3:00, but at a gap of 3:01; and on entering,
    [idleStartTime] is the [lastActivityTime]. *)
Theorem heartbeat_idle_threshold clock random ide w :
  TrackingState.isTracking (state (tracker w)) = true →
  TrackingState.isIdle (state (tracker w)) = false →
  TrackingConfig.idleThresholdMinutes (config (tracker w)) = 3 →
  isoDate (clock (S (queries w))) =
    isoDate (TrackingSession.startTime (currentSession (tracker w))) →
  let gap :=
    clock (queries w) - TrackingState.lastActivityTime (state (tracker w)) in
  let st' := state (tracker (exec (heartbeat clock random ide) w)) in
  (TrackingState.isIdle st' = true ↔ gap > 3 * 60 * 1000) ∧
  (gap = 180000 → TrackingState.isIdle st' = false) ∧
  (gap = 181000 → TrackingState.isIdle st' = true) ∧
  (TrackingState.isIdle st' = true →
   TrackingState.idleStartTime st'
   = Some (TrackingState.lastActivityTime (state (tracker w)))).
Proof.
  intros Ht Hi Hc Hd gap st'.
  assert (Hst : st' =
    if 180000 <? gap
    then with_idleStartTime
           (Some (TrackingState.lastActivityTime (state (tracker w))))
           (with_isIdle true (state (tracker w)))
    else state (tracker w)).
  { subst st' gap. rewrite heartbeat_state by assumption.
    cbn zeta. rewrite Hi, Hc. reflexivity. }
  clearbody st'. subst st'.
  destruct (Z.ltb_spec 180000 gap) as [Hlt | Hge].
  - destruct (state (tracker w)); cbn in *.
    repeat split; intros; try reflexivity; lia.
  - rewrite Hi. repeat split; intros; try reflexivity; try lia; discriminate.
Qed.

Lemma heartbeat_idle_threshold_witness :
  let w := activated 1000 editorInA in
  let st' :=
    state (tracker (exec (heartbeat (always 182000) someSuffix editorInA) w)) in
  (TrackingState.isIdle st' = true ↔ 182000 - 1000 > 3 * 60 * 1000) ∧
  TrackingState.idleStartTime st' = Some 1000.
Proof.
  pose proof (heartbeat_idle_threshold (always 182000) someSuffix editorInA
                (activated 1000 editorInA)
                eq_refl eq_refl eq_refl eq_refl) as (H1 & _ & H3 & H4).
  split.
  - exact H1.
  - apply H4. apply H3. reflexivity.
Defined.

(** C6 fails as stated. The last activity was at 00:00:01 of 1970-01-01
    and the tracker is not idle; the heartbeat of 00:00:05 of the next
    day finds a gap of 86404 s, far above three minutes, and a changed
    date: it closes the session, starts a new one and returns before the
    idle check, so that the tracker is not idle after it. *)
Lemma rollover_heartbeat_skips_idle_check :
  let now := msPerDay + 5000 in
  let gap :=
    now - TrackingState.lastActivityTime (state (tracker lastEvening)) in
  let st' := state (tracker (exec (heartbeat (always now) someSuffix editorInA)
                                  lastEvening)) in
  TrackingState.isTracking (state (tracker lastEvening)) = true ∧
  TrackingState.isIdle (state (tracker lastEvening)) = false ∧
  TrackingConfig.idleThresholdMinutes (config (tracker lastEvening)) = 3 ∧
  gap = 86404000 ∧
  TrackingState.isIdle st' = false ∧
  ¬ (TrackingState.isIdle st' = true ↔ gap > 3 * 60 * 1000).
Proof.
  vm_compute. repeat split; try reflexivity.
  intros [_ H]. discriminate H. reflexivity.
Qed.


(** ** Start and stop *)

Section StartStop.
Variable clock : nat → Z.
Variable random : nat → string.

Lemma isTracking_updateCurrentRepo ide fp w :
  TrackingState.isTracking
    (state (tracker (snd (updateCurrentRepo clock ide fp w))))
  = TrackingState.isTracking (state (tracker w)).
Proof.
  unfold updateCurrentRepo.
  generalize (resolveRepo ide fp). intros repoInfo.
  rewrite !run_bind. cbn.
  destruct (TrackingState.currentRepo (state (tracker w))) as [cur|],
    repoInfo as [info|]; cbn;
    repeat match goal with
           | |- context [when ?b _] => destruct b; cbn
           | |- context [match workspaceFolder ?i with _ => _ end] =>
               destruct (workspaceFolder i); cbn
           end; reflexivity.
Qed.

Lemma isTracking_start ide w :
  TrackingState.isTracking (state (tracker (exec (start clock random ide) w)))
  = true.
Proof.
  unfold start, exec. rewrite run_bind. cbn.
  destruct (TrackingState.isTracking (state (tracker w))) eqn:E; [exact E|].
  rewrite !run_bind. rewrite isTracking_updateCurrentRepo.
  reflexivity.
Qed.

Lemma isTracking_stop w :
  TrackingState.isTracking (state (tracker (exec (stop clock) w))) = false.
Proof.
  unfold stop, exec. rewrite run_bind. cbn.
  destruct (TrackingState.isTracking (state (tracker w))) eqn:E; [|exact E].
  cbn. rewrite !run_bind. reflexivity.
Qed.

Lemma start_when_tracking ide w :
  TrackingState.isTracking (state (tracker w)) = true →
  start clock random ide w = (tt, w).
Proof. intros H. unfold start. rewrite run_bind. cbn. now rewrite H. Qed.

Lemma stop_when_stopped w :
  TrackingState.isTracking (state (tracker w)) = false →
  stop clock w = (tt, w).
Proof. intros H. unfold stop. rewrite run_bind. cbn. now rewrite H. Qed.
End StartStop.

(** C9. [start()] on a tracker that is tracking and [stop()] on one that
    is not return at once: no field of either service changes and the
    clock is not even read; hence a second [start()] after a first, and a
    second [stop()] after a first, change nothing. *)
Theorem start_stop_idempotent :
  (∀ clock random ide w,
     TrackingState.isTracking (state (tracker w)) = true →
     start clock random ide w = (tt, w)) ∧
  (∀ clock w,
     TrackingState.isTracking (state (tracker w)) = false →
     stop clock w = (tt, w)) ∧
  (∀ clock random ide clock' random' ide' w,
     exec (start clock' random' ide') (exec (start clock random ide) w)
     = exec (start clock random ide) w) ∧
  (∀ clock clock' w,
     exec (stop clock') (exec (stop clock) w) = exec (stop clock) w).
Proof.
  split; [|split; [|split]].
  - apply start_when_tracking.
  - apply stop_when_stopped.
  - intros. unfold exec at 1.
    rewrite start_when_tracking; [reflexivity|apply isTracking_start].
  - intros. unfold exec at 1.
    rewrite stop_when_stopped; [reflexivity|apply isTracking_stop].
Qed.

Lemma start_stop_idempotent_witness :
  start (always 5000) someSuffix editorInB (activated 1000 editorInA)
  = (tt, activated 1000 editorInA) ∧
  stop (always 5000)
       (exec (newTrackerService (always 1000) someSuffix editorInA) unbuilt)
  = (tt, exec (newTrackerService (always 1000) someSuffix editorInA) unbuilt).
Proof.
  destruct start_stop_idempotent as (Hstart & Hstop & _).
  split.
  - apply Hstart. reflexivity.
  - apply Hstop. reflexivity.
Defined.

(** ** Dictionaries *)


Section DictFacts.
Context {V : Type}.
Implicit Types (d : list (string * V)) (k : string).

Lemma dget_dupd_eq k f d : dget k (dupd k f d) = Some (f (dget k d)).
Proof.
  induction d as [|[k' v] d IH]; cbn.
  - now rewrite String.eqb_refl.
  - destruct (String.eqb_spec k k') as [->|Hne]; cbn.
    + now rewrite String.eqb_refl.
    + destruct (String.eqb_spec k k'); [done|]. exact IH.
Qed.

Lemma dget_dupd_ne k k' f d : k ≠ k' → dget k' (dupd k f d) = dget k' d.
Proof.
  intros Hne. induction d as [|[k0 v] d IH]; cbn.
  - destruct (String.eqb_spec k' k); [congruence|done].
  - destruct (String.eqb_spec k k0) as [->|Hk]; cbn.
    + destruct (String.eqb_spec k' k0); [congruence|done].
    + destruct (String.eqb_spec k' k0); [done|exact IH].
Qed.

(** A property of all values survives an update that maintains it. *)
Lemma Forall_dupd (P : V → Prop) k f d :
  P (f None) → (∀ v, P v → P (f (Some v))) →
  Forall P (dvalues d) → Forall P (dvalues (dupd k f d)).
Proof.
  intros Hnew Hupd. induction d as [|[k' v] d IH]; cbn; intros H.
  - constructor; [exact Hnew|constructor].
  - inversion H as [|? ? Hv Hd]; subst.
    destruct (String.eqb k k'); cbn; constructor; auto.
Qed.

Lemma dget_Forall (P : V → Prop) k d v :
  Forall P (dvalues d) → dget k d = Some v → P v.
Proof.
  induction d as [|[k' v'] d IH]; cbn; [discriminate|].
  intros H E. inversion H; subst.
  destruct (String.eqb k k'); [now inversion E; subst|auto].
Qed.
End DictFacts.

Lemma pushNew_NoDup x l : NoDup l → NoDup (pushNew x l).
Proof.
  intros H. unfold pushNew. case_bool_decide as Hin; [exact H|].
  apply NoDup_app. repeat split; [exact H| |apply NoDup_singleton].
  intros y Hy Hy'. apply list_elem_of_singleton in Hy'. now subst.
Qed.

Lemma fold_pushNew_NoDup fs : ∀ l,
  NoDup l → NoDup (fold_left (λ fs file, pushNew file fs) fs l).
Proof.
  induction fs as [|f fs IH]; intros l H; cbn; [exact H|].
  apply IH, pushNew_NoDup, H.
Qed.

Lemma aggregateRepo_distinct m repo :
  filesDistinct repo →
  Forall summaryDistinct (dvalues m) →
  Forall summaryDistinct (dvalues (aggregateRepo m repo)).
Proof.
  intros Hr. unfold aggregateRepo. apply Forall_dupd.
  - exact Hr.
  - intros v Hv. unfold summaryDistinct. cbn. now apply fold_pushNew_NoDup.
Qed.

Lemma fold_aggregateRepo_distinct repos : ∀ m,
  Forall filesDistinct repos →
  Forall summaryDistinct (dvalues m) →
  Forall summaryDistinct (dvalues (fold_left aggregateRepo repos m)).
Proof.
  induction repos as [|r repos IH]; intros m Hr Hm; cbn; [exact Hm|].
  inversion Hr; subst. apply IH; [assumption|].
  now apply aggregateRepo_distinct.
Qed.

Lemma repoMapOf_distinct ss : ∀ m,
  Forall (λ s, Forall filesDistinct (TrackingSession.repositories s)) ss →
  Forall summaryDistinct (dvalues m) →
  Forall summaryDistinct (dvalues (repoMapOf ss m)).
Proof.
  induction ss as [|s ss IH]; intros m Hs Hm; cbn; [exact Hm|].
  inversion Hs; subst. apply IH; [assumption|].
  now apply fold_aggregateRepo_distinct.
Qed.

(** ** Recomputation of a day's totals *)

Lemma fold_aggregateSession ss : ∀ d m,
  fold_left aggregateSession ss (d, m) =
  (DailyData.mk
     (DailyData.date d)
     (DailyData.totalTime d + sumOf TrackingSession.totalDuration ss)
     (DailyData.activeTime d + sumOf TrackingSession.activeTime ss)
     (DailyData.idleTime d + sumOf TrackingSession.idleTime ss)
     (DailyData.sessions d) (DailyData.repositories d)
     (languagesOf ss (DailyData.languages d))
     (DailyData.emailSent d) (DailyData.emailSentAt d),
   repoMapOf ss m).
Proof.
  induction ss as [|s ss IH]; intros d m; cbn.
  - rewrite !Z.add_0_r. now destruct d.
  - rewrite IH. unfold languagesOf, repoMapOf. cbn.
    f_equal. f_equal; unfold sumOf; lia.
Qed.

(** [recalculateTotals] in closed form: every aggregate is a fold of the
    session list, and nothing of the former aggregates is read. *)
Lemma recalculateTotals_eq d :
  recalculateTotals d =
  DailyData.mk
    (DailyData.date d)
    (sumOf TrackingSession.totalDuration (DailyData.sessions d))
    (sumOf TrackingSession.activeTime (DailyData.sessions d))
    (sumOf TrackingSession.idleTime (DailyData.sessions d))
    (DailyData.sessions d)
    (dvalues (repoMapOf (DailyData.sessions d) []))
    (languagesOf (DailyData.sessions d) [])
    (DailyData.emailSent d) (DailyData.emailSentAt d).
Proof.
  unfold recalculateTotals. rewrite fold_aggregateSession. reflexivity.
Qed.

Lemma sumOf_conserved ss :
  Forall conserved ss →
  sumOf TrackingSession.activeTime ss + sumOf TrackingSession.idleTime ss
  = sumOf TrackingSession.totalDuration ss.
Proof.
  induction 1 as [|s ss Hs _ IH]; cbn; [reflexivity|].
  unfold conserved in Hs. unfold sumOf in *. cbn in *. lia.
Qed.

Lemma countersAt_conserved now st s : conserved (countersAt now st s).
Proof.
  unfold conserved, countersAt.
  destruct (TrackingState.isIdle st), (TrackingState.idleStartTime st);
    cbn; lia.
Qed.

(** ** Replacing a session by id *)
Lemma putSession_cons s x l :
  putSession s (x :: l) =
  if String.eqb (TrackingSession.sessionId x) (TrackingSession.sessionId s)
  then s :: l else x :: putSession s l.
Proof.
  unfold putSession. cbn.
  destruct (String.eqb _ _); [reflexivity|].
  destruct (findIndex _ l); reflexivity.
Qed.

Lemma putSession_idem s l : putSession s (putSession s l) = putSession s l.
Proof.
  induction l as [|x l IH].
  - unfold putSession. cbn. now rewrite String.eqb_refl.
  - rewrite putSession_cons.
    destruct (String.eqb _ _) eqn:E.
    + rewrite putSession_cons, String.eqb_refl. reflexivity.
    + rewrite putSession_cons, E, IH. reflexivity.
Qed.

Lemma updateSessionOn_eq s d :
  updateSessionOn s d =
  let ss := putSession s (DailyData.sessions d) in
  DailyData.mk (DailyData.date d)
    (sumOf TrackingSession.totalDuration ss)
    (sumOf TrackingSession.activeTime ss)
    (sumOf TrackingSession.idleTime ss)
    ss (dvalues (repoMapOf ss [])) (languagesOf ss [])
    (DailyData.emailSent d) (DailyData.emailSentAt d).
Proof. unfold updateSessionOn. now rewrite recalculateTotals_eq. Qed.

Lemma updateSessionOn_idem s d :
  updateSessionOn s (updateSessionOn s d) = updateSessionOn s d.
Proof.
  rewrite (updateSessionOn_eq s (updateSessionOn s d)).
  rewrite (updateSessionOn_eq s d). cbn. now rewrite putSession_idem.
Qed.

(** ** Upserting a session into today's record *)

#[global] Arguments todayRecord : simpl never.
#[global] Arguments loadedRecord : simpl never.

Section StorageRuns.
Variable clock : nat → Z.

Lemma getTodayData_run w :
  getTodayData clock w =
  let d := todayRecord (isoDate (clock (queries w))) (storage w) in
  (d, mkWorld (tracker w) (set_currentDayData (Some d) (storage w))
              (S (queries w))).
Proof.
  unfold getTodayData, getTodayDateString, loadDailyData, todayRecord,
    loadedRecord.
  monad_unfold. cbn.
  destruct w as [t [fs cur tm] q]; cbn.
  destruct cur as [d|]; cbn.
  - destruct (String.eqb _ _); cbn; [done|].
    destruct (fs !! _) as [[?|]|]; done.
  - destruct (fs !! _) as [[?|]|]; done.
Qed.

Lemma updateSession_run session w :
  updateSession clock session w =
  let d := updateSessionOn session
             (todayRecord (isoDate (clock (queries w))) (storage w)) in
  (tt, mkWorld (tracker w)
               (mkStorage (files (storage w)) (Some d) (Some d))
               (S (queries w))).
Proof.
  unfold updateSession. rewrite run_bind, getTodayData_run. reflexivity.
Qed.
End StorageRuns.

Lemma updateSessionOn_date s d :
  DailyData.date (updateSessionOn s d) = DailyData.date d.
Proof. now rewrite updateSessionOn_eq. Qed.

Lemma putSession_elem s l : s ∈ putSession s l.
Proof.
  induction l as [|x l IH].
  - unfold putSession. cbn. apply list_elem_of_singleton. reflexivity.
  - rewrite putSession_cons. destruct (String.eqb _ _).
    + apply list_elem_of_here.
    + now apply list_elem_of_further.
Qed.

(** Two calls of [updateSession] with one session on one day: the second
    leaves the storage object as the first left it. *)
Lemma updateSession_twice clock clock' session w :
  let w1 := exec (updateSession clock session) w in
  isoDate (clock' (queries w1)) = isoDate (clock (queries w)) →
  storage (exec (updateSession clock' session) w1) = storage w1.
Proof.
  intros w1 Hday. subst w1. unfold exec in *.
  rewrite updateSession_run in *. cbn in *. rewrite updateSession_run. cbn.
  rewrite Hday.
  set (today := isoDate (clock (queries w))).
  assert (E : updateSessionOn session
                (todayRecord today
                   (mkStorage (files (storage w))
                      (Some (updateSessionOn session
                               (todayRecord today (storage w))))
                      (Some (updateSessionOn session
                               (todayRecord today (storage w))))))
              = updateSessionOn session (todayRecord today (storage w))).
  { unfold todayRecord at 1. cbn. rewrite updateSessionOn_date.
    destruct (String.eqb_spec (DailyData.date (todayRecord today (storage w)))
                today) as [Heq|Hne].
    - apply updateSessionOn_idem.
    - f_equal. unfold todayRecord in *. unfold loadedRecord at 1. cbn.
      destruct (currentDayData (storage w)) as [d|]; [|reflexivity].
      destruct (String.eqb_spec (DailyData.date d) today); [done|reflexivity]. }
  now rewrite E.
Qed.


(** ** Retention *)

Lemma dotFree_app s t : dotFree (s +:+ t) = dotFree s && dotFree t.
Proof.
  induction s as [|c s IH]; simpl; [reflexivity|].
  now rewrite IH, andb_assoc.
Qed.

Lemma digitChar_not_dot n : Ascii.eqb (digitChar n) "." = false.
Proof.
  unfold digitChar.
  assert (H : (Z.to_nat (n mod 10) < 10)%nat).
  { pose proof (Z.mod_pos_bound n 10). lia. }
  revert H. generalize (Z.to_nat (n mod 10)). intros k Hk.
  do 10 (destruct k as [|k]; [reflexivity|]). lia.
Qed.

Lemma padDigits_dotFree w : ∀ n, dotFree (padDigits w n) = true.
Proof.
  induction w as [|w IH]; intros n; cbn; [reflexivity|].
  rewrite dotFree_app, IH. cbn. now rewrite digitChar_not_dot.
Qed.

Lemma isoDate_dotFree ms : dotFree (isoDate ms) = true.
Proof.
  unfold isoDate. destruct (civilFromDays _) as [[y m] d].
  cbv zeta. destruct (_ && _), (y <? 0);
    now rewrite !dotFree_app, !padDigits_dotFree.
Qed.

Lemma prefix_cons_ne a p c s :
  a ≠ c → String.prefix (String a p) (String c s) = false.
Proof.
  intros Hne.
  change (String.prefix (String a p) (String c s))
    with (if ascii_dec a c then String.prefix p s else false).
  now destruct (ascii_dec a c).
Qed.

Lemma replaceFirst_cons pat rep c s :
  String.prefix pat (String c s) = false →
  replaceFirst pat rep (String c s) = String c (replaceFirst pat rep s).
Proof.
  intros H.
  change (replaceFirst pat rep (String c s))
    with (if String.prefix pat (String c s)
          then rep +:+ String.substring (String.length pat)
                 (String.length (String c s) - String.length pat)
                 (String c s)
          else String c (replaceFirst pat rep s)).
  now rewrite H.
Qed.

Lemma replaceFirst_json s :
  dotFree s = true → replaceFirst ".json" "" (s +:+ ".json") = s.
Proof.
  induction s as [|c s IH]; intros H; [reflexivity|].
  cbn [dotFree] in H. apply andb_prop in H as [Hc Hs].
  change (String c s +:+ ".json") with (String c (s +:+ ".json")).
  rewrite replaceFirst_cons.
  - now rewrite IH.
  - apply prefix_cons_ne. intros <-. discriminate.
Qed.

Lemma substring_app_length s t m :
  String.substring (String.length s) m (s +:+ t) = String.substring 0 m t.
Proof. induction s as [|c s IH]; simpl; [reflexivity|exact IH]. Qed.

Lemma length_app s t :
  String.length (s +:+ t) = (String.length s + String.length t)%nat.
Proof. induction s as [|c s IH]; simpl; [reflexivity|now rewrite IH]. Qed.

Lemma endsWith_json s : endsWith ".json" (s +:+ ".json") = true.
Proof.
  unfold endsWith. rewrite length_app.
  change (String.length ".json") with 5%nat.
  replace (String.length s + 5 - 5)%nat with (String.length s) by lia.
  rewrite substring_app_length.
  apply andb_true_intro. split; [apply Nat.leb_le; lia|reflexivity].
Qed.

Section Cleanup.
Variable clock : nat → Z.
Variable parseDate : string → option Z.
Variable localTZA : Z → bool → Z.

Lemma cleanupOldData_lookup w file :
  files (storage (exec (cleanupOldData clock parseDate localTZA) w)) !! file =
  if isOldDataFile parseDate (setDateBack localTZA 90 (clock (queries w))) file
  then None else files (storage w) !! file.
Proof.
  unfold cleanupOldData, exec. rewrite run_bind. cbn.
  rewrite map_lookup_filter. cbn.
  destruct (files (storage w) !! file) as [x|] eqn:E; cbn.
  - destruct (isOldDataFile _ _ _) eqn:Eo.
    + rewrite option_guard_False; [reflexivity|]. cbn. congruence.
    + rewrite option_guard_True; [reflexivity|]. cbn. reflexivity.
  - now destruct (isOldDataFile _ _ _).
Qed.

Lemma isOldDataFile_key cutoff date :
  dotFree date = true →
  isOldDataFile parseDate cutoff (getDataFilePath date) =
  match parseDate date with
  | Some fileDate => fileDate <? cutoff
  | None => false
  end.
Proof.
  intros H. unfold isOldDataFile, getDataFilePath.
  now rewrite endsWith_json, replaceFirst_json.
Qed.
End Cleanup.

(** C8, as the code has it. [cleanupOldData] removes from the storage
    directory exactly the files it tests as old: a [.json] file whose date key is read by the
    host as a time before the cutoff, which is now minus 90 days plus the
    change [shift] of the local offset to UTC between the two instants (0
    where no daylight saving change lies between them). The record that
    [isoDate] dates 91 days before today goes, the record it dates 89 days
    before today stays, the host reading a date key as the midnight UTC
    of its day; and a file whose key is no date stays. *)
Theorem cleanup_retention clock parseDate localTZA w :
  let now := clock (queries w) in
  let cutoff := setDateBack localTZA 90 now in
  let shift :=
    localTZA now true
    - localTZA (localTime localTZA now - 90 * msPerDay) false in
  let before := files (storage w) in
  let after :=
    files (storage (exec (cleanupOldData clock parseDate localTZA) w)) in
  cutoff = now - 90 * msPerDay + shift ∧
  (∀ file,
     after !! file =
     if isOldDataFile parseDate cutoff file then None else before !! file) ∧
  (∀ date t,
     dotFree date = true → parseDate date = Some t →
     after !! getDataFilePath date =
     if t <? cutoff then None else before !! getDataFilePath date) ∧
  (∀ t0,
     parseDate (isoDate t0) = Some (msPerDay * (t0 / msPerDay)) →
     t0 / msPerDay = now / msPerDay - 91 →
     - msPerDay < shift →
     after !! getDataFilePath (isoDate t0) = None) ∧
  (∀ t0,
     parseDate (isoDate t0) = Some (msPerDay * (t0 / msPerDay)) →
     t0 / msPerDay = now / msPerDay - 89 →
     shift ≤ 0 →
     after !! getDataFilePath (isoDate t0)
     = before !! getDataFilePath (isoDate t0)) ∧
  (∀ file,
     parseDate (replaceFirst ".json" "" file) = None →
     after !! file = before !! file).
Proof.
  intros now cutoff shift before after.
  assert (Hcut : cutoff = now - 90 * msPerDay + shift).
  { subst cutoff shift. unfold setDateBack, utcTime, localTime. lia. }
  assert (Hall : ∀ file,
     after !! file =
     if isOldDataFile parseDate cutoff file then None else before !! file)
    by apply cleanupOldData_lookup.
  assert (Hkey : ∀ date t,
     dotFree date = true → parseDate date = Some t →
     after !! getDataFilePath date =
     if t <? cutoff then None else before !! getDataFilePath date).
  { intros date t Hd Hp. rewrite Hall, isOldDataFile_key, Hp; done. }
  assert (Hdiv : msPerDay * (now / msPerDay) ≤ now
                 < msPerDay * (now / msPerDay) + msPerDay).
  { unfold msPerDay.
    pose proof (Z.mul_div_le now 86400000 eq_refl).
    pose proof (Z.mul_succ_div_gt now 86400000 eq_refl). lia. }
  split; [exact Hcut|]. split; [exact Hall|]. split; [exact Hkey|].
  split; [|split].
  - intros t0 Hp Hday Hs. rewrite (Hkey _ _ (isoDate_dotFree t0) Hp), Hday.
    destruct (Z.ltb_spec (msPerDay * (now / msPerDay - 91)) cutoff);
      [reflexivity|].
    unfold msPerDay in *. lia.
  - intros t0 Hp Hday Hs. rewrite (Hkey _ _ (isoDate_dotFree t0) Hp), Hday.
    destruct (Z.ltb_spec (msPerDay * (now / msPerDay - 89)) cutoff);
      [|reflexivity].
    unfold msPerDay in *. lia.
  - intros file Hp. rewrite Hall. unfold isOldDataFile. rewrite Hp.
    now rewrite andb_false_r.
Qed.

Lemma cleanup_retention_witness :
  let now := 92 * msPerDay + 3600000 in
  let after :=
    files (storage (exec (cleanupOldData (always now) parseDateOnly
                                         centralEurope)
                         retentionWorld)) in
  after !! getDataFilePath (isoDate (msPerDay + 1234)) = None ∧
  after !! getDataFilePath (isoDate (3 * msPerDay + 1234))
  = files (storage retentionWorld)
    !! getDataFilePath (isoDate (3 * msPerDay + 1234)) ∧
  after !! "notes.json" = files (storage retentionWorld) !! "notes.json".
Proof.
  destruct (cleanup_retention (always (92 * msPerDay + 3600000))
              parseDateOnly centralEurope retentionWorld)
    as (_ & _ & _ & H91 & H89 & Hbad).
  split; [|split].
  - apply H91; [reflexivity|reflexivity|vm_compute; reflexivity].
  - apply H89; [reflexivity|reflexivity|vm_compute; discriminate].
  - apply Hbad; reflexivity.
Defined.

(** C8 fails as stated. In Berlin at 2024-06-15T23:30Z (01:30 of
    2024-06-16, summer time) the cutoff of [setDate(getDate() - 90)] is
    01:30 of 2024-03-18, winter time, that is 2024-03-18T00:30Z: the
    record of 2024-03-18, dated 89 days before 2024-06-15 and not older
    than now minus 90 days, is removed. *)
Lemma daylight_saving_deletes_89_day_record :
  let now := 19889 * msPerDay + 84600000 in
  let after :=
    files (storage (exec (cleanupOldData (always now) parseDateOnly
                                         berlin2024)
                         summerWorld)) in
  isoDate now = "2024-06-15" ∧
  parseDateOnly "2024-03-18" = Some ((now / msPerDay - 89) * msPerDay) ∧
  ¬ ((now / msPerDay - 89) * msPerDay < now - 90 * msPerDay) ∧
  files (storage summerWorld) !! "2024-03-18.json"
  = Some (Some (createEmptyDailyData "2024-03-18")) ∧
  after !! "2024-03-18.json" = None.
Proof.
  vm_compute. repeat split; try reflexivity. intros H. discriminate H.
Qed.

(** ** Billing *)

#[global] Arguments langTime : simpl never.
#[global] Arguments addLang : simpl never.

Lemma langTime_addLang l l' t m :
  langTime l (addLang l' t m)
  = langTime l m + (if String.eqb l l' then t else 0).
Proof.
  unfold langTime, addLang.
  destruct (String.eqb_spec l l') as [->|Hne].
  - now rewrite dget_dupd_eq.
  - rewrite dget_dupd_ne by congruence. lia.
Qed.

Lemma repoTime_addTimeToRepo key repo t w :
  repoTime key (exec (addTimeToRepo repo t) w)
  = repoTime key w + (if String.eqb key (repoKey repo) then t else 0).
Proof.
  unfold repoTime, addTimeToRepo, exec, repoKey. cbn.
  destruct (String.eqb_spec key
              (CurrentRepoInfo.path repo +:+ ":" +:+ CurrentRepoInfo.branch repo))
    as [->|Hne].
  - rewrite dget_dupd_eq. cbn.
    destruct (dget _ (repoActivityMap (tracker w))); reflexivity.
  - rewrite dget_dupd_ne by congruence.
    destruct (dget _ _); lia.
Qed.

Lemma repoLangTime_addTimeToRepo key l repo t w :
  repoLangTime key l (exec (addTimeToRepo repo t) w)
  = repoLangTime key l w
    + (if String.eqb key (repoKey repo) then languageShare repo l t else 0).
Proof.
  unfold repoLangTime, addTimeToRepo, exec, repoKey, languageShare. cbn.
  destruct (String.eqb_spec key
              (CurrentRepoInfo.path repo +:+ ":" +:+ CurrentRepoInfo.branch repo))
    as [->|Hne].
  - rewrite dget_dupd_eq. cbn.
    destruct (dget _ (repoActivityMap (tracker w))) as [a|]; cbn;
      destruct (truthy _); rewrite ?langTime_addLang; cbn; try lia;
      reflexivity.
  - rewrite dget_dupd_ne by congruence.
    destruct (dget _ _); lia.
Qed.

Section Billing.
Variable clock : nat → Z.

(** [exitIdleState] on an idle tracker. *)
Lemma exitIdleState_run w t0 :
  TrackingState.isIdle (state (tracker w)) = true →
  TrackingState.idleStartTime (state (tracker w)) = Some t0 →
  exitIdleState clock w =
  (tt, mkWorld
         (set_state
            (with_idleStartTime None
               (with_isIdle false
                  (with_sessionIdleTime
                     (TrackingState.sessionIdleTime (state (tracker w))
                      + (clock (queries w) - t0))
                     (state (tracker w)))))
            (tracker w))
         (storage w) (S (queries w))).
Proof.
  intros Hi Hs. unfold exitIdleState. rewrite run_bind. cbn.
  rewrite Hi. cbn. rewrite Hs. rewrite !run_bind. cbn. reflexivity.
Qed.

(** [recordActivity] in the idle state, with a current context. *)
Lemma recordActivity_idle_run w t0 repo :
  TrackingState.isIdle (state (tracker w)) = true →
  TrackingState.idleStartTime (state (tracker w)) = Some t0 →
  TrackingState.currentRepo (state (tracker w)) = Some repo →
  exec (recordActivity clock) w =
  let now := clock (queries w) in
  let st := state (tracker w) in
  let st1 :=
    with_idleStartTime None
      (with_isIdle false
         (with_sessionIdleTime
            (TrackingState.sessionIdleTime st
             + (clock (S (queries w)) - t0)) st)) in
  let w1 := mkWorld (set_state st1 (tracker w)) (storage w)
                    (S (S (queries w))) in
  let w2 := exec (addTimeToRepo repo
                    (now - TrackingState.lastActivityTime st)) w1 in
  mkWorld (set_state (with_lastActivityTime now (state (tracker w2)))
                     (tracker w2))
          (storage w2) (queries w2).
Proof.
  intros Hi Hs Hr. unfold recordActivity, exec. rewrite !run_bind. cbn.
  rewrite Hi. cbn. rewrite ?run_bind.
  rewrite (exitIdleState_run _ t0) by assumption. cbn.
  rewrite Hr. cbn. reflexivity.
Qed.

End Billing.

Lemma languageShare_nonneg repo l t : 0 ≤ t → 0 ≤ languageShare repo l t.
Proof.
  intros H. unfold languageShare.
  destruct (truthy _); [destruct (String.eqb _ _)|]; lia.
Qed.

Section Mono.
Variable clock : nat → Z.

Lemma finalizeRepoTime_run repo w :
  exec (finalizeRepoTime clock repo) w =
  exec (addTimeToRepo repo
          (clock (queries w) - CurrentRepoInfo.startTime repo))
       (mkWorld (tracker w) (storage w) (S (queries w))).
Proof. reflexivity. Qed.

Lemma state_addTimeToRepo repo t w :
  state (tracker (snd (addTimeToRepo repo t w))) = state (tracker w).
Proof. reflexivity. Qed.

Lemma addTimeToRepo_monotone repo t w :
  0 ≤ t →
  let w' := exec (addTimeToRepo repo t) w in
  (∀ key, repoTime key w ≤ repoTime key w') ∧
  (∀ key l, repoLangTime key l w ≤ repoLangTime key l w').
Proof.
  intros Ht w'. subst w'. split.
  - intros key. rewrite repoTime_addTimeToRepo.
    destruct (String.eqb _ _); lia.
  - intros key l. rewrite repoLangTime_addTimeToRepo.
    pose proof (languageShare_nonneg repo l t Ht).
    destruct (String.eqb _ _); lia.
Qed.

Lemma recordActivity_monotone w :
  TrackingState.lastActivityTime (state (tracker w)) ≤ clock (queries w) →
  (∀ t0, TrackingState.isIdle (state (tracker w)) = true →
         TrackingState.idleStartTime (state (tracker w)) = Some t0 →
         t0 ≤ clock (S (queries w))) →
  let w' := exec (recordActivity clock) w in
  (∀ key, repoTime key w ≤ repoTime key w') ∧
  (∀ key l, repoLangTime key l w ≤ repoLangTime key l w') ∧
  TrackingState.sessionIdleTime (state (tracker w))
  ≤ TrackingState.sessionIdleTime (state (tracker w')) ∧
  currentSession (tracker w') = currentSession (tracker w).
Proof.
  intros Hl Hi w'. subst w'.
  unfold recordActivity, exec. rewrite !run_bind. cbn.
  destruct (TrackingState.isIdle (state (tracker w))) eqn:Ei; cbn.
  - unfold exitIdleState. rewrite !run_bind. cbn. rewrite Ei. cbn.
    destruct (TrackingState.idleStartTime (state (tracker w)))
      as [t0|] eqn:Es; cbn.
    + specialize (Hi t0 eq_refl eq_refl).
      destruct (TrackingState.currentRepo (state (tracker w)))
        as [repo|]; cbn.
      * match goal with
        | |- context [addTimeToRepo repo ?t ?w0] =>
            pose proof (addTimeToRepo_monotone repo t w0) as Hm
        end.
        cbn in Hm. unfold exec in Hm.
        destruct Hm as [H1 H2]; [lia|].
        repeat split; [apply H1|apply H2|rewrite state_addTimeToRepo; cbn; lia].
      * repeat split; cbn; try reflexivity; lia.
    + destruct (TrackingState.currentRepo (state (tracker w)))
        as [repo|]; cbn.
      * match goal with
        | |- context [addTimeToRepo repo ?t ?w0] =>
            pose proof (addTimeToRepo_monotone repo t w0) as Hm
        end.
        cbn in Hm. unfold exec in Hm.
        destruct Hm as [H1 H2]; [lia|].
        repeat split; [apply H1|apply H2|rewrite state_addTimeToRepo; cbn; lia].
      * repeat split; cbn; try reflexivity; lia.
  - destruct (TrackingState.currentRepo (state (tracker w)))
      as [repo|]; cbn.
    + match goal with
      | |- context [addTimeToRepo repo ?t ?w0] =>
          pose proof (addTimeToRepo_monotone repo t w0) as Hm
      end.
      cbn in Hm. unfold exec in Hm.
      destruct Hm as [H1 H2]; [lia|].
      repeat split; [apply H1|apply H2|rewrite state_addTimeToRepo; cbn; lia].
    + repeat split; cbn; try reflexivity; lia.
Qed.
End Mono.

(** C1, as the code has it. When [recordActivity] fires in the idle state,
    the time since [idleStartTime] is added to [sessionIdleTime], and the
    whole time since [lastActivityTime], the idle time included, is added
    to [timeSpent] of the current context and to the time of its language
    (read for the plain keys); no other context and no other language is
    billed, and the tracker is active again, with [lastActivityTime] at
    the time of the event. *)
Theorem recordActivity_idle_billing clock w repo t0 :
  TrackingState.isIdle (state (tracker w)) = true →
  TrackingState.idleStartTime (state (tracker w)) = Some t0 →
  TrackingState.currentRepo (state (tracker w)) = Some repo →
  let now := clock (queries w) in
  let gap := now - TrackingState.lastActivityTime (state (tracker w)) in
  let w' := exec (recordActivity clock) w in
  TrackingState.sessionIdleTime (state (tracker w'))
  = TrackingState.sessionIdleTime (state (tracker w))
    + (clock (S (queries w)) - t0) ∧
  (∀ key, repoTime key w'
          = repoTime key w
            + (if String.eqb key (repoKey repo) then gap else 0)) ∧
  (∀ key l, plainKey l = true →
            repoLangTime key l w'
            = repoLangTime key l w
              + (if String.eqb key (repoKey repo)
                 then languageShare repo l gap else 0)) ∧
  TrackingState.isIdle (state (tracker w')) = false ∧
  TrackingState.lastActivityTime (state (tracker w')) = now.
Proof.
  intros Hi Hs Hr now gap w'. subst w'.
  rewrite (recordActivity_idle_run clock w t0 repo Hi Hs Hr). cbn zeta.
  repeat split.
  - intros key. unfold repoTime at 1. cbn [tracker repoActivityMap set_state].
    fold (repoTime key
            (exec (addTimeToRepo repo
                     (clock (queries w)
                      - TrackingState.lastActivityTime (state (tracker w))))
               (mkWorld
                  (set_state
                     (with_idleStartTime None
                        (with_isIdle false
                           (with_sessionIdleTime
                              (TrackingState.sessionIdleTime
                                 (state (tracker w))
                               + (clock (S (queries w)) - t0))
                              (state (tracker w)))))
                     (tracker w))
                  (storage w) (S (S (queries w)))))).
    rewrite repoTime_addTimeToRepo. reflexivity.
  - intros key l _. unfold repoLangTime at 1.
    cbn [tracker repoActivityMap set_state].
    fold (repoLangTime key l
            (exec (addTimeToRepo repo
                     (clock (queries w)
                      - TrackingState.lastActivityTime (state (tracker w))))
               (mkWorld
                  (set_state
                     (with_idleStartTime None
                        (with_isIdle false
                           (with_sessionIdleTime
                              (TrackingState.sessionIdleTime
                                 (state (tracker w))
                               + (clock (S (queries w)) - t0))
                              (state (tracker w)))))
                     (tracker w))
                  (storage w) (S (S (queries w)))))).
    rewrite repoLangTime_addTimeToRepo. reflexivity.
Qed.

Lemma recordActivity_idle_billing_witness :
  let w' := exec (recordActivity (always 600000)) idleWorld in
  TrackingState.sessionIdleTime (state (tracker w')) = 0 + (600000 - 0) ∧
  repoTime "/a:main" w' = repoTime "/a:main" idleWorld + (600000 - 0) ∧
  repoLangTime "/a:main" "typescript" w'
  = repoLangTime "/a:main" "typescript" idleWorld + (600000 - 0) ∧
  repoLangTime "/a:main" "python" w'
  = repoLangTime "/a:main" "python" idleWorld + 0.
Proof.
  destruct (recordActivity_idle_billing (always 600000) idleWorld
              (CurrentRepoInfo.mk "/a" "a" "main" None (Some "/a/f.ts")
                                  (Some "typescript") 0)
              0 eq_refl eq_refl eq_refl) as (H1 & H2 & H3 & _).
  split; [exact H1|]. split; [exact (H2 "/a:main")|].
  split; [exact (H3 "/a:main" "typescript" eq_refl)|
          exact (H3 "/a:main" "python" eq_refl)].
Defined.

(** C1 fails as stated. The tracker was idle from 0 on; at the activity
    event of 600000 the ten idle minutes are counted as idle time of the
    session and all of them are billed to the context as well. *)
Lemma idle_gap_billed_to_context :
  let w' := exec (recordActivity (always 600000)) idleWorld in
  TrackingState.isIdle (state (tracker idleWorld)) = true ∧
  TrackingState.idleStartTime (state (tracker idleWorld)) = Some 0 ∧
  TrackingState.lastActivityTime (state (tracker idleWorld)) = 0 ∧
  TrackingState.sessionIdleTime (state (tracker idleWorld)) = 0 ∧
  repoTime "/a:main" idleWorld = 0 ∧
  TrackingState.sessionIdleTime (state (tracker w')) = 600000 ∧
  repoTime "/a:main" w' = 600000 ∧
  repoLangTime "/a:main" "typescript" w' = 600000 ∧
  repoTime "/a:main" w' - repoTime "/a:main" idleWorld ≠ 0.
Proof. vm_compute. repeat split; try reflexivity. discriminate. Qed.

(** ** Clock readings that go backward *)

Lemma exitIdleState_monotone clock w :
  (∀ t0, TrackingState.idleStartTime (state (tracker w)) = Some t0 →
         t0 ≤ clock (queries w)) →
  let w' := exec (exitIdleState clock) w in
  TrackingState.sessionIdleTime (state (tracker w))
  ≤ TrackingState.sessionIdleTime (state (tracker w')) ∧
  repoActivityMap (tracker w') = repoActivityMap (tracker w) ∧
  currentSession (tracker w') = currentSession (tracker w).
Proof.
  intros H w'. subst w'. unfold exitIdleState, exec. rewrite run_bind. cbn.
  destruct (TrackingState.isIdle (state (tracker w))); cbn;
    [|repeat split; lia].
  destruct (TrackingState.idleStartTime (state (tracker w))) as [t0|]; cbn.
  - specialize (H t0 eq_refl). repeat split. cbn. lia.
  - repeat split. cbn. lia.
Qed.

Lemma finalizeRepoTime_monotone clock repo w :
  CurrentRepoInfo.startTime repo ≤ clock (queries w) →
  let w' := exec (finalizeRepoTime clock repo) w in
  (∀ key, repoTime key w ≤ repoTime key w') ∧
  (∀ key l, repoLangTime key l w ≤ repoLangTime key l w') ∧
  state (tracker w') = state (tracker w) ∧
  currentSession (tracker w') = currentSession (tracker w).
Proof.
  intros H w'. subst w'. rewrite finalizeRepoTime_run.
  destruct (addTimeToRepo_monotone repo
              (clock (queries w) - CurrentRepoInfo.startTime repo)
              (mkWorld (tracker w) (storage w) (S (queries w))))
    as [H1 H2]; [lia|].
  repeat split; [apply H1|apply H2].
Qed.

Lemma exitIdleState_session clock w :
  currentSession (tracker (exec (exitIdleState clock) w))
  = currentSession (tracker w).
Proof.
  unfold exitIdleState, exec. rewrite run_bind. cbn.
  destruct (TrackingState.isIdle (state (tracker w))); cbn; [|reflexivity].
  destruct (TrackingState.idleStartTime (state (tracker w))); reflexivity.
Qed.

Lemma recordActivity_run_session clock w :
  currentSession (tracker (exec (recordActivity clock) w))
  = currentSession (tracker w).
Proof.
  unfold recordActivity, exec. rewrite ?run_bind. cbn.
  destruct (TrackingState.isIdle (state (tracker w))) eqn:Ei; cbn.
  - unfold exitIdleState. rewrite ?run_bind. cbn. rewrite Ei. cbn.
    destruct (TrackingState.idleStartTime (state (tracker w))); cbn;
      destruct (TrackingState.currentRepo (state (tracker w))); reflexivity.
  - destruct (TrackingState.currentRepo (state (tracker w))); reflexivity.
Qed.

(** The amounts of an activity event, of an exit from the idle state and
    of a finalization, as the code computes them. *)
Lemma recordActivity_billing clock w repo :
  TrackingState.currentRepo (state (tracker w)) = Some repo →
  let elapsed :=
    clock (queries w) - TrackingState.lastActivityTime (state (tracker w)) in
  let w' := exec (recordActivity clock) w in
  (∀ key, repoTime key w'
          = repoTime key w
            + (if String.eqb key (repoKey repo) then elapsed else 0)) ∧
  (∀ key l, repoLangTime key l w'
            = repoLangTime key l w
              + (if String.eqb key (repoKey repo)
                 then languageShare repo l elapsed else 0)).
Proof.
  intros Hr elapsed w'. subst w' elapsed.
  destruct (TrackingState.isIdle (state (tracker w))) eqn:Ei.
  - destruct (TrackingState.idleStartTime (state (tracker w)))
      as [t0|] eqn:Es.
    + rewrite (recordActivity_idle_run clock w t0 repo Ei Es Hr). cbn zeta.
      split.
      * intros key. unfold repoTime at 1.
        cbn [tracker repoActivityMap set_state].
        match goal with
        | |- context [exec (addTimeToRepo repo ?t) ?w0] =>
            fold (repoTime key (exec (addTimeToRepo repo t) w0))
        end.
        now rewrite repoTime_addTimeToRepo.
      * intros key l. unfold repoLangTime at 1.
        cbn [tracker repoActivityMap set_state].
        match goal with
        | |- context [exec (addTimeToRepo repo ?t) ?w0] =>
            fold (repoLangTime key l (exec (addTimeToRepo repo t) w0))
        end.
        now rewrite repoLangTime_addTimeToRepo.
    + unfold recordActivity, exec. rewrite ?run_bind. cbn. rewrite Ei. cbn.
      unfold exitIdleState. rewrite ?run_bind. cbn. rewrite Ei. cbn.
      rewrite Es. cbn. rewrite Hr. cbn. split.
      * intros key.
        exact (repoTime_addTimeToRepo key repo _
                 (mkWorld _ (storage w) (S (queries w)))).
      * intros key l.
        exact (repoLangTime_addTimeToRepo key l repo _
                 (mkWorld _ (storage w) (S (queries w)))).
  - unfold recordActivity, exec. rewrite ?run_bind. cbn. rewrite Ei. cbn.
    rewrite Hr. cbn. split.
    + intros key.
      exact (repoTime_addTimeToRepo key repo _
               (mkWorld (tracker w) (storage w) (S (queries w)))).
    + intros key l.
      exact (repoLangTime_addTimeToRepo key l repo _
               (mkWorld (tracker w) (storage w) (S (queries w)))).
Qed.

Lemma exitIdleState_amount clock w t0 :
  TrackingState.isIdle (state (tracker w)) = true →
  TrackingState.idleStartTime (state (tracker w)) = Some t0 →
  TrackingState.sessionIdleTime (state (tracker (exec (exitIdleState clock) w)))
  = TrackingState.sessionIdleTime (state (tracker w))
    + (clock (queries w) - t0).
Proof.
  intros Hi Hs. unfold exec. now rewrite (exitIdleState_run clock w t0 Hi Hs).
Qed.

Lemma recordActivity_idle_amount clock w t0 :
  TrackingState.isIdle (state (tracker w)) = true →
  TrackingState.idleStartTime (state (tracker w)) = Some t0 →
  TrackingState.sessionIdleTime
    (state (tracker (exec (recordActivity clock) w)))
  = TrackingState.sessionIdleTime (state (tracker w))
    + (clock (S (queries w)) - t0).
Proof.
  intros Hi Hs. unfold recordActivity, exec. rewrite ?run_bind. cbn.
  rewrite Hi. cbn. rewrite ?run_bind.
  rewrite (exitIdleState_run clock _ t0) by assumption. cbn.
  destruct (TrackingState.currentRepo (state (tracker w))); reflexivity.
Qed.

Lemma finalizeRepoTime_billing clock repo w :
  let elapsed := clock (queries w) - CurrentRepoInfo.startTime repo in
  let w' := exec (finalizeRepoTime clock repo) w in
  (∀ key, repoTime key w'
          = repoTime key w
            + (if String.eqb key (repoKey repo) then elapsed else 0)) ∧
  (∀ key l, repoLangTime key l w'
            = repoLangTime key l w
              + (if String.eqb key (repoKey repo)
                 then languageShare repo l elapsed else 0)).
Proof.
  intros elapsed w'. subst w' elapsed. rewrite finalizeRepoTime_run. split.
  - intros key. now rewrite repoTime_addTimeToRepo.
  - intros key l. now rewrite repoLangTime_addTimeToRepo.
Qed.

(** C7, as the code has it. No interval is clamped. An activity event
    adds the difference of its clock reading and [lastActivityTime] to
    the time of the current context and of its language, an exit from
    the idle state adds the difference of its clock reading and
    [idleStartTime] to [sessionIdleTime], and a finalization adds the
    difference of its clock reading and the [startTime] of the context
    to the time of the context and of its language: each as computed, of
    either sign, language times being read for the plain keys. Hence
    context times, language times and [sessionIdleTime] do not decrease
    across the three events whenever the clock reading of the event is
    not before the instant it is measured from; and none of the three
    events writes to the counters of the session, [activeTime]
    included. *)
Theorem accumulators_monotone_forward_clock :
  (∀ clock w repo,
     TrackingState.currentRepo (state (tracker w)) = Some repo →
     let elapsed :=
       clock (queries w)
       - TrackingState.lastActivityTime (state (tracker w)) in
     let w' := exec (recordActivity clock) w in
     (∀ key, repoTime key w'
             = repoTime key w
               + (if String.eqb key (repoKey repo) then elapsed else 0)) ∧
     (∀ key l, plainKey l = true →
               repoLangTime key l w'
               = repoLangTime key l w
                 + (if String.eqb key (repoKey repo)
                    then languageShare repo l elapsed else 0))) ∧
  (∀ clock w t0,
     TrackingState.isIdle (state (tracker w)) = true →
     TrackingState.idleStartTime (state (tracker w)) = Some t0 →
     TrackingState.sessionIdleTime
       (state (tracker (exec (exitIdleState clock) w)))
     = TrackingState.sessionIdleTime (state (tracker w))
       + (clock (queries w) - t0) ∧
     TrackingState.sessionIdleTime
       (state (tracker (exec (recordActivity clock) w)))
     = TrackingState.sessionIdleTime (state (tracker w))
       + (clock (S (queries w)) - t0)) ∧
  (∀ clock repo w,
     let elapsed := clock (queries w) - CurrentRepoInfo.startTime repo in
     let w' := exec (finalizeRepoTime clock repo) w in
     (∀ key, repoTime key w'
             = repoTime key w
               + (if String.eqb key (repoKey repo) then elapsed else 0)) ∧
     (∀ key l, plainKey l = true →
               repoLangTime key l w'
               = repoLangTime key l w
                 + (if String.eqb key (repoKey repo)
                    then languageShare repo l elapsed else 0))) ∧
  (∀ clock w,
     TrackingState.lastActivityTime (state (tracker w)) ≤ clock (queries w) →
     (∀ t0, TrackingState.isIdle (state (tracker w)) = true →
            TrackingState.idleStartTime (state (tracker w)) = Some t0 →
            t0 ≤ clock (S (queries w))) →
     let w' := exec (recordActivity clock) w in
     (∀ key, repoTime key w ≤ repoTime key w') ∧
     (∀ key l, plainKey l = true →
               repoLangTime key l w ≤ repoLangTime key l w') ∧
     TrackingState.sessionIdleTime (state (tracker w))
     ≤ TrackingState.sessionIdleTime (state (tracker w'))) ∧
  (∀ clock w,
     (∀ t0, TrackingState.idleStartTime (state (tracker w)) = Some t0 →
            t0 ≤ clock (queries w)) →
     let w' := exec (exitIdleState clock) w in
     TrackingState.sessionIdleTime (state (tracker w))
     ≤ TrackingState.sessionIdleTime (state (tracker w')) ∧
     repoActivityMap (tracker w') = repoActivityMap (tracker w)) ∧
  (∀ clock repo w,
     CurrentRepoInfo.startTime repo ≤ clock (queries w) →
     let w' := exec (finalizeRepoTime clock repo) w in
     (∀ key, repoTime key w ≤ repoTime key w') ∧
     (∀ key l, plainKey l = true →
               repoLangTime key l w ≤ repoLangTime key l w') ∧
     state (tracker w') = state (tracker w)) ∧
  (∀ clock repo w,
     let counters w := sessionCounters (currentSession (tracker w)) in
     counters (exec (recordActivity clock) w) = counters w ∧
     counters (exec (exitIdleState clock) w) = counters w ∧
     counters (exec (finalizeRepoTime clock repo) w) = counters w).
Proof.
  split; [|split; [|split; [|split; [|split; [|split]]]]].
  - intros clock w repo Hr.
    destruct (recordActivity_billing clock w repo Hr) as [H1 H2].
    split; [exact H1|]. intros key l _. apply H2.
  - intros clock w t0 Hi Hs.
    split; [now apply exitIdleState_amount
           |now apply recordActivity_idle_amount].
  - intros clock repo w.
    destruct (finalizeRepoTime_billing clock repo w) as [H1 H2].
    split; [exact H1|]. intros key l _. apply H2.
  - intros clock w Hl Hi.
    destruct (recordActivity_monotone clock w Hl Hi) as (H1 & H2 & H3 & _).
    split; [exact H1|]. split; [|exact H3]. intros key l _. apply H2.
  - intros clock w H.
    destruct (exitIdleState_monotone clock w H) as (H1 & H2 & _).
    split; [exact H1|exact H2].
  - intros clock repo w H.
    destruct (finalizeRepoTime_monotone clock repo w H) as (H1 & H2 & H3 & _).
    split; [exact H1|]. split; [|exact H3]. intros key l _. apply H2.
  - intros clock repo w counters. subst counters. cbn beta.
    split; [|split].
    + rewrite recordActivity_run_session. reflexivity.
    + rewrite exitIdleState_session. reflexivity.
    + reflexivity.
Qed.

Lemma accumulators_monotone_forward_clock_witness :
  let w' := exec (recordActivity (always 9000)) busyWorld in
  repoTime "/a:main" w' = repoTime "/a:main" busyWorld + (9000 - 5000) ∧
  repoLangTime "/a:main" "typescript" w'
  = repoLangTime "/a:main" "typescript" busyWorld + (9000 - 5000) ∧
  TrackingState.sessionIdleTime
    (state (tracker (exec (exitIdleState (always 600000)) idleWorld)))
  = 0 + (600000 - 0) ∧
  repoTime "/a:main" busyWorld ≤ repoTime "/a:main" w' ∧
  TrackingState.sessionIdleTime (state (tracker busyWorld))
  ≤ TrackingState.sessionIdleTime (state (tracker w')).
Proof.
  destruct accumulators_monotone_forward_clock
    as (Hbill & Hidle & _ & Hact & _).
  destruct (Hbill (always 9000) busyWorld
              (CurrentRepoInfo.mk "/a" "a" "main" None (Some "/a/f.ts")
                                  (Some "typescript") 1000) eq_refl)
    as [B1 B2].
  destruct (Hidle (always 600000) idleWorld 0 eq_refl eq_refl) as [I1 _].
  destruct (Hact (always 9000) busyWorld) as (H1 & _ & H3).
  - vm_compute. discriminate.
  - intros t0 Hidle'. discriminate Hidle'.
  - split; [exact (B1 "/a:main")|].
    split; [exact (B2 "/a:main" "typescript" eq_refl)|].
    split; [exact I1|]. split; [exact (H1 "/a:main")|exact H3].
Defined.

(** C7 fails as stated. The last activity was at 5000 and the context holds
    4000 ms; an activity event whose clock reading is 2000 subtracts 3000
    ms from the context and from its language instead of adding zero. *)
Lemma backward_clock_decreases_timeSpent :
  let w' := exec (recordActivity (always 2000)) busyWorld in
  TrackingState.lastActivityTime (state (tracker busyWorld)) = 5000 ∧
  repoTime "/a:main" busyWorld = 4000 ∧
  repoLangTime "/a:main" "typescript" busyWorld = 4000 ∧
  repoTime "/a:main" w' = 1000 ∧
  repoLangTime "/a:main" "typescript" w' = 1000 ∧
  ¬ (repoTime "/a:main" busyWorld ≤ repoTime "/a:main" w').
Proof.
  vm_compute. repeat split; try reflexivity. intros H. now apply H.
Qed.

(** ** Switching context *)

(** [recordActivity] in the active state bills the time since the last
    activity event to the current context. *)
Lemma recordActivity_active_billing clock w repo :
  TrackingState.isIdle (state (tracker w)) = false →
  TrackingState.currentRepo (state (tracker w)) = Some repo →
  let w' := exec (recordActivity clock) w in
  (∀ key, repoTime key w'
          = repoTime key w
            + (if String.eqb key (repoKey repo)
               then clock (queries w)
                    - TrackingState.lastActivityTime (state (tracker w))
               else 0)) ∧
  TrackingState.lastActivityTime (state (tracker w')) = clock (queries w) ∧
  TrackingState.currentRepo (state (tracker w')) = Some repo.
Proof.
  intros Hi Hr w'. subst w'.
  unfold recordActivity, exec. rewrite ?run_bind. cbn.
  rewrite Hi. cbn. rewrite Hr. cbn.
  split; [|split; [reflexivity|exact Hr]].
  intros key.
  exact (repoTime_addTimeToRepo key repo _
           (mkWorld (tracker w) (storage w) (S (queries w)))).
Qed.

(** A switch to a repository of another path bills the old context the
    time since its [startTime], and leaves [lastActivityTime] as it is. *)
Lemma updateCurrentRepo_switch_billing clock ide filePath w old info :
  TrackingState.currentRepo (state (tracker w)) = Some old →
  resolveRepo ide filePath = Some info →
  CurrentRepoInfo.path old ≠ GitRepoInfo.path info →
  let w' := exec (updateCurrentRepo clock ide filePath) w in
  (∀ key, repoTime key w'
          = repoTime key w
            + (if String.eqb key (repoKey old)
               then clock (queries w) - CurrentRepoInfo.startTime old
               else 0)) ∧
  TrackingState.lastActivityTime (state (tracker w'))
  = TrackingState.lastActivityTime (state (tracker w)) ∧
  TrackingState.isIdle (state (tracker w'))
  = TrackingState.isIdle (state (tracker w)) ∧
  TrackingState.currentRepo (state (tracker w'))
  = Some (CurrentRepoInfo.mk
            (GitRepoInfo.path info) (GitRepoInfo.name info)
            (GitRepoInfo.branch info) (GitRepoInfo.remoteUrl info)
            (fst <$> activeTextEditor ide) (snd <$> activeTextEditor ide)
            (clock (S (queries w)))).
Proof.
  intros Hr Hres Hne w'. subst w'.
  unfold updateCurrentRepo, exec. rewrite Hres. rewrite ?run_bind. cbn.
  rewrite Hr. cbn.
  destruct (String.eqb_spec (CurrentRepoInfo.path old) (GitRepoInfo.path info))
    as [He|_]; [contradiction|]. cbn.
  rewrite ?run_bind. cbn.
  split; [|repeat split].
  intros key.
  exact (repoTime_addTimeToRepo key old _
           (mkWorld (tracker w) (storage w) (S (queries w)))).
Qed.

(** Hence a switch between two activity events, on an active tracker and
    between contexts of different keys: the old context is billed from its
    [startTime] to the switch and the new one from the last activity event
    to the next, so that the two of them are billed the interval between
    the activity events and, once more, the time the old context had been
    in place. *)
Lemma switch_between_activities clock1 clock2 ide filePath w old info :
  TrackingState.isIdle (state (tracker w)) = false →
  TrackingState.currentRepo (state (tracker w)) = Some old →
  resolveRepo ide filePath = Some info →
  CurrentRepoInfo.path old ≠ GitRepoInfo.path info →
  let new :=
    GitRepoInfo.path info +:+ ":" +:+ GitRepoInfo.branch info in
  new ≠ repoKey old →
  let w1 := exec (updateCurrentRepo clock1 ide filePath) w in
  let w2 := exec (recordActivity clock2) w1 in
  let lastActivity := TrackingState.lastActivityTime (state (tracker w)) in
  let switch := clock1 (queries w) in
  let next := clock2 (queries w1) in
  repoTime (repoKey old) w2 - repoTime (repoKey old) w
  = switch - CurrentRepoInfo.startTime old ∧
  repoTime new w2 - repoTime new w = next - lastActivity ∧
  (repoTime (repoKey old) w2 - repoTime (repoKey old) w)
  + (repoTime new w2 - repoTime new w)
  = (next - lastActivity) + (switch - CurrentRepoInfo.startTime old).
Proof.
  intros Hi Hr Hres Hne new Hkey w1 w2 lastActivity switch next.
  destruct (updateCurrentRepo_switch_billing clock1 ide filePath w old info
              Hr Hres Hne) as (H1 & Hl & Hidle & Hcur).
  fold w1 in H1, Hl, Hidle, Hcur.
  rewrite Hi in Hidle.
  destruct (recordActivity_active_billing clock2 w1 _ Hidle Hcur)
    as (H2 & _ & _).
  fold w2 in H2. unfold repoKey at 1 in H2. cbn in H2. fold new in H2.
  assert (Eold : repoTime (repoKey old) w2 - repoTime (repoKey old) w
                 = switch - CurrentRepoInfo.startTime old).
  { rewrite H2, H1, String.eqb_refl.
    destruct (String.eqb_spec (repoKey old) new); [congruence|].
    subst switch. lia. }
  assert (Enew : repoTime new w2 - repoTime new w = next - lastActivity).
  { rewrite H2, H1, String.eqb_refl.
    destruct (String.eqb_spec new (repoKey old)); [congruence|].
    subst next lastActivity. rewrite Hl. lia. }
  split; [exact Eold|]. split; [exact Enew|]. lia.
Qed.

(** C3 at a concrete run. Between the activity events of 1000 and 2000
    the context changes at 1500. The old context [/a], which held the
    1000 ms of the first second, is billed 1500 ms more and the new
    context [/b] 1000 ms: 2500 ms for an interval of 1000 ms, where the
    exact split is 500 ms each. When the switch is made by the editor,
    which is an activity event of its own, [/a] is billed 2000 ms more
    and [/b] 500 ms. *)
Theorem context_switch_bills_twice :
  repoTime "/a:main" beforeSwitch = 1000 ∧
  repoTime "/b:dev" beforeSwitch = 0 ∧
  TrackingState.lastActivityTime (state (tracker beforeSwitch)) = 1000 ∧
  repoTime "/a:main" switched = 2500 ∧
  (CurrentRepoInfo.path <$> TrackingState.currentRepo
                              (state (tracker switched))) = Some "/b" ∧
  (CurrentRepoInfo.startTime <$> TrackingState.currentRepo
                                   (state (tracker switched))) = Some 1500 ∧
  repoTime "/a:main" afterSwitch = 2500 ∧
  repoTime "/b:dev" afterSwitch = 1000 ∧
  (repoTime "/a:main" afterSwitch - repoTime "/a:main" beforeSwitch)
  + (repoTime "/b:dev" afterSwitch - repoTime "/b:dev" beforeSwitch)
  = 2500 ∧
  repoTime "/a:main" switchedByEditor = 3000 ∧
  repoTime "/a:main" afterEditorSwitch = 3000 ∧
  repoTime "/b:dev" afterEditorSwitch = 500.
Proof. vm_compute. repeat split; reflexivity. Qed.

(** ** Day rollover *)

Lemma saveCurrentSession_run clock w :
  saveCurrentSession clock w =
  let session := closedAt (clock (queries w)) (tracker w) in
  let d := updateSessionOn session
             (todayRecord (isoDate (clock (S (queries w)))) (storage w)) in
  (tt, mkWorld (set_currentSession session (tracker w))
               (mkStorage (files (storage w)) (Some d) (Some d))
               (S (S (queries w)))).
Proof.
  unfold saveCurrentSession. rewrite ?run_bind. cbn.
  rewrite updateSession_run. cbn. reflexivity.
Qed.

(** The storage after the heartbeat that finds the session started on
    another date: the session is upserted into the record of the date read
    by this heartbeat, and that record is written to its file; no other
    file is written. *)
Lemma heartbeat_rollover_storage clock random ide w :
  TrackingState.isTracking (state (tracker w)) = true →
  isoDate (clock (S (queries w)))
  ≠ isoDate (TrackingSession.startTime (currentSession (tracker w))) →
  let q := queries w in
  let session := closedAt (clock (S (S q))) (tracker w) in
  let today := isoDate (clock (S (S (S q)))) in
  let d := updateSessionOn session (todayRecord today (storage w)) in
  let w' := exec (heartbeat clock random ide) w in
  storage w'
  = mkStorage (<[getDataFilePath (DailyData.date d) := Some d]>
                 (files (storage w)))
              (Some d) None ∧
  state (tracker w')
  = TrackingState.mk true (clock (S (S (S (S q)))))
                     (clock (S (S (S (S (S q)))))) None (focused ide)
                     false 0 0 None ∧
  repoActivityMap (tracker w') = [] ∧
  TrackingSession.startTime (currentSession (tracker w'))
  = clock (8 + q)%nat.
Proof.
  intros Ht Hd q session today d w'. subst w'.
  unfold heartbeat, exec. rewrite ?run_bind. cbn. rewrite Ht. cbn.
  rewrite ?run_bind. cbn.
  destruct (String.eqb_spec (isoDate (clock (S (queries w))))
              (isoDate (TrackingSession.startTime
                          (currentSession (tracker w))))) as [E|_];
    [contradiction|]. cbn.
  unfold handleDayChange. rewrite ?run_bind.
  rewrite saveCurrentSession_run. cbn.
  unfold forceSave, initializeState, createNewSession, generateSessionId,
    saveDailyData.
  rewrite ?run_bind. cbn. repeat split.
Qed.

(** In particular, when the record in memory is of another date than the
    one this heartbeat reads and the storage directory has no file of that
    date yet, the old session becomes the one session of a new record of
    that date, and every other file is left as it is. *)
Lemma heartbeat_rollover_new_record clock random ide w y :
  TrackingState.isTracking (state (tracker w)) = true →
  isoDate (clock (S (queries w)))
  ≠ isoDate (TrackingSession.startTime (currentSession (tracker w))) →
  let q := queries w in
  let session := closedAt (clock (S (S q))) (tracker w) in
  let today := isoDate (clock (S (S (S q)))) in
  currentDayData (storage w) = Some y →
  DailyData.date y ≠ today →
  files (storage w) !! getDataFilePath today = None →
  let w' := exec (heartbeat clock random ide) w in
  (∃ d, currentDayData (storage w') = Some d ∧
        files (storage w') !! getDataFilePath today = Some (Some d) ∧
        DailyData.date d = today ∧
        DailyData.sessions d = [session]) ∧
  (∀ file, file ≠ getDataFilePath today →
           files (storage w') !! file = files (storage w) !! file).
Proof.
  intros Ht Hd q session today Hy Hne Hfile w'.
  destruct (heartbeat_rollover_storage clock random ide w Ht Hd)
    as (Hst & _).
  fold q session today w' in Hst.
  assert (Hrec : todayRecord today (storage w) = createEmptyDailyData today).
  { unfold todayRecord, loadedRecord. rewrite Hy, Hfile.
    destruct (String.eqb_spec (DailyData.date y) today); [contradiction|].
    reflexivity. }
  rewrite Hrec in Hst.
  assert (Hdate : DailyData.date (updateSessionOn session
                                    (createEmptyDailyData today)) = today)
    by now rewrite updateSessionOn_date.
  rewrite Hdate in Hst. rewrite Hst. cbn. split.
  - eexists. split; [reflexivity|]. split; [apply lookup_insert_eq|].
    split; [exact Hdate|]. now rewrite updateSessionOn_eq.
  - intros file Hf. now apply lookup_insert_ne.
Qed.

(** C2 at a concrete run. The first heartbeat after midnight resets the
    state and opens a new session in memory, but it files the old session
    under the new day: the record of 1970-01-02 holds the old session,
    closed at 00:00:05 with the counters of the last heartbeat of the
    evening, the record of 1970-01-01 still holds it as that heartbeat
    left it, and no record holds the new session. *)
Theorem rollover_files_old_session_under_new_day :
  let old := "session_1000_k3x9q1z7a" in
  let new := "session_86405000_k3x9q1z7a" in
  TrackingSession.sessionId (currentSession (tracker lastEvening)) = old ∧
  sessionIds (fileRecord lastEvening "1970-01-01") = [old] ∧
  fileRecord lastEvening "1970-01-02" = None ∧
  fileRecord nextMorning "1970-01-01" = fileRecord lastEvening "1970-01-01" ∧
  sessionIds (fileRecord nextMorning "1970-01-02") = [old] ∧
  sessionEnds (fileRecord nextMorning "1970-01-01") = [Some 60000] ∧
  sessionEnds (fileRecord nextMorning "1970-01-02")
  = [Some (msPerDay + 5000)] ∧
  (DailyData.totalTime <$> fileRecord nextMorning "1970-01-01") = Some 59000 ∧
  (DailyData.totalTime <$> fileRecord nextMorning "1970-01-02") = Some 59000 ∧
  (DailyData.date <$> currentDayData (storage nextMorning))
  = Some "1970-01-02" ∧
  sessionIds (currentDayData (storage nextMorning)) = [old] ∧
  TrackingSession.sessionId (currentSession (tracker nextMorning)) = new ∧
  TrackingSession.startTime (currentSession (tracker nextMorning))
  = msPerDay + 5000 ∧
  state (tracker nextMorning)
  = TrackingState.mk true (msPerDay + 5000) (msPerDay + 5000) None true
                     false 0 0 None.
Proof. vm_compute. repeat split; reflexivity. Qed.

(** ** Invariants of all runs *)

Lemma Good_transfer w w' :
  currentSession (tracker w') = currentSession (tracker w) →
  repoActivityMap (tracker w') = repoActivityMap (tracker w) →
  storage w' = storage w →
  Good w → Good w'.
Proof.
  unfold Good, trackerGood. intros -> -> ->. auto.
Qed.

Lemma createEmptyDailyData_good date : recordGood (createEmptyDailyData date).
Proof. repeat split; constructor. Qed.

Lemma loadedRecord_good date s :
  storageGood s → recordGood (loadedRecord date s).
Proof.
  intros (Hf & _). unfold loadedRecord.
  destruct (files s !! getDataFilePath date) as [[d|]|] eqn:E;
    eauto using createEmptyDailyData_good.
Qed.

Lemma todayRecord_good today s :
  storageGood s → recordGood (todayRecord today s).
Proof.
  intros H. unfold todayRecord.
  destruct (currentDayData s) as [d|] eqn:E;
    [destruct (String.eqb _ _)|]; auto using loadedRecord_good.
  destruct H as (_ & Hc & _). now apply Hc.
Qed.

Lemma putSession_Forall (P : TrackingSession.t → Prop) s l :
  P s → Forall P l → Forall P (putSession s l).
Proof.
  intros Hs. induction 1 as [|x l Hx Hl IH].
  - unfold putSession. cbn. now repeat constructor.
  - rewrite putSession_cons. destruct (String.eqb _ _); now constructor.
Qed.

Lemma updateSessionOn_good s d :
  sessionGood s → recordGood d → recordGood (updateSessionOn s d).
Proof.
  intros Hs (Hd & _). rewrite updateSessionOn_eq. cbn zeta.
  assert (Hall : Forall sessionGood (putSession s (DailyData.sessions d)))
    by now apply putSession_Forall.
  repeat split; cbn.
  - exact Hall.
  - apply repoMapOf_distinct; [|constructor].
    eapply Forall_impl; [exact Hall|]. now intros x [_ ?].
  - apply sumOf_conserved.
    eapply Forall_impl; [exact Hall|]. now intros x [? _].
Qed.

Lemma storageGood_intro fs cur tm :
  (∀ file d, fs !! file = Some (Some d) → recordGood d) →
  match cur with Some d => recordGood d | None => True end →
  match tm with Some d => recordGood d | None => True end →
  storageGood (mkStorage fs cur tm).
Proof.
  intros Hf Hc Hp. split; [exact Hf|]. split; cbn.
  - intros d ->. exact Hc.
  - intros d ->. exact Hp.
Qed.

Lemma storageGood_elim s :
  storageGood s →
  (∀ file d, files s !! file = Some (Some d) → recordGood d) ∧
  match currentDayData s with Some d => recordGood d | None => True end ∧
  match saveDebounceTimer s with Some d => recordGood d | None => True end.
Proof.
  intros (Hf & Hc & Hp). split; [exact Hf|]. split.
  - destruct (currentDayData s); auto.
  - destruct (saveDebounceTimer s); auto.
Qed.

Section Keeps.
Variable clock : nat → Z.
Variable random : nat → string.
Variable parseDate : string → option Z.
Variable localTZA : Z → bool → Z.

Lemma getTodayData_good w :
  Good w →
  Good (snd (getTodayData clock w)) ∧ recordGood (fst (getTodayData clock w)).
Proof.
  intros [Ht Hs]. rewrite getTodayData_run. cbn.
  pose proof (todayRecord_good (isoDate (clock (queries w))) _ Hs) as Hr.
  split; [|exact Hr]. split; [exact Ht|].
  apply storageGood_elim in Hs as (Hf & Hc & Hp).
  now apply storageGood_intro.
Qed.

Lemma saveDailyData_good d w :
  recordGood d → Good w → Good (snd (saveDailyData d w)).
Proof.
  intros Hd [Ht Hs]. split; [exact Ht|].
  apply storageGood_elim in Hs as (Hf & Hc & Hp).
  apply storageGood_intro; [|exact Hc|exact Hp].
  intros file d' E.
  destruct (decide (getDataFilePath (DailyData.date d) = file)) as [<-|Hne].
  - rewrite lookup_insert_eq in E. now inversion E; subst.
  - rewrite lookup_insert_ne in E by exact Hne. eauto.
Qed.

Lemma saveTodayData_good d w :
  recordGood d → Good w → Good (snd (saveTodayData d w)).
Proof.
  intros Hd [Ht Hs]. split; [exact Ht|].
  apply storageGood_elim in Hs as (Hf & Hc & Hp).
  now apply storageGood_intro.
Qed.

Lemma forceSave_good w : Good w → Good (snd (forceSave w)).
Proof.
  intros HG. unfold forceSave. rewrite !run_bind. cbn.
  assert (HG' : Good (mkWorld (tracker w)
                        (set_saveDebounceTimer None (storage w)) (queries w))).
  { destruct HG as [Ht Hs]. split; [exact Ht|].
    apply storageGood_elim in Hs as (Hf & Hc & Hp).
    now apply storageGood_intro. }
  destruct (currentDayData (storage w)) as [d|] eqn:E; [|exact HG'].
  apply saveDailyData_good; [|exact HG'].
  destruct HG as [_ (_ & Hc & _)]. now apply Hc.
Qed.

Lemma saveDebounceTimer_fires_good w :
  Good w → Good (snd (saveDebounceTimer_fires w)).
Proof.
  intros HG. unfold saveDebounceTimer_fires. rewrite !run_bind. cbn.
  destruct (saveDebounceTimer (storage w)) as [d|] eqn:E; [|exact HG].
  rewrite !run_bind.
  assert (Hd : recordGood d) by (destruct HG as [_ (_ & _ & Hp)]; auto).
  pose proof (saveDailyData_good d w Hd HG) as [Ht Hs].
  split; [exact Ht|].
  apply storageGood_elim in Hs as (Hf & Hc & Hp).
  now apply storageGood_intro.
Qed.

Lemma updateSession_good s w :
  sessionGood s → Good w → Good (snd (updateSession clock s w)).
Proof.
  intros Hs [Ht Hst]. rewrite updateSession_run. cbn.
  pose proof (updateSessionOn_good s _ Hs
                (todayRecord_good (isoDate (clock (queries w))) _ Hst)) as Hr.
  split; [exact Ht|]. destruct Hst as (Hf & _ & _).
  now apply storageGood_intro.
Qed.

Lemma markEmailSent_good w : Good w → Good (snd (markEmailSent clock w)).
Proof.
  intros HG. unfold markEmailSent. rewrite !run_bind. cbn.
  destruct (getTodayData_good w HG) as [HG' Hr].
  apply forceSave_good. apply saveTodayData_good.
  - destruct Hr as (H1 & H2 & H3 & H4). repeat split; cbn; auto.
  - eapply Good_transfer; [| | |exact HG']; reflexivity.
Qed.

Lemma cleanupOldData_good w :
  Good w → Good (snd (cleanupOldData clock parseDate localTZA w)).
Proof.
  intros [Ht Hs]. split; [exact Ht|].
  apply storageGood_elim in Hs as (Hf & Hc & Hp).
  apply storageGood_intro; [|exact Hc|exact Hp].
  intros file d E. apply map_lookup_filter_Some in E as [E _]. eauto.
Qed.

Lemma writeEmptyToday_good w : Good w → Good (snd (writeEmptyToday clock w)).
Proof.
  intros HG. unfold writeEmptyToday, getTodayDateString.
  rewrite !run_bind. cbn.
  apply saveDailyData_good; [apply createEmptyDailyData_good|].
  eapply Good_transfer; [| | |exact HG]; reflexivity.
Qed.
End Keeps.

Lemma Good_tracker w w' :
  trackerGood (tracker w') → storage w' = storage w → Good w → Good w'.
Proof. intros Ht Hs [_ H]. split; [exact Ht|]. now rewrite Hs. Qed.

Section KeepsTracker.
Variable clock : nat → Z.
Variable random : nat → string.

Lemma addTimeToRepo_good repo t w :
  Good w → Good (snd (addTimeToRepo repo t w)).
Proof.
  intros HG. apply (Good_tracker w); [|reflexivity|exact HG].
  destruct HG as [[Hs Hm] _]. split; [exact Hs|].
  unfold addTimeToRepo. cbn. apply Forall_dupd; [|auto|exact Hm].
  unfold filesDistinct. cbn. constructor.
Qed.

Lemma finalizeRepoTime_good repo w :
  Good w → Good (snd (finalizeRepoTime clock repo w)).
Proof.
  intros HG. unfold finalizeRepoTime. rewrite run_bind. cbn.
  apply addTimeToRepo_good.
  eapply Good_transfer; [| | |exact HG]; reflexivity.
Qed.

Lemma enterIdleState_good w : Good w → Good (snd (enterIdleState w)).
Proof.
  intros HG. unfold enterIdleState. rewrite run_bind. cbn.
  destruct (TrackingState.isIdle (state (tracker w))); [exact HG|].
  eapply Good_transfer; [| | |exact HG]; reflexivity.
Qed.

Lemma exitIdleState_good w : Good w → Good (snd (exitIdleState clock w)).
Proof.
  intros HG. unfold exitIdleState. rewrite run_bind. cbn.
  destruct (TrackingState.isIdle (state (tracker w))); [|exact HG].
  cbn. destruct (TrackingState.idleStartTime (state (tracker w)));
    eapply Good_transfer; [| | |exact HG| | | |exact HG]; reflexivity.
Qed.

Lemma recordActivity_good w : Good w → Good (snd (recordActivity clock w)).
Proof.
  intros HG. unfold recordActivity. rewrite ?run_bind. cbn.
  set (w1 := snd (when _ _ _)).
  assert (H1 : Good w1).
  { subst w1. destruct (TrackingState.isIdle (state (tracker w))); cbn.
    - apply exitIdleState_good.
      eapply Good_transfer; [| | |exact HG]; reflexivity.
    - eapply Good_transfer; [| | |exact HG]; reflexivity. }
  clearbody w1.
  destruct (TrackingState.currentRepo (state (tracker w1))) as [repo|]; cbn.
  - eapply Good_transfer;
      [| | |eapply (addTimeToRepo_good repo _ w1 H1)]; reflexivity.
  - eapply Good_transfer; [| | |exact H1]; reflexivity.
Qed.

Lemma updateCurrentRepo_good ide fp w :
  Good w → Good (snd (updateCurrentRepo clock ide fp w)).
Proof.
  intros HG. unfold updateCurrentRepo.
  generalize (resolveRepo ide fp). intros repoInfo. rewrite ?run_bind. cbn.
  match goal with
  | |- Good (snd (_ (snd ?x))) =>
      assert (H1 : Good (snd x)); [|set (w1 := snd x) in *; clearbody w1]
  end.
  { destruct (TrackingState.currentRepo (state (tracker w))) as [cur|],
      repoInfo as [info|]; cbn; try exact HG.
    destruct (negb _); cbn; [|exact HG]. now apply finalizeRepoTime_good. }
  destruct repoInfo as [info|]; cbn.
  - eapply Good_transfer; [| | |exact H1]; reflexivity.
  - destruct (workspaceFolder ide); cbn; [|exact H1].
    eapply Good_transfer; [| | |exact H1]; reflexivity.
Qed.

Lemma recordFileEdit_good fsPath w :
  Good w → Good (snd (recordFileEdit fsPath w)).
Proof.
  intros HG. unfold recordFileEdit. rewrite ?run_bind. cbn.
  destruct (TrackingState.currentRepo (state (tracker w))) as [cur|];
    [|exact HG].
  rewrite ?run_bind. cbn.
  destruct (dget _ (repoActivityMap (tracker w))) as [activity|] eqn:E;
    [|exact HG].
  case_bool_decide as Hin; [exact HG|]. cbn.
  apply (Good_tracker w); [|reflexivity|exact HG].
  destruct HG as [[Hs Hm] _]. split; [exact Hs|]. cbn.
  assert (Ha : filesDistinct activity) by exact (dget_Forall _ _ _ _ Hm E).
  assert (Hnew : NoDup (RepoActivity.filesEdited activity ++ [fsPath])).
  { apply NoDup_app. repeat split; [exact Ha| |apply NoDup_singleton].
    intros y Hy Hy'. apply list_elem_of_singleton in Hy'. now subst. }
  apply Forall_dupd; [exact Hnew| |exact Hm]. intros _ _. exact Hnew.
Qed.

Lemma countersAt_good now st s : sessionGood s → sessionGood (countersAt now st s).
Proof.
  intros [_ Hr]. split; [apply countersAt_conserved|].
  unfold countersAt.
  destruct (TrackingState.isIdle st), (TrackingState.idleStartTime st);
    exact Hr.
Qed.

Lemma updateTimeCounters_good w :
  Good w → Good (snd (updateTimeCounters clock w)).
Proof.
  intros HG. apply (Good_tracker w); [|reflexivity|exact HG].
  destruct HG as [[Hs Hm] _]. split; [|exact Hm].
  cbn. now apply countersAt_good.
Qed.

Lemma saveCurrentSession_good w :
  Good w → Good (snd (saveCurrentSession clock w)).
Proof.
  intros HG. unfold saveCurrentSession. rewrite ?run_bind. cbn.
  destruct HG as [[[Hc Hr] Hm] Hst].
  assert (Hs : sessionGood
     (TrackingSession.mk
        (TrackingSession.sessionId (currentSession (tracker w)))
        (TrackingSession.startTime (currentSession (tracker w)))
        (Some (clock (queries w)))
        (TrackingSession.totalDuration (currentSession (tracker w)))
        (TrackingSession.activeTime (currentSession (tracker w)))
        (TrackingSession.idleTime (currentSession (tracker w)))
        (dvalues (repoActivityMap (tracker w))))).
  { split; [exact Hc|exact Hm]. }
  apply updateSession_good; [exact Hs|].
  split; [|exact Hst]. split; [exact Hs|exact Hm].
Qed.

Lemma newSession_good id t : sessionGood (TrackingSession.mk id t None 0 0 0 []).
Proof. split; [reflexivity|constructor]. Qed.

Lemma handleDayChange_good ide w :
  Good w → Good (snd (handleDayChange clock random ide w)).
Proof.
  intros HG. unfold handleDayChange, initializeState, createNewSession,
    generateSessionId.
  rewrite ?run_bind. cbn.
  pose proof (forceSave_good _ (saveCurrentSession_good w HG)) as [_ Hst].
  split; [|exact Hst]. split; [apply newSession_good|constructor].
Qed.

Lemma heartbeat_good ide w :
  Good w → Good (snd (heartbeat clock random ide w)).
Proof.
  intros HG. unfold heartbeat. rewrite ?run_bind. cbn.
  destruct (TrackingState.isTracking (state (tracker w))); cbn; [|exact HG].
  rewrite ?run_bind. cbn.
  assert (H0 : Good (mkWorld (tracker w) (storage w) (S (S (queries w)))))
    by (eapply Good_transfer; [| | |exact HG]; reflexivity).
  destruct (negb (String.eqb _ _)).
  - now apply handleDayChange_good.
  - rewrite ?run_bind. unfold onTimeUpdate, ret. cbn.
    apply getTodayData_good, saveCurrentSession_good,
      updateTimeCounters_good.
    destruct (negb _ && _); cbn; [now apply enterIdleState_good|exact H0].
Qed.

Lemma handleWindowStateChange_good focused w :
  Good w → Good (snd (handleWindowStateChange clock focused w)).
Proof.
  intros HG. unfold handleWindowStateChange. rewrite ?run_bind. cbn.
  assert (H0 : Good (mkWorld
     (set_state (with_isWindowFocused focused (state (tracker w))) (tracker w))
     (storage w) (queries w)))
    by (eapply Good_transfer; [| | |exact HG]; reflexivity).
  destruct focused.
  - rewrite ?run_bind. cbn.
    pose proof (recordActivity_good _ H0) as H1.
    destruct (TrackingState.isIdle _); cbn;
      [now apply exitIdleState_good|exact H1].
  - rewrite ?run_bind. cbn.
    eapply Good_transfer; [| | |exact HG]; reflexivity.
Qed.

Lemma handleEditorChange_good ide editor w :
  Good w → Good (snd (handleEditorChange clock ide editor w)).
Proof.
  intros HG. unfold handleEditorChange. rewrite ?run_bind.
  pose proof (recordActivity_good w HG) as H1.
  destruct editor as [[fsPath languageId]|]; [|exact H1].
  rewrite ?run_bind. cbn.
  pose proof (updateCurrentRepo_good ide (Some fsPath) _ H1) as H2.
  eapply Good_transfer; [| | |exact H2]; reflexivity.
Qed.

Lemma start_good ide w : Good w → Good (snd (start clock random ide w)).
Proof.
  intros HG. unfold start. rewrite ?run_bind. cbn.
  destruct (TrackingState.isTracking (state (tracker w))); [exact HG|].
  unfold createNewSession, generateSessionId, setupEventListeners,
    startHeartbeat.
  rewrite ?run_bind. cbn.
  apply updateCurrentRepo_good.
  destruct HG as [[Hs Hm] Hst]. split; [|exact Hst].
  split; [apply newSession_good|exact Hm].
Qed.

Lemma stop_good w : Good w → Good (snd (stop clock w)).
Proof.
  intros HG. unfold stop. rewrite ?run_bind. cbn.
  destruct (TrackingState.isTracking (state (tracker w))); cbn; [|exact HG].
  rewrite ?run_bind. cbn.
  eapply Good_transfer; [reflexivity|reflexivity|reflexivity|].
  apply forceSave_good, saveCurrentSession_good, updateTimeCounters_good.
  destruct (TrackingState.currentRepo (state (tracker w))); cbn;
    [now apply finalizeRepoTime_good|exact HG].
Qed.

Lemma newTrackerService_good ide w :
  storageGood (storage w) →
  Good (snd (newTrackerService clock random ide w)).
Proof.
  intros Hst. unfold newTrackerService, initializeState, createNewSession,
    generateSessionId.
  rewrite ?run_bind. cbn.
  split; [|exact Hst]. split; [apply newSession_good|constructor].
Qed.
End KeepsTracker.

Lemma handle_good clock random parseDate localTZA e w :
  Good w → Good (exec (handle clock random parseDate localTZA e) w).
Proof.
  intros HG. unfold exec.
  destruct e; cbn [handle].
  - now apply start_good.
  - now apply stop_good.
  - now apply heartbeat_good.
  - now apply recordActivity_good.
  - rewrite run_bind. now apply recordFileEdit_good, recordActivity_good.
  - now apply handleWindowStateChange_good.
  - now apply handleEditorChange_good.
  - now apply updateCurrentRepo_good.
  - eapply Good_transfer; [| | |exact HG]; reflexivity.
  - now apply saveDebounceTimer_fires_good.
  - rewrite run_bind. now apply getTodayData_good.
  - now apply markEmailSent_good.
  - now apply forceSave_good.
  - now apply writeEmptyToday_good.
  - now apply cleanupOldData_good.
Qed.

(** Every world of every run is good. *)
Lemma reachable_good w : reachable w → Good w.
Proof.
  induction 1
    as [clock random ide t0 dir Hdir|clock random parseDate localTZA e w _ IH].
  - apply newTrackerService_good. now apply storageGood_intro.
  - now apply handle_good.
Qed.

Lemma nextMorning_reachable : reachable nextMorning.
Proof.
  unfold nextMorning, lastEvening, activated, unbuilt.
  refine (reachable_step (always (msPerDay + 5000)) someSuffix parseDateOnly
                         centralEurope
                         (HeartbeatFired editorInA) _ _).
  refine (reachable_step (always 0) someSuffix parseDateOnly
                         centralEurope
                         SaveTimerFired _ _).
  refine (reachable_step (always 60000) someSuffix parseDateOnly
                         centralEurope
                         (HeartbeatFired editorInA) _ _).
  refine (reachable_step (always 1000) someSuffix parseDateOnly
                         centralEurope
                         (Started editorInA) _ _).
  apply reachable_new. intros file d H. rewrite lookup_empty in H.
  discriminate H.
Qed.

Lemma holds_good w d : Good w → holds w d → recordGood d.
Proof.
  intros [_ (Hf & Hc & Hp)] [H|[H|[file H]]]; eauto.
Qed.

(** ** Conservation *)

(** C5. After [recalculateTotals] the record's [totalTime] is the sum of
    the [totalDuration] of its sessions, and its [activeTime] and
    [idleTime] add up to [totalTime] when every session of the list is
    conserved. The counter update of the engine leaves a conserved session
    in every state, idle or not. Hence in every world of every run the
    live session is conserved, and every record held in memory or in a
    file has conserved sessions and the two equations. *)
Theorem totals_conservation :
  (∀ d, DailyData.totalTime (recalculateTotals d)
        = sumOf TrackingSession.totalDuration (DailyData.sessions d)
        ∧ DailyData.sessions (recalculateTotals d) = DailyData.sessions d) ∧
  (∀ d, Forall conserved (DailyData.sessions d) →
        DailyData.activeTime (recalculateTotals d)
        + DailyData.idleTime (recalculateTotals d)
        = DailyData.totalTime (recalculateTotals d)) ∧
  (∀ clock w,
     conserved (currentSession (tracker (exec (updateTimeCounters clock) w)))
     ∧ conserved (fst (getCurrentSession clock w))) ∧
  (∀ w, reachable w →
     conserved (currentSession (tracker w)) ∧
     ∀ d, holds w d →
       Forall conserved (DailyData.sessions d) ∧
       DailyData.totalTime d
       = sumOf TrackingSession.totalDuration (DailyData.sessions d) ∧
       DailyData.activeTime d + DailyData.idleTime d = DailyData.totalTime d).
Proof.
  split; [|split; [|split]].
  - intros d. now rewrite recalculateTotals_eq.
  - intros d H. rewrite recalculateTotals_eq. cbn. now apply sumOf_conserved.
  - intros clock w. split.
    + apply countersAt_conserved.
    + unfold getCurrentSession. rewrite !run_bind. cbn.
      apply countersAt_conserved.
  - intros w Hw. apply reachable_good in Hw as HG. split.
    + now destruct HG as [[[Hc _] _] _].
    + intros d Hd. destruct (holds_good w d HG Hd) as (Hs & _ & Ht & Ha).
      repeat split; [|exact Ht|exact Ha].
      eapply Forall_impl; [exact Hs|]. now intros s [? _].
Qed.

Lemma totals_conservation_witness :
  (DailyData.activeTime (recalculateTotals idleSessionRecord)
   + DailyData.idleTime (recalculateTotals idleSessionRecord)
   = DailyData.totalTime (recalculateTotals idleSessionRecord)
   ∧ DailyData.idleTime (recalculateTotals idleSessionRecord) = 200000) ∧
  conserved (currentSession (tracker nextMorning)).
Proof.
  destruct totals_conservation as (_ & Hrec & _ & Hrun).
  split; [split|].
  - apply Hrec. constructor; [|constructor]. apply countersAt_conserved.
  - reflexivity.
  - exact (proj1 (Hrun nextMorning nextMorning_reachable)).
Defined.

(** ** No file twice *)

Lemma recordFileEdit_distinct fsPath w :
  Forall filesDistinct (dvalues (repoActivityMap (tracker w))) →
  Forall filesDistinct
    (dvalues (repoActivityMap (tracker (exec (recordFileEdit fsPath) w)))).
Proof.
  intros Hm. unfold recordFileEdit, exec. rewrite ?run_bind. cbn.
  destruct (TrackingState.currentRepo (state (tracker w))) as [cur|];
    [|exact Hm].
  rewrite ?run_bind. cbn.
  destruct (dget _ (repoActivityMap (tracker w))) as [activity|] eqn:E;
    [|exact Hm].
  case_bool_decide as Hin; [exact Hm|]. cbn.
  assert (Ha : filesDistinct activity) by exact (dget_Forall _ _ _ _ Hm E).
  assert (Hnew : NoDup (RepoActivity.filesEdited activity ++ [fsPath])).
  { apply NoDup_app. repeat split; [exact Ha| |apply NoDup_singleton].
    intros y Hy Hy'. apply list_elem_of_singleton in Hy'. now subst. }
  apply Forall_dupd; [exact Hnew| |exact Hm]. intros _ _. exact Hnew.
Qed.

(** C10. [recordFileEdit] keeps every [filesEdited] list of the live map
    free of duplicates, and [recalculateTotals] makes summaries free of
    duplicates from sessions that are. Hence in every world of every run
    no path is twice in the [filesEdited] of a context of the live
    session, of a session on record or of a repository summary of a
    record. *)
Theorem filesEdited_distinct :
  (∀ fsPath w,
     Forall filesDistinct (dvalues (repoActivityMap (tracker w))) →
     Forall filesDistinct
       (dvalues (repoActivityMap (tracker (exec (recordFileEdit fsPath) w))))) ∧
  (∀ d,
     Forall (λ s, Forall filesDistinct (TrackingSession.repositories s))
            (DailyData.sessions d) →
     Forall summaryDistinct (DailyData.repositories (recalculateTotals d))) ∧
  (∀ w, reachable w →
     Forall filesDistinct (dvalues (repoActivityMap (tracker w))) ∧
     Forall filesDistinct (TrackingSession.repositories
                             (currentSession (tracker w))) ∧
     ∀ d, holds w d →
       Forall summaryDistinct (DailyData.repositories d) ∧
       Forall (λ s, Forall filesDistinct (TrackingSession.repositories s))
              (DailyData.sessions d)).
Proof.
  split; [|split].
  - apply recordFileEdit_distinct.
  - intros d H. rewrite recalculateTotals_eq. cbn.
    apply repoMapOf_distinct; [exact H|constructor].
  - intros w Hw. apply reachable_good in Hw as HG.
    split; [|split].
    + now destruct HG as [[_ Hm] _].
    + now destruct HG as [[[_ Hr] _] _].
    + intros d Hd. destruct (holds_good w d HG Hd) as (Hs & Hsum & _).
      split; [exact Hsum|].
      eapply Forall_impl; [exact Hs|]. now intros s [_ ?].
Qed.

Lemma NoDup_two_files : NoDup ["/a/f.ts"; "/a/g.ts"].
Proof.
  apply NoDup_cons. split; [|apply NoDup_singleton].
  intros H. apply list_elem_of_singleton in H. discriminate H.
Qed.

Lemma twoFiles_contexts :
  dvalues (repoActivityMap (tracker twoFiles))
  = [RepoActivity.mk "/a" "a" "main" None 4000 ["/a/f.ts"; "/a/g.ts"]
                     [("typescript", 4000)]].
Proof. vm_compute. reflexivity. Qed.

Lemma savedEvening_reachable : reachable savedEvening.
Proof.
  unfold savedEvening, busyWorld, activated, unbuilt.
  refine (reachable_step _ _ _ _ (HeartbeatFired editorInA) _ _).
  refine (reachable_step _ _ _ _ (DocumentSaved "/a/f.ts") _ _).
  refine (reachable_step _ _ _ _ (DocumentSaved "/a/g.ts") _ _).
  refine (reachable_step _ _ _ _ (DocumentSaved "/a/f.ts") _ _).
  refine (reachable_step (always 5000) someSuffix parseDateOnly
                         centralEurope TextChanged _ _).
  refine (reachable_step (always 1000) someSuffix parseDateOnly
                         centralEurope (Started editorInA) _ _).
  apply reachable_new. intros file d H. rewrite lookup_empty in H.
  discriminate H.
Qed.

Lemma filesEdited_distinct_witness :
  let again := exec (recordFileEdit "/a/f.ts") twoFiles in
  filesOf "/a:main" (tracker again) = ["/a/f.ts"; "/a/g.ts"] ∧
  Forall filesDistinct (dvalues (repoActivityMap (tracker again))) ∧
  map RepoSummary.filesEdited
      (DailyData.repositories (recalculateTotals sharedFilesRecord))
  = [["/a/f.ts"; "/a/g.ts"]] ∧
  Forall summaryDistinct
         (DailyData.repositories (recalculateTotals sharedFilesRecord)) ∧
  filesOf "/a:main" (tracker savedEvening) = ["/a/f.ts"; "/a/g.ts"] ∧
  Forall filesDistinct (dvalues (repoActivityMap (tracker savedEvening))) ∧
  (∀ d, currentDayData (storage savedEvening) = Some d →
        Forall summaryDistinct (DailyData.repositories d)).
Proof.
  destruct filesEdited_distinct as (Hedit & Hsum & Hrun).
  split; [vm_compute; reflexivity|]. split.
  { apply Hedit. rewrite twoFiles_contexts.
    constructor; [exact NoDup_two_files|constructor]. }
  split; [vm_compute; reflexivity|]. split.
  { apply Hsum. vm_compute.
    constructor; [|constructor; [|constructor]];
      (constructor; [exact NoDup_two_files|constructor]). }
  split; [vm_compute; reflexivity|].
  destruct (Hrun savedEvening savedEvening_reachable) as (H1 & _ & H3).
  split; [exact H1|].
  intros d Hd. apply (H3 d). left. exact Hd.
Defined.

(** ** Durations *)

(** X1. For a duration of [ms] milliseconds, [ms] not negative,
    [formatDuration] gives the whole minutes of the duration, rounded
    down, as hours and minutes below 60; the text is [<m>m] under an hour
    and [<h>h <m>m] from an hour on. *)
Theorem formatDuration_whole_minutes ms :
  0 ≤ ms →
  let d := formatDuration ms in
  0 ≤ Duration.hours d ∧ 0 ≤ Duration.minutes d < 60 ∧
  (60 * Duration.hours d + Duration.minutes d) * 60000 ≤ ms
    < (60 * Duration.hours d + Duration.minutes d + 1) * 60000 ∧
  Duration.formatted d =
    if ms <? 3600000 then showZ (Duration.minutes d) +:+ "m"
    else showZ (Duration.hours d) +:+ "h " +:+
         showZ (Duration.minutes d) +:+ "m".
Proof.
  intros Hms d. subst d. unfold formatDuration.
  assert (Hq : 0 ≤ ms / 60000) by (apply Z.div_pos; lia).
  assert (Hh : 0 ≤ ms / 60000 / 60) by (apply Z.div_pos; lia).
  rewrite Z.rem_mod_nonneg by lia.
  pose proof (Z.mod_pos_bound (ms / 60000) 60 ltac:(lia)) as Hm.
  pose proof (Z.div_mod (ms / 60000) 60 ltac:(lia)) as E1.
  pose proof (Z.div_mod ms 60000 ltac:(lia)) as E2.
  pose proof (Z.mod_pos_bound ms 60000 ltac:(lia)) as Hr.
  assert (Hthr : (0 <? ms / 60000 / 60) = negb (ms <? 3600000)).
  { destruct (Z.ltb_spec ms 3600000) as [Hlt|Hge]; cbn.
    - apply Z.ltb_ge. cut (ms / 60000 / 60 < 1); [lia|].
      apply Z.div_lt_upper_bound; [lia|].
      apply Z.div_lt_upper_bound; lia.
    - apply Z.ltb_lt. cut (1 ≤ ms / 60000 / 60); [lia|].
      apply Z.div_le_lower_bound; [lia|].
      apply Z.div_le_lower_bound; lia. }
  rewrite Hthr. destruct (ms <? 3600000); cbn; repeat split; lia.
Qed.

Lemma formatDuration_whole_minutes_witness :
  Duration.hours (formatDuration 5459999) = 1 ∧
  Duration.minutes (formatDuration 5459999) = 30 ∧
  Duration.formatted (formatDuration 5459999) = "1h 30m".
Proof.
  destruct (formatDuration_whole_minutes 5459999 ltac:(lia))
    as (_ & _ & _ & H).
  split; [reflexivity|]. split; [reflexivity|].
  rewrite H. reflexivity.
Defined.

(** X2. For a negative duration [formatDuration] gives a negative
    number of hours and a number of minutes from -59 to 0, and the text
    shows the minutes alone, since [hours > 0] fails.  Unless the minutes
    are 0, hours and minutes add up to an hour less than the whole
    minutes of the duration: [Math.floor] rounds down and [%] keeps the
    sign of its left operand. *)
Theorem formatDuration_negative ms :
  ms < 0 →
  let d := formatDuration ms in
  Duration.hours d < 0 ∧ -60 < Duration.minutes d ≤ 0 ∧
  Duration.formatted d = showZ (Duration.minutes d) +:+ "m" ∧
  (Duration.minutes d ≠ 0 →
   60 * Duration.hours d + Duration.minutes d = ms / 60000 - 60).
Proof.
  intros Hms d. subst d. unfold formatDuration.
  assert (Hq : ms / 60000 < 0) by (apply Z.div_lt_upper_bound; lia).
  assert (Hh : ms / 60000 / 60 < 0) by (apply Z.div_lt_upper_bound; lia).
  destruct (Z.ltb_spec 0 (ms / 60000 / 60)) as [?|_]; [lia|]. cbn.
  set (x := ms / 60000) in *.
  assert (Hrem : Z.rem x 60 = - ((- x) mod 60)).
  { replace x with (- - x) at 1 by lia.
    rewrite Z.rem_opp_l by lia. rewrite Z.rem_mod_nonneg by lia.
    reflexivity. }
  rewrite Hrem.
  pose proof (Z.div_mod x 60 ltac:(lia)) as E1.
  pose proof (Z.mod_pos_bound x 60 ltac:(lia)) as B1.
  pose proof (Z.div_mod (- x) 60 ltac:(lia)) as E2.
  pose proof (Z.mod_pos_bound (- x) 60 ltac:(lia)) as B2.
  repeat split; lia.
Qed.

Lemma formatDuration_negative_witness :
  Duration.hours (formatDuration (-60001)) < 0 ∧
  Duration.formatted (formatDuration (-60001)) = "-2m".
Proof.
  destruct (formatDuration_negative (-60001) ltac:(lia))
    as (Hh & _ & H & _).
  split; [exact Hh|]. rewrite H. reflexivity.
Defined.

(** ** storage.ts: the remaining methods of [StorageService] *)

(** ** Reading and writing the files *)

Lemma getDataFilePath_inj date date' :
  getDataFilePath date = getDataFilePath date' → date = date'.
Proof.
  unfold getDataFilePath. revert date'.
  induction date as [|c s IH]; intros [|c' s'] E; cbn in E.
  - reflexivity.
  - exfalso. apply (f_equal String.length) in E.
    change (String.length ".json"
            = S (String.length (s' +:+ ".json"))) in E.
    rewrite length_app in E. lia.
  - exfalso. apply (f_equal String.length) in E.
    change (S (String.length (s +:+ ".json"))
            = String.length ".json") in E.
    rewrite length_app in E. lia.
  - injection E as -> E. f_equal. now apply IH.
Qed.

Lemma loadDailyData_run date w :
  loadDailyData date w = (loadedRecord date (storage w), w).
Proof.
  unfold loadDailyData, loadedRecord. monad_unfold.
  destruct (files (storage w) !! _) as [[?|]|]; reflexivity.
Qed.

(** X4. After [saveDailyData data], [loadDailyData] gives [data] back
    for the date of [data] and, for any other date, what it gave
    before. *)
Theorem saveDailyData_loadDailyData data date w :
  let w' := exec (saveDailyData data) w in
  loadDailyData date w' =
    (if String.eqb date (DailyData.date data) then data
     else fst (loadDailyData date w), w').
Proof.
  intros w'. subst w'. rewrite !loadDailyData_run. cbn. f_equal.
  unfold loadedRecord, saveDailyData, exec. cbn.
  destruct (String.eqb_spec date (DailyData.date data)) as [->|Hne].
  - now rewrite lookup_insert_eq.
  - rewrite lookup_insert_ne; [reflexivity|].
    intros E. apply getDataFilePath_inj in E. congruence.
Qed.

(** X5. [saveTodayData] writes no file before its timer fires.  Of two
    calls in a row the first timer is cleared: when the timer fires, the
    record of the second call is written to the file of its date, no
    other file changes, and the timer is gone, so that nothing is written
    twice. *)
Theorem saveTodayData_debounced d1 d2 w :
  let w2 := exec (saveTodayData d2) (exec (saveTodayData d1) w) in
  let w3 := exec saveDebounceTimer_fires w2 in
  files (storage w2) = files (storage w) ∧
  storage w3
  = mkStorage (<[getDataFilePath (DailyData.date d2) := Some d2]>
                 (files (storage w)))
              (Some d2) None ∧
  (∀ file, file ≠ getDataFilePath (DailyData.date d2) →
           files (storage w3) !! file = files (storage w) !! file) ∧
  exec saveDebounceTimer_fires w3 = w3.
Proof.
  intros w2 w3. subst w2 w3. split; [reflexivity|]. split; [reflexivity|].
  split; [|reflexivity].
  intros file Hf. unfold exec. simpl. now rewrite lookup_insert_ne.
Qed.

(** X6. [forceSave] clears the pending write and writes the record
    held in memory to the file of its date: the record can be loaded
    back, no other file changes, and neither the cleared timer nor a
    second [forceSave] changes anything more. *)
Theorem forceSave_flushes w :
  let w' := exec forceSave w in
  saveDebounceTimer (storage w') = None ∧
  currentDayData (storage w') = currentDayData (storage w) ∧
  (∀ d, currentDayData (storage w) = Some d →
        fst (loadDailyData (DailyData.date d) w') = d) ∧
  (∀ file, (∀ d, currentDayData (storage w) = Some d →
                 file ≠ getDataFilePath (DailyData.date d)) →
           files (storage w') !! file = files (storage w) !! file) ∧
  exec saveDebounceTimer_fires w' = w' ∧
  exec forceSave w' = w'.
Proof.
  intros w'. subst w'. unfold forceSave, exec. rewrite ?run_bind. cbn.
  destruct w as [t [fs cur tm] q]. cbn.
  destruct cur as [d|]; simpl.
  - split; [reflexivity|]. split; [reflexivity|]. split; [|split; [|split]].
    + intros d' [= <-]. rewrite loadDailyData_run. simpl.
      unfold loadedRecord. simpl. now rewrite lookup_insert_eq.
    + intros file Hf. rewrite lookup_insert_ne; [reflexivity|].
      intros E. now apply (Hf d).
    + reflexivity.
    + unfold saveDailyData. monad_unfold. simpl.
      now rewrite insert_insert_eq.
  - repeat split. intros d [=].
Qed.

(** ** The flag of the daily report *)

Lemma markEmailSent_run clock w :
  markEmailSent clock w =
  let d := withEmailSent (clock (S (queries w)))
             (todayRecord (isoDate (clock (queries w))) (storage w)) in
  (tt, mkWorld (tracker w)
         (mkStorage (<[getDataFilePath (DailyData.date d) := Some d]>
                       (files (storage w)))
                    (Some d) None)
         (S (S (queries w)))).
Proof.
  unfold markEmailSent. rewrite run_bind, getTodayData_run. simpl.
  reflexivity.
Qed.

Lemma wasEmailSentToday_run clock w :
  fst (wasEmailSentToday clock w) =
  DailyData.emailSent (todayRecord (isoDate (clock (queries w))) (storage w)).
Proof.
  unfold wasEmailSentToday. rewrite run_bind, getTodayData_run. reflexivity.
Qed.

Lemma updateSessionOn_emailSent s d :
  DailyData.emailSent (updateSessionOn s d) = DailyData.emailSent d.
Proof. now rewrite updateSessionOn_eq. Qed.

Lemma todayRecord_cached today fs d tm :
  DailyData.date d = today →
  todayRecord today (mkStorage fs (Some d) tm) = d.
Proof.
  intros <-. unfold todayRecord. simpl. now rewrite String.eqb_refl.
Qed.

(** X7. When the record found for today carries today's date,
    [markEmailSent] writes it to today's file at once with [emailSent]
    set and the time of sending; [wasEmailSentToday] then answers true
    for the rest of the day, also after an [updateSession], and false on
    another day that has no file. *)
Theorem markEmailSent_wasEmailSentToday clock clock' clock'' session w :
  let today := isoDate (clock (queries w)) in
  let w1 := exec (markEmailSent clock) w in
  DailyData.date (todayRecord today (storage w)) = today →
  (DailyData.emailSent <$> fileRecord w1 today) = Some true ∧
  (DailyData.emailSentAt <$> fileRecord w1 today)
  = Some (Some (clock (S (queries w)))) ∧
  saveDebounceTimer (storage w1) = None ∧
  (isoDate (clock' (queries w1)) = today →
   fst (wasEmailSentToday clock' w1) = true ∧
   let w2 := exec (updateSession clock' session) w1 in
   (isoDate (clock'' (queries w2)) = today →
    fst (wasEmailSentToday clock'' w2) = true)) ∧
  (isoDate (clock' (queries w1)) ≠ today →
   files (storage w) !! getDataFilePath (isoDate (clock' (queries w1)))
   = None →
   fst (wasEmailSentToday clock' w1) = false).
Proof.
  intros today w1 Hdate. subst w1. unfold exec.
  rewrite markEmailSent_run. fold today. simpl.
  set (d := todayRecord today (storage w)) in *.
  unfold fileRecord. simpl. rewrite Hdate, lookup_insert_eq. simpl.
  split; [reflexivity|]. split; [reflexivity|]. split; [reflexivity|].
  split.
  - intros Hd'. split.
    + rewrite wasEmailSentToday_run. simpl. rewrite Hd'.
      now rewrite todayRecord_cached.
    + simpl. rewrite updateSession_run. simpl. intros Hd''.
      rewrite wasEmailSentToday_run. simpl. rewrite Hd'', Hd'.
      rewrite (todayRecord_cached today _ (withEmailSent _ d)) by exact Hdate.
      rewrite todayRecord_cached
        by (rewrite updateSessionOn_date; exact Hdate).
      now rewrite updateSessionOn_emailSent.
  - intros Hne Hfile. rewrite wasEmailSentToday_run. simpl.
    unfold todayRecord. simpl. rewrite Hdate.
    destruct (String.eqb_spec today (isoDate (clock' (S (S (queries w))))))
      as [E|_]; [now rewrite E in Hne|].
    unfold loadedRecord. simpl.
    rewrite lookup_insert_ne.
    + simpl in Hfile. now rewrite Hfile.
    + intros E. apply getDataFilePath_inj in E. now rewrite E in Hne.
Qed.

Lemma markEmailSent_wasEmailSentToday_witness :
  let w1 := exec (markEmailSent (always 2000)) (activated 1000 editorInA) in
  (DailyData.emailSent <$> fileRecord w1 "1970-01-01") = Some true ∧
  fst (wasEmailSentToday (always 3000) w1) = true.
Proof.
  assert (Hd : DailyData.date
                 (todayRecord "1970-01-01"
                    (storage (activated 1000 editorInA))) = "1970-01-01")
    by (vm_compute; reflexivity).
  destruct (markEmailSent_wasEmailSentToday (always 2000) (always 3000)
              (always 4000)
              (closedAt 3000 (tracker (activated 1000 editorInA)))
              (activated 1000 editorInA) Hd)
    as (H1 & _ & _ & H2 & _).
  split; [exact H1|].
  destruct H2 as [H2 _]; [vm_compute; reflexivity|exact H2].
Defined.

(** ** Repository summaries *)

Section DictKeys.
Context {V : Type}.
Implicit Types (d : list (string * V)) (k : string).

Lemma dget_None_keys k d : dget k d = None ↔ k ∉ dkeys d.
Proof.
  induction d as [|[k' v] d IH]; cbn.
  - split; [intros _; apply not_elem_of_nil|done].
  - destruct (String.eqb_spec k k') as [->|Hne].
    + split; [done|]. intros H. exfalso. apply H. apply list_elem_of_here.
    + rewrite IH. split.
      * intros H E. apply elem_of_cons in E as [E|E]; [done|]. auto.
      * intros H E. apply H. now apply list_elem_of_further.
Qed.

Lemma dkeys_dupd k f d :
  dkeys (dupd k f d) = if bool_decide (k ∈ dkeys d) then dkeys d
                       else dkeys d ++ [k].
Proof.
  induction d as [|[k' v] d IH]; cbn.
  - rewrite bool_decide_eq_false_2; [reflexivity|apply not_elem_of_nil].
  - destruct (String.eqb_spec k k') as [->|Hne]; cbn.
    + rewrite bool_decide_eq_true_2; [reflexivity|apply list_elem_of_here].
    + fold (dkeys (dupd k f d)). rewrite IH. fold (dkeys d).
      case_bool_decide as H1; case_bool_decide as H2; try reflexivity.
      * exfalso. apply H2. now apply list_elem_of_further.
      * exfalso. apply elem_of_cons in H2 as [E|E]; [done|]. auto.
Qed.

Lemma NoDup_dkeys_dupd k f d : NoDup (dkeys d) → NoDup (dkeys (dupd k f d)).
Proof.
  intros H. rewrite dkeys_dupd. case_bool_decide as Hin; [exact H|].
  apply NoDup_app. repeat split; [exact H| |apply NoDup_singleton].
  intros y Hy Hy'. apply list_elem_of_singleton in Hy'. now subst.
Qed.

Lemma elem_of_dvalues_dget d v :
  NoDup (dkeys d) → v ∈ dvalues d → ∃ k, dget k d = Some v.
Proof.
  induction d as [|[k' v'] d IH]; cbn; intros Hnd Hin.
  - now apply elem_of_nil in Hin.
  - apply NoDup_cons in Hnd as [Hk Hnd].
    apply elem_of_cons in Hin as [->|Hin].
    + exists k'. now rewrite String.eqb_refl.
    + destruct (IH Hnd Hin) as [k Hk'].
      exists k. destruct (String.eqb_spec k k') as [->|_]; [|exact Hk'].
      apply (proj2 (dget_None_keys k' d)) in Hk. congruence.
Qed.
End DictKeys.

Lemma sumOf_nil {A} (f : A → Z) : sumOf f [] = 0.
Proof. reflexivity. Qed.

Lemma sumOf_cons {A} (f : A → Z) x l : sumOf f (x :: l) = f x + sumOf f l.
Proof. reflexivity. Qed.

Lemma sumOf_app {A} (f : A → Z) l1 l2 :
  sumOf f (l1 ++ l2) = sumOf f l1 + sumOf f l2.
Proof.
  induction l1 as [|x l1 IH]; [reflexivity|].
  change ((x :: l1) ++ l2) with (x :: (l1 ++ l2)).
  rewrite !sumOf_cons, IH. lia.
Qed.

Lemma repoMapOf_activitiesOf ss : ∀ m,
  repoMapOf ss m = fold_left aggregateRepo (activitiesOf ss) m.
Proof.
  unfold activitiesOf.
  induction ss as [|s ss IH]; intros m; cbn; [reflexivity|].
  rewrite fold_left_app. apply IH.
Qed.

Lemma timeAt_snoc k acts a :
  timeAt k (acts ++ [a]) =
  timeAt k acts + (if String.eqb (RepoActivity.repoPath a) k
                   then RepoActivity.timeSpent a else 0).
Proof.
  unfold timeAt. rewrite filter_app, sumOf_app. f_equal.
  rewrite filter_cons, filter_nil.
  destruct (String.eqb_spec (RepoActivity.repoPath a) k) as [E|N].
  - rewrite decide_True by exact E. rewrite sumOf_cons, sumOf_nil. lia.
  - rewrite decide_False by exact N. reflexivity.
Qed.

Lemma branchesAt_snoc k acts a :
  branchesAt k (acts ++ [a]) =
  branchesAt k acts ++ (if String.eqb (RepoActivity.repoPath a) k
                        then [RepoActivity.branchName a] else []).
Proof.
  unfold branchesAt. rewrite filter_app, map_app. f_equal.
  rewrite filter_cons, filter_nil.
  destruct (String.eqb_spec (RepoActivity.repoPath a) k) as [E|N].
  - now rewrite decide_True by exact E.
  - now rewrite decide_False by exact N.
Qed.

Lemma elem_of_pushNew x y l : x ∈ pushNew y l ↔ x ∈ l ∨ x = y.
Proof.
  unfold pushNew. case_bool_decide as H.
  - split; [auto|]. intros [?| ->]; assumption.
  - rewrite elem_of_app, list_elem_of_singleton. reflexivity.
Qed.

Lemma filter_none {A} (P : A → Prop) `{!∀ x, Decision (P x)} (l : list A) :
  (∀ x, x ∈ l → ¬ P x) → filter P l = [].
Proof.
  induction l as [|x l IH]; intros Hn; [reflexivity|].
  rewrite filter_cons, decide_False by (apply Hn, list_elem_of_here).
  apply IH. intros y Hy. apply Hn. now apply list_elem_of_further.
Qed.

Lemma summarises_step acts m a :
  summarises acts m → summarises (acts ++ [a]) (aggregateRepo m a).
Proof.
  intros [Hnd H]. split; [now apply NoDup_dkeys_dupd|].
  intros k. unfold aggregateRepo. specialize (H k).
  rewrite timeAt_snoc, branchesAt_snoc.
  destruct (String.eqb_spec (RepoActivity.repoPath a) k) as [E|N].
  - subst k. rewrite dget_dupd_eq.
    destruct (dget (RepoActivity.repoPath a) m) as [v|]; cbn.
    + destruct H as (H1 & H2 & H3 & H4 & H5).
      split; [exact H1|]. split; [lia|].
      split; [now apply pushNew_NoDup|]. split.
      * intros b. rewrite elem_of_pushNew, elem_of_app, list_elem_of_singleton.
        now rewrite H4.
      * exists a. split; [|reflexivity].
        apply elem_of_app. right. now apply list_elem_of_singleton.
    + split; [reflexivity|]. split.
      * unfold timeAt. now rewrite filter_none.
      * split; [apply NoDup_singleton|]. split.
        -- intros b. unfold branchesAt. now rewrite filter_none.
        -- exists a. split; [|reflexivity].
           apply elem_of_app. right. now apply list_elem_of_singleton.
  - rewrite dget_dupd_ne by exact N. rewrite Z.add_0_r, app_nil_r.
    destruct (dget k m) as [v|].
    + destruct H as (H1 & H2 & H3 & H4 & a' & Ha & Hp).
      repeat split; try assumption; try apply H4.
      exists a'. split; [|exact Hp]. apply elem_of_app. now left.
    + intros a' Ha. apply elem_of_app in Ha as [Ha|Ha]; [now apply H|].
      apply list_elem_of_singleton in Ha. now subst.
Qed.

Lemma summarises_fold acts : ∀ acts0 m,
  summarises acts0 m →
  summarises (acts0 ++ acts) (fold_left aggregateRepo acts m).
Proof.
  induction acts as [|a acts IH]; intros acts0 m H; cbn.
  - now rewrite app_nil_r.
  - replace (acts0 ++ a :: acts) with ((acts0 ++ [a]) ++ acts)
      by now rewrite <- app_assoc.
    apply IH, summarises_step, H.
Qed.

Lemma keyed_dupd {V} (key : V → string) k f (d : list (string * V)) :
  key (f None) = k → (∀ v, key (f (Some v)) = key v) →
  Forall (λ kv, key (snd kv) = fst kv) d →
  Forall (λ kv, key (snd kv) = fst kv) (dupd k f d).
Proof.
  intros Hnew Hupd. induction d as [|[k' v] d IH]; cbn; intros H.
  - constructor; [exact Hnew|constructor].
  - apply Forall_cons in H as [Hv Hd]. cbn in Hv.
    destruct (String.eqb k k'); constructor; cbn; auto.
    now rewrite Hupd.
Qed.

Lemma keyed_fold acts : ∀ m,
  Forall (λ kv, RepoSummary.repoPath (snd kv) = fst kv) m →
  Forall (λ kv, RepoSummary.repoPath (snd kv) = fst kv)
         (fold_left aggregateRepo acts m).
Proof.
  induction acts as [|a acts IH]; intros m H; cbn; [exact H|].
  apply IH. unfold aggregateRepo. now apply keyed_dupd.
Qed.

Lemma keyed_paths m :
  Forall (λ kv, RepoSummary.repoPath (snd kv) = fst kv) m →
  map RepoSummary.repoPath (dvalues m) = dkeys m.
Proof.
  unfold dvalues, dkeys.
  induction 1 as [|[k v] m Hv _ IH]; cbn; [reflexivity|].
  cbn in Hv. now f_equal.
Qed.

Lemma sumOf_dupd {V} (g : V → Z) k f (d : list (string * V)) delta :
  g (f None) = delta → (∀ v, g (f (Some v)) = g v + delta) →
  sumOf g (dvalues (dupd k f d)) = sumOf g (dvalues d) + delta.
Proof.
  intros Hnew Hupd. induction d as [|[k' v] d IH].
  - change (sumOf g [f None] = sumOf g [] + delta).
    rewrite sumOf_cons, !sumOf_nil. lia.
  - cbn [dupd]. destruct (String.eqb k k').
    + change (dvalues ((k', f (Some v)) :: d))
        with (f (Some v) :: dvalues d).
      change (dvalues ((k', v) :: d)) with (v :: dvalues d).
      rewrite !sumOf_cons, Hupd. lia.
    + change (dvalues ((k', v) :: dupd k f d))
        with (v :: dvalues (dupd k f d)).
      change (dvalues ((k', v) :: d)) with (v :: dvalues d).
      rewrite !sumOf_cons, IH. lia.
Qed.

Lemma sumOf_totalTime_fold acts : ∀ m,
  sumOf RepoSummary.totalTime (dvalues (fold_left aggregateRepo acts m))
  = sumOf RepoSummary.totalTime (dvalues m)
    + sumOf RepoActivity.timeSpent acts.
Proof.
  induction acts as [|a acts IH]; intros m.
  - cbn [fold_left]. rewrite sumOf_nil. lia.
  - cbn [fold_left]. rewrite IH. unfold aggregateRepo.
    rewrite (sumOf_dupd _ _ _ _ (RepoActivity.timeSpent a)) by reflexivity.
    rewrite sumOf_cons. lia.
Qed.

(** X8. [recalculateTotals] leaves one summary for each repository
    path among the contexts of the day's sessions: its time is the sum of
    [timeSpent] over the contexts at this path, whatever their branch,
    and its branches are the branches of these contexts, each once; the
    summaries' times add up to the time of all the contexts. *)
Theorem recalculateTotals_repositories d :
  let acts := activitiesOf (DailyData.sessions d) in
  let rs := DailyData.repositories (recalculateTotals d) in
  NoDup (map RepoSummary.repoPath rs) ∧
  (∀ p, p ∈ map RepoSummary.repoPath rs
        ↔ p ∈ map RepoActivity.repoPath acts) ∧
  (∀ r, r ∈ rs →
     RepoSummary.totalTime r = timeAt (RepoSummary.repoPath r) acts ∧
     NoDup (RepoSummary.branchesWorkedOn r) ∧
     ∀ b, b ∈ RepoSummary.branchesWorkedOn r
          ↔ b ∈ branchesAt (RepoSummary.repoPath r) acts) ∧
  sumOf RepoSummary.totalTime rs = sumOf RepoActivity.timeSpent acts.
Proof.
  intros acts rs. subst rs. rewrite recalculateTotals_eq.
  cbn [DailyData.repositories].
  rewrite repoMapOf_activitiesOf. fold acts.
  set (m := fold_left aggregateRepo acts []).
  assert (Hs : summarises acts m).
  { apply (summarises_fold acts [] []). split; [constructor|].
    intros k a Ha. now apply elem_of_nil in Ha. }
  assert (Hk : map RepoSummary.repoPath (dvalues m) = dkeys m).
  { apply keyed_paths, keyed_fold. constructor. }
  destruct Hs as [Hnd Hs].
  split; [now rewrite Hk|]. split; [|split].
  - intros p. rewrite Hk. specialize (Hs p). split.
    + intros Hp. destruct (dget p m) as [v|] eqn:E.
      * destruct Hs as (_ & _ & _ & _ & a & Ha & Hp').
        apply list_elem_of_fmap. now exists a.
      * apply dget_None_keys in E. contradiction.
    + intros Hp. apply list_elem_of_fmap in Hp as (a & -> & Ha).
      destruct (dget (RepoActivity.repoPath a) m) as [v|] eqn:E.
      * destruct (decide (RepoActivity.repoPath a ∈ dkeys m)) as [|Hn];
          [assumption|].
        apply dget_None_keys in Hn. congruence.
      * exfalso. now apply (Hs a).
  - intros r Hr. apply elem_of_dvalues_dget in Hr as [k Hr]; [|exact Hnd].
    specialize (Hs k). rewrite Hr in Hs.
    destruct Hs as (<- & H2 & H3 & H4 & _). auto.
  - subst m. rewrite sumOf_totalTime_fold.
    change (dvalues []) with (@nil RepoSummary.t). rewrite sumOf_nil. lia.
Qed.

(** ** Language totals *)

Lemma NoDup_dkeys_addLanguages src : ∀ acc,
  NoDup (dkeys acc) → NoDup (dkeys (addLanguages src acc)).
Proof.
  unfold addLanguages.
  induction src as [|[l t] src IH]; intros acc H; cbn; [exact H|].
  apply IH. unfold addLang. now apply NoDup_dkeys_dupd.
Qed.

Lemma langTime_nil l : langTime l [] = 0.
Proof. reflexivity. Qed.

Lemma langTime_cons l k t m :
  langTime l ((k, t) :: m) = if String.eqb l k then t else langTime l m.
Proof. unfold langTime. cbn. now destruct (String.eqb l k). Qed.

Lemma langTime_absent l m : l ∉ dkeys m → langTime l m = 0.
Proof.
  intros H. apply dget_None_keys in H. unfold langTime. now rewrite H.
Qed.

Lemma langTime_addLanguages l src : ∀ acc,
  NoDup (dkeys src) →
  langTime l (addLanguages src acc) = langTime l acc + langTime l src.
Proof.
  unfold addLanguages.
  induction src as [|[k t] src IH]; intros acc H.
  - cbn [fold_left]. rewrite langTime_nil. lia.
  - cbn in H. apply NoDup_cons in H as [Hk H].
    cbn [fold_left fst snd]. rewrite IH by exact H.
    rewrite langTime_addLang, langTime_cons.
    destruct (String.eqb_spec l k) as [->|_]; [|lia].
    rewrite (langTime_absent k src) by exact Hk. lia.
Qed.

Lemma sessionLanguages_fold l repos : ∀ acc,
  Forall (λ a, NoDup (dkeys (RepoActivity.languages a))) repos →
  NoDup (dkeys acc) →
  NoDup (dkeys (fold_left (λ acc repo,
                  addLanguages (RepoActivity.languages repo) acc)
                repos acc)) ∧
  langTime l (fold_left (λ acc repo,
                addLanguages (RepoActivity.languages repo) acc)
              repos acc)
  = langTime l acc + languageTimeOf l repos.
Proof.
  unfold languageTimeOf.
  induction repos as [|a repos IH]; intros acc Hr Hacc.
  - cbn [fold_left]. split; [exact Hacc|]. rewrite sumOf_nil. lia.
  - apply Forall_cons in Hr as [Ha Hr]. cbn [fold_left].
    destruct (IH (addLanguages (RepoActivity.languages a) acc) Hr
                 (NoDup_dkeys_addLanguages _ _ Hacc)) as [H1 H2].
    split; [exact H1|]. rewrite H2.
    rewrite langTime_addLanguages by exact Ha.
    rewrite sumOf_cons. lia.
Qed.

Lemma languagesOf_fold l ss : ∀ acc,
  Forall (λ a, NoDup (dkeys (RepoActivity.languages a))) (activitiesOf ss) →
  NoDup (dkeys acc) →
  NoDup (dkeys (languagesOf ss acc)) ∧
  langTime l (languagesOf ss acc)
  = langTime l acc + languageTimeOf l (activitiesOf ss).
Proof.
  unfold languagesOf, activitiesOf.
  induction ss as [|s ss IH]; intros acc Hs Hacc.
  - cbn [fold_left map concat]. split; [exact Hacc|].
    unfold languageTimeOf. rewrite sumOf_nil. lia.
  - cbn [map concat] in Hs. apply Forall_app in Hs as [Hs1 Hs2].
    cbn [fold_left].
    destruct (sessionLanguages_fold l (TrackingSession.repositories s) []
                Hs1 (NoDup_nil_2)) as [Hn He].
    fold (sessionLanguages s) in Hn, He.
    destruct (IH (addLanguages (sessionLanguages s) acc) Hs2
                 (NoDup_dkeys_addLanguages _ _ Hacc)) as [H1 H2].
    split; [exact H1|]. rewrite H2.
    rewrite langTime_addLanguages by exact Hn. rewrite He, langTime_nil.
    cbn [map concat]. unfold languageTimeOf. rewrite sumOf_app. lia.
Qed.

Lemma elem_of_dkeys_addLang x k t m :
  x ∈ dkeys (addLang k t m) ↔ x ∈ dkeys m ∨ x = k.
Proof.
  unfold addLang. rewrite dkeys_dupd. case_bool_decide as H.
  - split; [auto|]. intros [?| ->]; assumption.
  - rewrite elem_of_app, list_elem_of_singleton. reflexivity.
Qed.

Lemma elem_of_dkeys_addLanguages x src : ∀ acc,
  x ∈ dkeys (addLanguages src acc) ↔ x ∈ dkeys acc ∨ x ∈ dkeys src.
Proof.
  unfold addLanguages.
  induction src as [|[k t] src IH]; intros acc; cbn [fold_left fst snd].
  - split; [auto|]. intros [H|H]; [exact H|]. now apply elem_of_nil in H.
  - rewrite IH, elem_of_dkeys_addLang.
    change (dkeys ((k, t) :: src)) with (k :: dkeys src).
    rewrite elem_of_cons. tauto.
Qed.

Lemma elem_of_dkeys_languages_fold x repos : ∀ acc,
  x ∈ dkeys (fold_left (λ acc repo,
               addLanguages (RepoActivity.languages repo) acc) repos acc)
  ↔ x ∈ dkeys acc
    ∨ ∃ a, a ∈ repos ∧ x ∈ dkeys (RepoActivity.languages a).
Proof.
  induction repos as [|a repos IH]; intros acc; cbn [fold_left].
  - split; [auto|]. intros [H|(a & Ha & _)]; [exact H|].
    now apply elem_of_nil in Ha.
  - rewrite IH, elem_of_dkeys_addLanguages. split.
    + intros [[H|H]|(b & Hb & H)]; [now left| |].
      * right. exists a. split; [apply list_elem_of_here|exact H].
      * right. exists b. split; [now apply list_elem_of_further|exact H].
    + intros [H|(b & Hb & H)]; [now left; left|].
      apply elem_of_cons in Hb as [->|Hb]; [now left; right|].
      right. now exists b.
Qed.

Lemma elem_of_dkeys_languagesOf x ss : ∀ acc,
  x ∈ dkeys (languagesOf ss acc)
  ↔ x ∈ dkeys acc
    ∨ ∃ a, a ∈ activitiesOf ss ∧ x ∈ dkeys (RepoActivity.languages a).
Proof.
  unfold languagesOf, activitiesOf.
  induction ss as [|s ss IH]; intros acc; cbn [fold_left map concat].
  - split; [auto|]. intros [H|(a & Ha & _)]; [exact H|].
    now apply elem_of_nil in Ha.
  - rewrite IH, elem_of_dkeys_addLanguages. unfold sessionLanguages.
    rewrite elem_of_dkeys_languages_fold.
    change (dkeys []) with (@nil string). split.
    + intros [[H|[H|(a & Ha & H)]]|(a & Ha & H)].
      * now left.
      * now apply elem_of_nil in H.
      * right. exists a. split; [|exact H]. apply elem_of_app. now left.
      * right. exists a. split; [|exact H]. apply elem_of_app. now right.
    + intros [H|(a & Ha & H)]; [now left; left|].
      apply elem_of_app in Ha as [Ha|Ha].
      * left. right. right. now exists a.
      * right. now exists a.
Qed.

(** X9. When the [languages] objects of the contexts of the day's
    sessions have plain keys only, the day's time of a plain language
    key after [recalculateTotals] is the sum of the times of this
    language over the contexts; the day's map lists a language exactly
    when some context lists it, lists none twice, and has plain keys
    only. *)
Theorem recalculateTotals_languages d l :
  let acts := activitiesOf (DailyData.sessions d) in
  let languages := DailyData.languages (recalculateTotals d) in
  Forall plainLanguages acts →
  plainKey l = true →
  langTime l languages = languageTimeOf l acts ∧
  NoDup (dkeys languages) ∧
  (∀ k, k ∈ dkeys languages
        ↔ ∃ a, a ∈ acts ∧ k ∈ dkeys (RepoActivity.languages a)) ∧
  Forall (λ k, plainKey k = true) (dkeys languages).
Proof.
  intros acts languages H _. subst languages.
  rewrite recalculateTotals_eq. cbn [DailyData.languages].
  assert (Hn : Forall (λ a, NoDup (dkeys (RepoActivity.languages a))) acts).
  { eapply Forall_impl; [exact H|]. now intros a [? _]. }
  destruct (languagesOf_fold l (DailyData.sessions d) [] Hn NoDup_nil_2)
    as [H1 H2].
  assert (Hk : ∀ k, k ∈ dkeys (languagesOf (DailyData.sessions d) [])
                    ↔ ∃ a, a ∈ acts ∧ k ∈ dkeys (RepoActivity.languages a)).
  { intros k. rewrite elem_of_dkeys_languagesOf. fold acts.
    split; [|auto]. intros [E|E]; [|exact E]. now apply elem_of_nil in E. }
  split; [|split; [exact H1|split; [exact Hk|]]].
  - rewrite H2, langTime_nil. fold acts. lia.
  - apply Forall_forall. intros k Hin. apply Hk in Hin as (a & Ha & Hin).
    rewrite Forall_forall in H. destruct (H a Ha) as [_ Hp].
    rewrite Forall_forall in Hp. now apply Hp.
Qed.

Lemma recalculateTotals_languages_witness :
  langTime "typescript"
           (DailyData.languages (recalculateTotals twoSessionsRecord))
  = 73000 + 78000.
Proof.
  refine (eq_trans
            (proj1 (recalculateTotals_languages twoSessionsRecord
                      "typescript" _ eq_refl))
            _).
  - vm_compute. constructor; [|constructor; [|constructor]];
      (split; [apply NoDup_singleton|]);
      (constructor; [reflexivity|constructor]).
  - vm_compute. reflexivity.
Defined.

(** ** One session for each id *)

Lemma sessionIds_putSession s l :
  map TrackingSession.sessionId (putSession s l)
  = pushNew (TrackingSession.sessionId s) (map TrackingSession.sessionId l).
Proof.
  induction l as [|x l IH].
  - reflexivity.
  - rewrite putSession_cons. cbn [map].
    destruct (String.eqb_spec (TrackingSession.sessionId x)
                (TrackingSession.sessionId s)) as [E|N].
    + cbn [map]. unfold pushNew. rewrite E.
      rewrite bool_decide_eq_true_2 by apply list_elem_of_here. reflexivity.
    + cbn [map]. rewrite IH. unfold pushNew.
      case_bool_decide as H1; case_bool_decide as H2; try reflexivity.
      * exfalso. apply H2. now apply list_elem_of_further.
      * exfalso. apply elem_of_cons in H2 as [E|E]; [congruence|auto].
Qed.

Lemma elem_of_putSession_other s l x :
  TrackingSession.sessionId x ≠ TrackingSession.sessionId s →
  x ∈ putSession s l ↔ x ∈ l.
Proof.
  intros Hx. induction l as [|y l IH].
  - unfold putSession. cbn. rewrite list_elem_of_singleton.
    split; [intros ->; congruence|intros H; now apply elem_of_nil in H].
  - rewrite putSession_cons.
    destruct (String.eqb_spec (TrackingSession.sessionId y)
                (TrackingSession.sessionId s)) as [E|N].
    + rewrite !elem_of_cons. split; intros [->|H]; auto; congruence.
    + rewrite !elem_of_cons, IH. reflexivity.
Qed.

Lemma elem_of_putSession_same s l x :
  NoDup (map TrackingSession.sessionId l) →
  x ∈ putSession s l →
  TrackingSession.sessionId x = TrackingSession.sessionId s → x = s.
Proof.
  induction l as [|y l IH]; intros Hnd Hin Hid.
  - unfold putSession in Hin. cbn in Hin.
    now apply list_elem_of_singleton in Hin.
  - rewrite putSession_cons in Hin. cbn [map] in Hnd.
    apply NoDup_cons in Hnd as [Hy Hnd].
    destruct (String.eqb_spec (TrackingSession.sessionId y)
                (TrackingSession.sessionId s)) as [E|N].
    + apply elem_of_cons in Hin as [->|Hin]; [reflexivity|].
      exfalso. apply Hy. rewrite E, <- Hid.
      apply list_elem_of_fmap. now exists x.
    + apply elem_of_cons in Hin as [->|Hin]; [congruence|]. now apply IH.
Qed.

(** X10. [updateSession] keeps one session for each id: on a record
    whose session ids are distinct the ids stay distinct, the id of the
    session is added at the end when it is new, the sessions of the other
    ids are kept as they are, and the session stored under the id is the
    one passed. *)
Theorem updateSession_one_session_per_id s d :
  let ids l := map TrackingSession.sessionId l in
  let ss := DailyData.sessions d in
  let ss' := DailyData.sessions (updateSessionOn s d) in
  NoDup (ids ss) →
  NoDup (ids ss') ∧
  ids ss' = pushNew (TrackingSession.sessionId s) (ids ss) ∧
  (∀ x, TrackingSession.sessionId x ≠ TrackingSession.sessionId s →
        x ∈ ss' ↔ x ∈ ss) ∧
  (∀ x, x ∈ ss' →
        TrackingSession.sessionId x = TrackingSession.sessionId s → x = s).
Proof.
  intros ids ss ss' Hnd. subst ss'. rewrite updateSessionOn_eq.
  cbn [DailyData.sessions]. fold ss. subst ids. cbn beta in *.
  rewrite sessionIds_putSession.
  split; [now apply pushNew_NoDup|]. split; [reflexivity|]. split.
  - intros x Hx. now apply elem_of_putSession_other.
  - intros x Hin Hid. now apply (elem_of_putSession_same s ss).
Qed.

Lemma updateSession_one_session_per_id_witness :
  NoDup (map TrackingSession.sessionId
             (DailyData.sessions
                (updateSessionOn (closedAt 70000 (tracker busyWorld))
                                 busyRecord))).
Proof.
  refine (proj1 (updateSession_one_session_per_id
                   (closedAt 70000 (tracker busyWorld)) busyRecord _)).
  vm_compute. apply NoDup_singleton.
Defined.

(** ** Upsert and recomputation *)

Lemma putSession_lookup_other s l : ∀ i x,
  l !! i = Some x →
  TrackingSession.sessionId x ≠ TrackingSession.sessionId s →
  putSession s l !! i = Some x.
Proof.
  induction l as [|y l IH]; intros i x Hi Hx.
  - discriminate Hi.
  - rewrite putSession_cons.
    destruct (String.eqb_spec (TrackingSession.sessionId y)
                (TrackingSession.sessionId s)) as [E|N].
    + destruct i as [|i]; [|exact Hi].
      injection Hi as ->. congruence.
    + destruct i as [|i]; [exact Hi|]. now apply IH.
Qed.

Lemma repoMapOf_paths ss p :
  p ∈ map RepoSummary.repoPath (dvalues (repoMapOf ss []))
  ↔ p ∈ map RepoActivity.repoPath (activitiesOf ss).
Proof.
  rewrite repoMapOf_activitiesOf.
  set (acts := activitiesOf ss). set (m := fold_left aggregateRepo acts []).
  assert (Hs : summarises acts m).
  { apply (summarises_fold acts [] []). split; [constructor|].
    intros k a Ha. now apply elem_of_nil in Ha. }
  assert (Hk : map RepoSummary.repoPath (dvalues m) = dkeys m).
  { apply keyed_paths, keyed_fold. constructor. }
  destruct Hs as [_ Hs]. rewrite Hk. specialize (Hs p). split.
  - intros Hp. destruct (dget p m) as [v|] eqn:E.
    + destruct Hs as (_ & _ & _ & _ & a & Ha & Hp').
      apply list_elem_of_fmap. now exists a.
    + apply dget_None_keys in E. contradiction.
  - intros Hp. apply list_elem_of_fmap in Hp as (a & -> & Ha).
    destruct (dget (RepoActivity.repoPath a) m) as [v|] eqn:E.
    + destruct (decide (RepoActivity.repoPath a ∈ dkeys m)) as [|Hn];
        [assumption|].
      apply dget_None_keys in Hn. congruence.
    + exfalso. now apply (Hs a).
Qed.

Lemma repoMapOf_totalTime ss :
  sumOf RepoSummary.totalTime (dvalues (repoMapOf ss []))
  = sumOf RepoActivity.timeSpent (activitiesOf ss).
Proof.
  rewrite repoMapOf_activitiesOf, sumOf_totalTime_fold.
  change (dvalues []) with (@nil RepoSummary.t). rewrite sumOf_nil. lia.
Qed.

(** C4. Upserting the same session a second time gives back the record
    of the first time: on the record itself, and on the storage object
    when both calls fall on one day. The session takes the place of the
    first session with its id, or goes last when there is none: the ids
    and the sessions of the other ids stay where they are. Every
    aggregate is computed from the session list alone, whatever the
    record held: the three totals are the sums of the sessions'
    counters, there is a summary for exactly the repository paths of the
    sessions' contexts, the summaries' times add up to the contexts'
    times, and the time of a language is the sum of its times over the
    contexts (language times being read for plain keys). *)
Theorem updateSession_idempotent :
  (∀ s d, updateSessionOn s (updateSessionOn s d) = updateSessionOn s d) ∧
  (∀ s d,
     let ids := map TrackingSession.sessionId in
     let ss := DailyData.sessions d in
     let ss' := DailyData.sessions (updateSessionOn s d) in
     s ∈ ss' ∧
     ids ss' = pushNew (TrackingSession.sessionId s) (ids ss) ∧
     (∀ i x, ss !! i = Some x →
             TrackingSession.sessionId x ≠ TrackingSession.sessionId s →
             ss' !! i = Some x) ∧
     (∀ x, TrackingSession.sessionId x ≠ TrackingSession.sessionId s →
           x ∈ ss' ↔ x ∈ ss) ∧
     (NoDup (ids ss) →
      ∀ x, x ∈ ss' →
           TrackingSession.sessionId x = TrackingSession.sessionId s →
           x = s)) ∧
  (∀ s d,
     let d' := updateSessionOn s d in
     let ss' := DailyData.sessions d' in
     let acts := activitiesOf ss' in
     DailyData.date d' = DailyData.date d ∧
     DailyData.totalTime d' = sumOf TrackingSession.totalDuration ss' ∧
     DailyData.activeTime d' = sumOf TrackingSession.activeTime ss' ∧
     DailyData.idleTime d' = sumOf TrackingSession.idleTime ss' ∧
     (∀ p, p ∈ map RepoSummary.repoPath (DailyData.repositories d')
           ↔ p ∈ map RepoActivity.repoPath acts) ∧
     sumOf RepoSummary.totalTime (DailyData.repositories d')
     = sumOf RepoActivity.timeSpent acts ∧
     (Forall plainLanguages acts →
      ∀ l, plainKey l = true →
           langTime l (DailyData.languages d') = languageTimeOf l acts)) ∧
  (∀ s d total active idle repos langs,
     updateSessionOn s
       (DailyData.mk (DailyData.date d) total active idle
                     (DailyData.sessions d) repos langs
                     (DailyData.emailSent d) (DailyData.emailSentAt d))
     = updateSessionOn s d) ∧
  (∀ clock clock' s w,
     let w1 := exec (updateSession clock s) w in
     isoDate (clock' (queries w1)) = isoDate (clock (queries w)) →
     storage (exec (updateSession clock' s) w1) = storage w1).
Proof.
  split; [|split; [|split; [|split]]].
  - apply updateSessionOn_idem.
  - intros s d ids ss ss'. subst ids ss ss'.
    rewrite updateSessionOn_eq. cbn [DailyData.sessions].
    split; [apply putSession_elem|].
    split; [apply sessionIds_putSession|].
    split; [apply putSession_lookup_other|].
    split; [intros x Hx; now apply elem_of_putSession_other|].
    intros Hnd x. now apply elem_of_putSession_same.
  - intros s d d' ss' acts. subst acts ss' d'.
    rewrite updateSessionOn_eq.
    cbn [DailyData.date DailyData.totalTime DailyData.activeTime
         DailyData.idleTime DailyData.sessions DailyData.repositories
         DailyData.languages].
    repeat (split; [reflexivity|]).
    split; [apply repoMapOf_paths|]. split; [apply repoMapOf_totalTime|].
    intros H l _.
    assert (Hn : Forall (λ a, NoDup (dkeys (RepoActivity.languages a)))
                   (activitiesOf (putSession s (DailyData.sessions d)))).
    { eapply Forall_impl; [exact H|]. now intros a [? _]. }
    destruct (languagesOf_fold l _ [] Hn NoDup_nil_2) as [_ H2].
    rewrite H2, langTime_nil. lia.
  - intros. now rewrite !updateSessionOn_eq.
  - apply updateSession_twice.
Qed.

Lemma updateSession_idempotent_witness :
  let s := currentSession (tracker twoSessions) in
  let w1 := exec (updateSession (always 121000) s) twoSessions in
  let d' := updateSessionOn s twoSessionsRecord in
  storage (exec (updateSession (always 122000) s) w1) = storage w1 ∧
  map TrackingSession.sessionId (DailyData.sessions d')
  = ["session_1000_k3x9q1z7a"; "session_80000_k3x9q1z7a"] ∧
  DailyData.sessions d' !! 0%nat = DailyData.sessions twoSessionsRecord !! 0%nat ∧
  DailyData.totalTime d' = 69000 + 40000 ∧
  langTime "typescript" (DailyData.languages d') = 73000 + 78000.
Proof.
  destruct updateSession_idempotent as (_ & Hput & Htot & _ & Hsto).
  set (s := currentSession (tracker twoSessions)).
  destruct (Hput s twoSessionsRecord) as (_ & Hids & Hkeep & _).
  destruct (Htot s twoSessionsRecord) as (_ & Ht & _ & _ & _ & _ & Hl).
  split; [|split; [|split; [|split]]].
  - apply Hsto. reflexivity.
  - rewrite Hids. vm_compute. reflexivity.
  - erewrite Hkeep; [vm_compute; reflexivity|vm_compute; reflexivity|].
    vm_compute. discriminate.
  - rewrite Ht. vm_compute. reflexivity.
  - rewrite Hl; [vm_compute; reflexivity| |reflexivity].
    vm_compute. constructor; [|constructor; [|constructor]];
      (split; [apply NoDup_singleton|]);
      (constructor; [reflexivity|constructor]).
Defined.

(** ** History of the last days *)

Section History.
Variable clock : nat → Z.
Variable localTZA : Z → bool → Z.

Lemma historicalLoop_run today n : ∀ i result w,
  historicalLoop localTZA today i n result w =
  (result ++ filter (λ d, 0 < DailyData.totalTime d)
                    (historyOf localTZA today (storage w) i n), w).
Proof.
  unfold historyOf.
  induction n as [|n IH]; intros i result w.
  - cbn. now rewrite app_nil_r.
  - cbn [historicalLoop seq map]. rewrite run_bind, loadDailyData_run.
    cbn [fst snd]. rewrite IH. f_equal.
    rewrite filter_cons.
    destruct (Z.ltb_spec 0 (DailyData.totalTime
               (loadedRecord (isoDate (setDateBack localTZA (Z.of_nat i) today))
                             (storage w)))) as [Hp|Hn].
    + rewrite decide_True by exact Hp. now rewrite <- app_assoc.
    + rewrite decide_False by lia. reflexivity.
Qed.

Lemma getHistoricalData_run days w :
  getHistoricalData clock localTZA days w =
  (filter (λ d, 0 < DailyData.totalTime d)
          (historyOf localTZA (clock (queries w)) (storage w) 0 days),
   mkWorld (tracker w) (storage w) (S (queries w))).
Proof.
  unfold getHistoricalData. rewrite run_bind. cbn [fst snd newDate].
  rewrite historicalLoop_run. reflexivity.
Qed.
End History.

Lemma setDateBack_fixed_offset localTZA c n t :
  (∀ t b, localTZA t b = c) →
  setDateBack localTZA n t = t - n * msPerDay.
Proof.
  intros H. unfold setDateBack, utcTime, localTime. rewrite !H. lia.
Qed.

(** X11. [getHistoricalData(days)] changes nothing and returns at most
    [days] records: the records with a positive total among those loaded
    for the dates of now, now less one day, and so on.  It reads the
    files only, never the record held in memory or a pending write.
    Where local time is UTC plus a fixed offset, the dates are those of
    [now - i] days for [i] below [days]. *)
Theorem getHistoricalData_reads_files clock localTZA days w :
  let now := clock (queries w) in
  let result := fst (getHistoricalData clock localTZA days w) in
  let w' := snd (getHistoricalData clock localTZA days w) in
  storage w' = storage w ∧ tracker w' = tracker w ∧
  (length result ≤ days)%nat ∧
  (∀ d, d ∈ result ↔
        0 < DailyData.totalTime d ∧
        ∃ i, (i < days)%nat ∧
             d = loadedRecord
                   (isoDate (setDateBack localTZA (Z.of_nat i) now))
                   (storage w)) ∧
  (∀ cur timer,
     fst (getHistoricalData clock localTZA days
            (mkWorld (tracker w) (mkStorage (files (storage w)) cur timer)
                     (queries w)))
     = result) ∧
  (∀ c, (∀ t b, localTZA t b = c) →
        result = filter (λ d, 0 < DailyData.totalTime d)
                   (map (λ i, loadedRecord
                                (isoDate (now - Z.of_nat i * msPerDay))
                                (storage w))
                        (seq 0 days))).
Proof.
  intros now result w'. subst result w'.
  rewrite !getHistoricalData_run. cbn [fst snd storage tracker].
  split; [reflexivity|]. split; [reflexivity|]. split; [|split; [|split]].
  - etransitivity; [apply length_filter|].
    unfold historyOf. now rewrite length_map, length_seq.
  - intros d. rewrite list_elem_of_filter. unfold historyOf.
    rewrite list_elem_of_fmap. split.
    + intros [Hp (i & -> & Hi)]. split; [exact Hp|].
      apply elem_of_seq in Hi. exists i. split; [lia|reflexivity].
    + intros [Hp (i & Hi & ->)]. split; [exact Hp|].
      exists i. split; [reflexivity|]. apply elem_of_seq. lia.
  - intros cur timer. rewrite getHistoricalData_run. cbn [fst].
    reflexivity.
  - intros c Hc. unfold historyOf. f_equal.
    apply map_ext. intros i. now rewrite (setDateBack_fixed_offset _ c).
Qed.

(** ** Frames *)

Section KeepsCalculus.
Context {X : Type} (obs : World → X).

Lemma keeps_ret {A} (a : A) : keeps obs (ret a).
Proof. intros w. reflexivity. Qed.

Lemma keeps_bind {A B} (m : M A) (k : A → M B) :
  keeps obs m → (∀ a, keeps obs (k a)) → keeps obs (bind m k).
Proof. intros Hm Hk w. rewrite run_bind. now rewrite Hk, Hm. Qed.

Lemma keeps_when b m : keeps obs m → keeps obs (when b m).
Proof. destruct b; [auto|intros _; apply keeps_ret]. Qed.

Lemma keeps_getState : keeps obs getState.
Proof. intros w. now destruct w. Qed.

Lemma keeps_getTracker : keeps obs getTracker.
Proof. intros w. now destruct w. Qed.

Lemma keeps_getStorage : keeps obs getStorage.
Proof. intros w. now destruct w. Qed.
End KeepsCalculus.

Lemma keeps_ofTracker_modStorage {X} (f : TrackerFields → X) g :
  keeps (ofTracker f) (modStorage g).
Proof. intros w. reflexivity. Qed.

Lemma keeps_ofTracker_newDate {X} (f : TrackerFields → X) clock :
  keeps (ofTracker f) (newDate clock).
Proof. intros w. reflexivity. Qed.

Lemma keeps_ofTracker_newRandom {X} (f : TrackerFields → X) random :
  keeps (ofTracker f) (newRandom random).
Proof. intros w. reflexivity. Qed.

Lemma keeps_ofTracker_modTracker {X} (f : TrackerFields → X) g :
  (∀ t, f (g t) = f t) → keeps (ofTracker f) (modTracker g).
Proof. intros H w. apply H. Qed.

Lemma keeps_storage_modTracker g : keeps storage (modTracker g).
Proof. intros w. reflexivity. Qed.

Lemma keeps_storage_newDate clock : keeps storage (newDate clock).
Proof. intros w. reflexivity. Qed.

Lemma keeps_storage_newRandom random : keeps storage (newRandom random).
Proof. intros w. reflexivity. Qed.

Create HintDb keeps.
#[global] Hint Resolve keeps_ret keeps_getState keeps_getTracker
  keeps_getStorage keeps_ofTracker_modStorage keeps_ofTracker_newDate
  keeps_ofTracker_newRandom keeps_storage_modTracker keeps_storage_newDate
  keeps_storage_newRandom : keeps.

(** Splits a computation into its steps and closes those that keep the
    observation by what is known. *)
Ltac keeps_steps :=
  repeat first
    [ progress intros
    | apply keeps_bind
    | apply keeps_when
    | solve [auto with keeps]
    | apply keeps_ofTracker_modTracker; intros; reflexivity
    | match goal with
      | |- keeps _ (match ?x with _ => _ end) => destruct x
      | |- keeps _ (if ?x then _ else _) => destruct x
      end ].

Lemma keeps_wiring_modState f :
  (∀ st, TrackingState.isTracking (f st) = TrackingState.isTracking st) →
  keeps (ofTracker wiring) (modState f).
Proof. intros H w. unfold ofTracker, wiring. cbn. now rewrite H. Qed.

Section Wiring.
Variable clock : nat → Z.
Variable random : nat → string.

Ltac keeps_wiring :=
  repeat first
    [ progress keeps_steps
    | apply keeps_wiring_modState; intros; reflexivity ].

Lemma keepsWiring_addTimeToRepo repo t :
  keeps (ofTracker wiring) (addTimeToRepo repo t).
Proof. intros w. reflexivity. Qed.

Lemma keepsWiring_finalizeRepoTime repo :
  keeps (ofTracker wiring) (finalizeRepoTime clock repo).
Proof. intros w. reflexivity. Qed.

Lemma keepsWiring_enterIdleState : keeps (ofTracker wiring) enterIdleState.
Proof. unfold enterIdleState. keeps_wiring. Qed.

Lemma keepsWiring_exitIdleState :
  keeps (ofTracker wiring) (exitIdleState clock).
Proof. unfold exitIdleState. keeps_wiring. Qed.

#[local] Hint Resolve keepsWiring_addTimeToRepo keepsWiring_finalizeRepoTime
  keepsWiring_enterIdleState keepsWiring_exitIdleState : keeps.

Lemma keepsWiring_recordActivity :
  keeps (ofTracker wiring) (recordActivity clock).
Proof. unfold recordActivity. keeps_wiring. Qed.

Lemma keepsWiring_recordFileEdit fsPath :
  keeps (ofTracker wiring) (recordFileEdit fsPath).
Proof. unfold recordFileEdit. keeps_wiring. Qed.

Lemma keepsWiring_updateCurrentRepo ide fp :
  keeps (ofTracker wiring) (updateCurrentRepo clock ide fp).
Proof. unfold updateCurrentRepo. keeps_wiring. Qed.

#[local] Hint Resolve keepsWiring_recordActivity keepsWiring_recordFileEdit
  keepsWiring_updateCurrentRepo : keeps.

Lemma keepsWiring_handleWindowStateChange focused :
  keeps (ofTracker wiring) (handleWindowStateChange clock focused).
Proof. unfold handleWindowStateChange. keeps_wiring. Qed.

Lemma keepsWiring_handleEditorChange ide editor :
  keeps (ofTracker wiring) (handleEditorChange clock ide editor).
Proof.
  unfold handleEditorChange. keeps_wiring.
  apply keeps_wiring_modState. intros st.
  destruct (TrackingState.currentRepo st); reflexivity.
Qed.

Lemma keepsWiring_updateTimeCounters :
  keeps (ofTracker wiring) (updateTimeCounters clock).
Proof. unfold updateTimeCounters. keeps_wiring. Qed.

Lemma keepsWiring_getTodayData : keeps (ofTracker wiring) (getTodayData clock).
Proof. intros w. unfold ofTracker. now rewrite tracker_getTodayData. Qed.

Lemma keepsWiring_saveCurrentSession :
  keeps (ofTracker wiring) (saveCurrentSession clock).
Proof. intros w. rewrite saveCurrentSession_run. reflexivity. Qed.

Lemma keepsWiring_forceSave : keeps (ofTracker wiring) forceSave.
Proof. unfold forceSave, saveDailyData. keeps_wiring. Qed.

#[local] Hint Resolve keepsWiring_updateTimeCounters keepsWiring_getTodayData
  keepsWiring_saveCurrentSession keepsWiring_forceSave : keeps.

Lemma wired_transfer t t' : wiring t' = wiring t → wired t → wired t'.
Proof.
  unfold wiring, wired. intros [= -> -> ->]. auto.
Qed.

Lemma keepsWiring_wired {A} (m : M A) w :
  keeps (ofTracker wiring) m →
  wired (tracker w) → wired (tracker (snd (m w))).
Proof. intros Hm. apply wired_transfer, Hm. Qed.

(** [handleDayChange] on a tracking tracker: the state is made anew with
    [isTracking] set again, the listeners and the timer stay. *)
Lemma wired_handleDayChange ide w :
  TrackingState.isTracking (state (tracker w)) = true →
  wired (tracker w) → wired (tracker (snd (handleDayChange clock random ide w))).
Proof.
  intros Ht H. unfold handleDayChange. rewrite ?run_bind.
  rewrite saveCurrentSession_run. cbn.
  unfold forceSave, initializeState, createNewSession, generateSessionId.
  rewrite ?run_bind. cbn. unfold saveDailyData, modStorage. cbn.
  unfold wired in H. rewrite Ht in H. exact H.
Qed.

Lemma wired_heartbeat ide w :
  wired (tracker w) → wired (tracker (snd (heartbeat clock random ide w))).
Proof.
  intros H. unfold heartbeat. rewrite ?run_bind. cbn [fst snd getState].
  destruct (TrackingState.isTracking (state (tracker w))) eqn:Ht;
    cbn [negb]; [|exact H].
  rewrite ?run_bind. cbn [fst snd newDate getTracker getTodayDateString].
  rewrite ?run_bind. cbn [fst snd newDate ret tracker].
  destruct (negb (String.eqb _ _)).
  - now apply wired_handleDayChange.
  - apply keepsWiring_wired; [|exact H]. unfold onTimeUpdate. keeps_wiring.
Qed.

Lemma wired_start ide w :
  wired (tracker w) → wired (tracker (snd (start clock random ide w))).
Proof.
  intros H. unfold start. rewrite ?run_bind. cbn [fst snd getState].
  destruct (TrackingState.isTracking (state (tracker w))) eqn:Ht; [exact H|].
  unfold wired in H. rewrite Ht in H. destruct H as [Hd Hh].
  rewrite ?run_bind.
  match goal with
  | |- wired (tracker (snd (updateCurrentRepo clock ide None ?w0))) =>
      apply (keepsWiring_wired _ w0); [auto with keeps|]
  end.
  unfold createNewSession, generateSessionId, setupEventListeners,
    startHeartbeat.
  rewrite ?run_bind. cbn. unfold wired. cbn. rewrite Hd. split; [reflexivity|].
  eexists. reflexivity.
Qed.

Lemma wired_stop w :
  wired (tracker w) → wired (tracker (snd (stop clock w))).
Proof.
  intros H. unfold stop. rewrite ?run_bind. cbn [fst snd getState].
  destruct (TrackingState.isTracking (state (tracker w))) eqn:Ht;
    cbn [negb]; [|exact H].
  rewrite ?run_bind. unfold wired. cbn. split; reflexivity.
Qed.
End Wiring.

Lemma wired_handle clock random parseDate localTZA e w :
  wired (tracker w) →
  wired (tracker (snd (handle clock random parseDate localTZA e w))).
Proof.
  intros H. destruct e; cbn [handle].
  - now apply wired_start.
  - now apply wired_stop.
  - now apply wired_heartbeat.
  - apply keepsWiring_wired; [apply keepsWiring_recordActivity|exact H].
  - apply keepsWiring_wired; [|exact H].
    apply keeps_bind; intros;
      [apply keepsWiring_recordActivity|apply keepsWiring_recordFileEdit].
  - apply keepsWiring_wired;
      [apply keepsWiring_handleWindowStateChange|exact H].
  - apply keepsWiring_wired; [apply keepsWiring_handleEditorChange|exact H].
  - apply keepsWiring_wired; [apply keepsWiring_updateCurrentRepo|exact H].
  - apply keepsWiring_wired; [|exact H].
    apply keeps_ofTracker_modTracker. reflexivity.
  - apply keepsWiring_wired; [|exact H].
    unfold saveDebounceTimer_fires, saveDailyData. keeps_steps.
  - apply keepsWiring_wired; [|exact H].
    apply keeps_bind; intros;
      [apply keepsWiring_getTodayData|apply keeps_ret].
  - apply keepsWiring_wired; [|exact H]. intros w0.
    rewrite markEmailSent_run. reflexivity.
  - apply keepsWiring_wired; [apply keepsWiring_forceSave|exact H].
  - apply keepsWiring_wired; [|exact H].
    unfold writeEmptyToday, getTodayDateString, saveDailyData. keeps_steps.
  - apply keepsWiring_wired; [|exact H].
    unfold cleanupOldData. keeps_steps.
Qed.

(** X15. After any run of events from the construction of the
    services, the six listeners are registered and the heartbeat timer
    runs exactly while [isTracking] is set; otherwise there is no
    listener and no timer. *)
Theorem listeners_follow_tracking w : reachable w → wired (tracker w).
Proof.
  induction 1 as [clock random ide t0 dir _|clock random pd tz e w _ IH].
  - unfold exec, newTrackerService, initializeState, createNewSession,
      generateSessionId.
    rewrite ?run_bind. cbn. split; reflexivity.
  - now apply wired_handle.
Qed.

Lemma listeners_follow_tracking_witness :
  wired (tracker nextMorning).
Proof. apply listeners_follow_tracking. exact nextMorning_reachable. Defined.

(** ** Activity *)

Section Activity.
Variable clock : nat → Z.

Lemma recordActivity_run w :
  exec (recordActivity clock) w =
  let q := queries w in
  let st := state (tracker w) in
  let now := clock q in
  let st1 := activeAgain (clock (S q)) st in
  let q1 := if TrackingState.isIdle st
            then match TrackingState.idleStartTime st with
                 | Some _ => S (S q)
                 | None => S q
                 end
            else S q in
  let w1 := mkWorld (set_state st1 (tracker w)) (storage w) q1 in
  let w2 := match TrackingState.currentRepo st with
            | Some repo =>
                exec (addTimeToRepo repo
                        (now - TrackingState.lastActivityTime st)) w1
            | None => w1
            end in
  mkWorld (set_state (with_lastActivityTime now (state (tracker w2)))
                     (tracker w2))
          (storage w2) (queries w2).
Proof.
  destruct w as [[st hb ds rm cs cf] sto q].
  unfold recordActivity, exec, activeAgain. rewrite ?run_bind. cbn.
  destruct st as [tr ss la cr wf idle sa si ist]. cbn.
  destruct idle; cbn.
  - unfold exitIdleState. rewrite ?run_bind. cbn.
    destruct ist as [t0|]; rewrite ?run_bind; cbn;
      destruct cr as [repo|]; reflexivity.
  - destruct cr as [repo|]; reflexivity.
Qed.
End Activity.

Lemma state_recordActivity clock w :
  state (tracker (exec (recordActivity clock) w))
  = with_lastActivityTime (clock (queries w))
      (activeAgain (clock (S (queries w))) (state (tracker w))).
Proof.
  rewrite recordActivity_run. cbn zeta.
  destruct (TrackingState.currentRepo (state (tracker w))); reflexivity.
Qed.

Lemma isIdle_activeAgain now st :
  TrackingState.isIdle (activeAgain now st) = false.
Proof.
  unfold activeAgain. destruct (TrackingState.isIdle st) eqn:E; [|exact E].
  reflexivity.
Qed.

Lemma currentRepo_activeAgain now st :
  TrackingState.currentRepo (activeAgain now st)
  = TrackingState.currentRepo st.
Proof.
  unfold activeAgain. destruct (TrackingState.isIdle st); [|reflexivity].
  destruct (TrackingState.idleStartTime st); reflexivity.
Qed.

Lemma recordActivity_frame clock w :
  let w' := exec (recordActivity clock) w in
  storage w' = storage w ∧
  currentSession (tracker w') = currentSession (tracker w) ∧
  (TrackingState.currentRepo (state (tracker w)) = None →
   repoActivityMap (tracker w') = repoActivityMap (tracker w)).
Proof.
  intros w'. subst w'. rewrite recordActivity_run. cbn zeta.
  destruct (TrackingState.currentRepo (state (tracker w))) as [repo|];
    repeat split; try reflexivity; discriminate.
Qed.

(** X16. An activity event always leaves the tracker active, with
    [lastActivityTime] at the time of the event; it keeps the current
    context, the files of the storage directory, and the counters of the
    live session and of the records that the storage holds; with no
    current context it bills nothing and changes neither the context
    map, nor the session, nor the storage; and it changes the idle
    counters only when it ends an idle period. *)
Theorem recordActivity_leaves_active clock w :
  let w' := exec (recordActivity clock) w in
  let st := state (tracker w) in
  let st' := state (tracker w') in
  TrackingState.isIdle st' = false ∧
  TrackingState.lastActivityTime st' = clock (queries w) ∧
  TrackingState.currentRepo st' = TrackingState.currentRepo st ∧
  files (storage w') = files (storage w) ∧
  (recordCounters <$> currentDayData (storage w'))
  = (recordCounters <$> currentDayData (storage w)) ∧
  (recordCounters <$> saveDebounceTimer (storage w'))
  = (recordCounters <$> saveDebounceTimer (storage w)) ∧
  sessionCounters (currentSession (tracker w'))
  = sessionCounters (currentSession (tracker w)) ∧
  (TrackingState.currentRepo st = None →
   repoActivityMap (tracker w') = repoActivityMap (tracker w) ∧
   currentSession (tracker w') = currentSession (tracker w) ∧
   storage w' = storage w) ∧
  (TrackingState.isIdle st = false →
   TrackingState.sessionIdleTime st' = TrackingState.sessionIdleTime st ∧
   TrackingState.idleStartTime st' = TrackingState.idleStartTime st) ∧
  (TrackingState.isIdle st = true →
   TrackingState.idleStartTime st' = None).
Proof.
  intros w' st st'. subst w' st'.
  destruct (recordActivity_frame clock w) as (H1 & H2 & H3).
  rewrite state_recordActivity. fold st.
  split; [apply isIdle_activeAgain|]. split; [reflexivity|].
  split; [apply currentRepo_activeAgain|].
  rewrite H1, H2.
  repeat (split; [reflexivity|]).
  split; [intros Hn; split; [now apply H3|split; reflexivity]|].
  unfold activeAgain. split; intros ->; [split|]; reflexivity.
Qed.

Lemma filesOf_addTimeToRepo key repo t w :
  filesOf key (tracker (exec (addTimeToRepo repo t) w)) = filesOf key (tracker w).
Proof.
  unfold filesOf, addTimeToRepo, exec. cbn.
  destruct (String.eqb_spec
              (CurrentRepoInfo.path repo +:+ ":" +:+ CurrentRepoInfo.branch repo)
              key) as [<-|Hne].
  - rewrite dget_dupd_eq. cbn. now destruct (dget _ _).
  - now rewrite dget_dupd_ne.
Qed.

Lemma dget_addTimeToRepo_is_Some repo t w :
  is_Some (dget (repoKey repo)
             (repoActivityMap (tracker (exec (addTimeToRepo repo t) w)))).
Proof.
  unfold addTimeToRepo, exec, repoKey. cbn. rewrite dget_dupd_eq. eauto.
Qed.

Lemma recordActivity_with_context clock w repo :
  TrackingState.currentRepo (state (tracker w)) = Some repo →
  let w1 := exec (recordActivity clock) w in
  TrackingState.currentRepo (state (tracker w1)) = Some repo ∧
  is_Some (dget (repoKey repo) (repoActivityMap (tracker w1))) ∧
  ∀ key, filesOf key (tracker w1) = filesOf key (tracker w).
Proof.
  intros Hr w1. subst w1. rewrite recordActivity_run. cbn zeta. rewrite Hr.
  match goal with
  | |- context [exec (addTimeToRepo repo ?t) ?w0] =>
      set (w2 := exec (addTimeToRepo repo t) w0);
      pose proof (dget_addTimeToRepo_is_Some repo t w0) as Hs;
      pose proof (λ key, filesOf_addTimeToRepo key repo t w0) as Hf
  end.
  fold w2 in Hs, Hf. cbn [tracker state]. split; [|split].
  - subst w2. unfold exec, activeAgain. cbn.
    destruct (TrackingState.isIdle _); [|exact Hr].
    destruct (TrackingState.idleStartTime _); exact Hr.
  - exact Hs.
  - intros key. unfold filesOf in *. cbn. rewrite Hf. reflexivity.
Qed.

Lemma recordFileEdit_with_context fsPath w repo :
  TrackingState.currentRepo (state (tracker w)) = Some repo →
  is_Some (dget (repoKey repo) (repoActivityMap (tracker w))) →
  let w' := exec (recordFileEdit fsPath) w in
  filesOf (repoKey repo) (tracker w')
  = pushNew fsPath (filesOf (repoKey repo) (tracker w)) ∧
  (∀ key, key ≠ repoKey repo →
          filesOf key (tracker w') = filesOf key (tracker w)).
Proof.
  intros Hr [activity Ha] w'. subst w'.
  unfold recordFileEdit, exec. rewrite ?run_bind. cbn. rewrite Hr.
  rewrite ?run_bind. cbn. unfold repoKey in *. rewrite Ha.
  unfold filesOf at 2 4. rewrite Ha. unfold pushNew.
  case_bool_decide as Hin; cbn.
  - split; [|reflexivity]. unfold filesOf. now rewrite Ha.
  - split.
    + unfold filesOf. cbn. now rewrite dget_dupd_eq.
    + intros key Hk. unfold filesOf. cbn.
      rewrite dget_dupd_ne; [reflexivity|]. intros E. now apply Hk.
Qed.

(** X17. With a current context, saving a document adds its path to
    the files of this context, once, and leaves the files of every other
    context as they are. *)
Theorem saved_file_is_recorded clock random parseDate localTZA fsPath w repo :
  TrackingState.currentRepo (state (tracker w)) = Some repo →
  let w' := exec (handle clock random parseDate localTZA
                         (DocumentSaved fsPath)) w in
  filesOf (repoKey repo) (tracker w')
  = pushNew fsPath (filesOf (repoKey repo) (tracker w)) ∧
  fsPath ∈ filesOf (repoKey repo) (tracker w') ∧
  (∀ key, key ≠ repoKey repo →
          filesOf key (tracker w') = filesOf key (tracker w)).
Proof.
  intros Hr w'. subst w'. cbn [handle]. rewrite exec_bind.
  change (snd (recordActivity clock w)) with (exec (recordActivity clock) w).
  destruct (recordActivity_with_context clock w repo Hr) as (H1 & H2 & H3).
  destruct (recordFileEdit_with_context fsPath _ repo H1 H2) as [H4 H5].
  rewrite H3 in H4. split; [exact H4|]. split.
  - rewrite H4. apply elem_of_pushNew. now right.
  - intros key Hk. rewrite H5 by exact Hk. apply H3.
Qed.

Lemma saved_file_is_recorded_witness :
  "/a/g.ts"
  ∈ filesOf "/a:main"
      (tracker (exec (handle (always 6000) someSuffix parseDateOnly
                             centralEurope (DocumentSaved "/a/g.ts"))
                     busyWorld)).
Proof.
  refine (proj1 (proj2 (saved_file_is_recorded (always 6000) someSuffix
                          parseDateOnly centralEurope "/a/g.ts" busyWorld
                          (CurrentRepoInfo.mk "/a" "a" "main" None
                             (Some "/a/f.ts") (Some "typescript") 1000)
                          _))).
  vm_compute. reflexivity.
Defined.

(** ** The window loses and regains the focus *)






(** ** Stopping *)

Lemma stop_run clock w :
  TrackingState.isTracking (state (tracker w)) = true →
  exec (stop clock) w =
  let w1 := beforeFinalSave clock w in
  let q := queries w1 in
  let session := closedAt (clock q) (tracker w1) in
  let d := updateSessionOn session
             (todayRecord (isoDate (clock (S q))) (storage w1)) in
  mkWorld
    (mkTracker (with_isTracking false (state (tracker w1))) None []
               (repoActivityMap (tracker w1)) session (config (tracker w1)))
    (mkStorage (<[getDataFilePath (DailyData.date d) := Some d]>
                  (files (storage w1)))
               (Some d) None)
    (S (S q)).
Proof.
  intros Ht. unfold stop, exec at 1. rewrite run_bind. cbn [fst snd getState].
  rewrite Ht. cbn [negb]. unfold beforeFinalSave.
  destruct (TrackingState.currentRepo (state (tracker w))) as [repo|];
    rewrite ?run_bind; unfold exec;
    rewrite saveCurrentSession_run; cbn;
    unfold forceSave; rewrite ?run_bind; cbn;
    unfold saveDailyData, modStorage; cbn; reflexivity.
Qed.

(** X19. [stop] on a tracking tracker clears [isTracking], closes the
    session with an end time, counters that add up and the contexts of
    the live map, and writes the day's record holding it to its file at
    once, no write left pending. *)
Theorem stop_saves_session clock w :
  TrackingState.isTracking (state (tracker w)) = true →
  let w' := exec (stop clock) w in
  let s := currentSession (tracker w') in
  TrackingState.isTracking (state (tracker w')) = false ∧
  conserved s ∧
  is_Some (TrackingSession.endTime s) ∧
  TrackingSession.repositories s = dvalues (repoActivityMap (tracker w')) ∧
  saveDebounceTimer (storage w') = None ∧
  ∃ d, currentDayData (storage w') = Some d ∧
       files (storage w') !! getDataFilePath (DailyData.date d)
       = Some (Some d) ∧
       s ∈ DailyData.sessions d ∧
       DailyData.totalTime d
       = sumOf TrackingSession.totalDuration (DailyData.sessions d).
Proof.
  intros Ht w' s. subst s w'. rewrite (stop_run clock w Ht). cbn zeta.
  cbn [tracker storage state currentSession repoActivityMap
       saveDebounceTimer currentDayData files].
  split; [reflexivity|]. split.
  - unfold conserved, closedAt. cbn. unfold beforeFinalSave, exec.
    unfold updateTimeCounters. rewrite run_bind. cbn.
    apply countersAt_conserved.
  - split; [eexists; reflexivity|]. split; [reflexivity|].
    split; [reflexivity|]. eexists. split; [reflexivity|].
    split; [apply lookup_insert_eq|]. rewrite updateSessionOn_eq. cbn.
    split; [apply putSession_elem|reflexivity].
Qed.

Lemma stop_saves_session_witness :
  let w' := exec (stop (always 9000)) busyWorld in
  TrackingState.isTracking (state (tracker w')) = false ∧
  saveDebounceTimer (storage w') = None.
Proof.
  destruct (stop_saves_session (always 9000) busyWorld eq_refl)
    as (H1 & _ & _ & _ & H2 & _).
  split; [exact H1|exact H2].
Defined.

(** ** After the rollover *)

Lemma recordFileEdit_no_context fsPath w :
  TrackingState.currentRepo (state (tracker w)) = None →
  exec (recordFileEdit fsPath) w = w.
Proof.
  intros Hr. unfold recordFileEdit, exec. rewrite run_bind. cbn.
  now rewrite Hr.
Qed.

(** X20. The heartbeat that finds the date changed leaves the tracker
    tracking with an empty context map and no current context: a text
    change or a saved document that comes next is billed to no
    repository, whatever the editor shows. *)
Theorem rollover_drops_context clock random clock' parseDate localTZA ide w :
  TrackingState.isTracking (state (tracker w)) = true →
  isoDate (clock (S (queries w)))
  ≠ isoDate (TrackingSession.startTime (currentSession (tracker w))) →
  let w1 := exec (heartbeat clock random ide) w in
  TrackingState.isTracking (state (tracker w1)) = true ∧
  TrackingState.currentRepo (state (tracker w1)) = None ∧
  repoActivityMap (tracker w1) = [] ∧
  (let w2 := exec (handle clock' random parseDate localTZA TextChanged) w1 in
   repoActivityMap (tracker w2) = [] ∧
   TrackingState.lastActivityTime (state (tracker w2)) = clock' (queries w1)) ∧
  (∀ fsPath,
     let w2 := exec (handle clock' random parseDate localTZA
                            (DocumentSaved fsPath)) w1 in
     repoActivityMap (tracker w2) = []).
Proof.
  intros Ht Hd w1.
  destruct (heartbeat_rollover_storage clock random ide w Ht Hd)
    as (_ & Hst & Hmap & _).
  fold w1 in Hst, Hmap.
  assert (Hr : TrackingState.currentRepo (state (tracker w1)) = None)
    by now rewrite Hst.
  destruct (recordActivity_frame clock' w1) as (_ & _ & H3).
  split; [now rewrite Hst|]. split; [exact Hr|]. split; [exact Hmap|].
  split.
  - cbn [handle]. split; [now rewrite H3|].
    now rewrite state_recordActivity.
  - intros fsPath. cbn [handle]. rewrite exec_bind.
    change (snd (recordActivity clock' w1))
      with (exec (recordActivity clock') w1).
    rewrite recordFileEdit_no_context.
    + now rewrite H3.
    + rewrite state_recordActivity. cbn.
      now rewrite currentRepo_activeAgain.
Qed.

Lemma rollover_drops_context_witness :
  TrackingState.currentRepo (state (tracker nextMorning)) = None ∧
  repoActivityMap (tracker nextMorning) = [].
Proof.
  assert (Hd : isoDate (always (msPerDay + 5000) (S (queries lastEvening)))
               ≠ isoDate (TrackingSession.startTime
                            (currentSession (tracker lastEvening))))
    by (vm_compute; discriminate).
  destruct (rollover_drops_context (always (msPerDay + 5000)) someSuffix
              (always (msPerDay + 6000)) parseDateOnly centralEurope
              editorInA lastEvening eq_refl Hd)
    as (_ & H1 & H2 & _).
  split; [exact H1|exact H2].
Defined.

(** ** Reset of the day *)

Section StartFrames.
Variable clock : nat → Z.
Variable random : nat → string.

Lemma keeps_storage_start ide : keeps storage (start clock random ide).
Proof.
  unfold start, createNewSession, generateSessionId, setupEventListeners,
    startHeartbeat, updateCurrentRepo, finalizeRepoTime, addTimeToRepo,
    modState.
  keeps_steps.
Qed.

Lemma keeps_filesOf_addTimeToRepo key repo t :
  keeps (ofTracker (filesOf key)) (addTimeToRepo repo t).
Proof. intros w. apply filesOf_addTimeToRepo. Qed.

Lemma keeps_filesOf_modState key f :
  keeps (ofTracker (filesOf key)) (modState f).
Proof. intros w. reflexivity. Qed.

Lemma keeps_filesOf_start key ide :
  keeps (ofTracker (filesOf key)) (start clock random ide).
Proof.
  unfold start, createNewSession, generateSessionId, setupEventListeners,
    startHeartbeat, updateCurrentRepo, finalizeRepoTime.
  repeat first
    [ progress keeps_steps
    | apply keeps_filesOf_addTimeToRepo
    | apply keeps_filesOf_modState ].
Qed.
End StartFrames.

Lemma resetTodayData_run clock random ide w :
  exec (resetTodayData clock random ide) w =
  let w1 := exec (stop clock) w in
  let today := isoDate (clock (queries w1)) in
  exec (start clock random ide)
    (mkWorld (tracker w1)
       (set_files (<[getDataFilePath today
                      := Some (createEmptyDailyData today)]>
                     (files (storage w1)))
                  (storage w1))
       (S (queries w1))).
Proof.
  unfold resetTodayData. rewrite exec_bind.
  change (snd (stop clock w)) with (exec (stop clock) w).
  rewrite exec_bind. cbn [fst snd newDate]. rewrite exec_bind. reflexivity.
Qed.

(** X21. [resetTodayData] on a tracking tracker, within one day,
    writes an empty record to today's file, but the record the storage
    holds in memory still has the counters and the sessions of before,
    the stopped one included, and the live map keeps its files: the next
    [updateSession] and its debounced write put the data back into the
    file. *)
Theorem resetTodayData_keeps_memory clock random clock' ide s w :
  TrackingState.isTracking (state (tracker w)) = true →
  let w1 := beforeFinalSave clock w in
  let q := queries w1 in
  let old := closedAt (clock q) (tracker w1) in
  let d := updateSessionOn old
             (todayRecord (isoDate (clock (S q))) (storage w1)) in
  let today := isoDate (clock (S (S q))) in
  let w' := exec (resetTodayData clock random ide) w in
  DailyData.date d = today →
  fileRecord w' today = Some (createEmptyDailyData today) ∧
  (recordCounters <$> currentDayData (storage w'))
  = Some (recordCounters d) ∧
  sessionCounters old ∈ map sessionCounters (DailyData.sessions d) ∧
  (∀ key, filesOf key (tracker w') = filesOf key (tracker w1)) ∧
  TrackingState.isTracking (state (tracker w')) = true ∧
  (isoDate (clock' (queries w')) = today →
   let w'' := exec saveDebounceTimer_fires
                   (exec (updateSession clock' s) w') in
   (recordCounters <$> fileRecord w'' today)
   = Some (recordCounters (updateSessionOn s d)) ∧
   (TrackingSession.sessionId s ≠ TrackingSession.sessionId old →
    sessionCounters old
    ∈ map sessionCounters (DailyData.sessions (updateSessionOn s d)))).
Proof.
  intros Ht w1 q old d today w' Hdate.
  assert (Hold : old ∈ DailyData.sessions d).
  { subst d. rewrite updateSessionOn_eq. cbn. apply putSession_elem. }
  assert (Hsto : storage w'
                 = mkStorage
                     (<[getDataFilePath today
                        := Some (createEmptyDailyData today)]>
                        (<[getDataFilePath (DailyData.date d) := Some d]>
                           (files (storage w1))))
                     (Some d) None).
  { subst w'. rewrite resetTodayData_run. cbn zeta.
    unfold exec at 1. rewrite keeps_storage_start. cbn [storage].
    rewrite (stop_run clock w Ht). reflexivity. }
  split; [|split; [|split; [|split; [|split]]]].
  - unfold fileRecord. rewrite Hsto. cbn. now rewrite lookup_insert_eq.
  - now rewrite Hsto.
  - apply list_elem_of_fmap. now exists old.
  - intros key. subst w'. rewrite resetTodayData_run. cbn zeta.
    unfold exec at 1.
    match goal with
    | |- filesOf key (tracker (snd (start clock random ide ?w0))) = _ =>
        pose proof (keeps_filesOf_start clock random key ide w0) as Hk
    end.
    unfold ofTracker in Hk. rewrite Hk.
    cbn [tracker]. rewrite (stop_run clock w Ht). reflexivity.
  - subst w'. rewrite resetTodayData_run. apply isTracking_start.
  - intros Hday w''. subst w''. unfold exec at 1 2.
    rewrite updateSession_run. cbn [snd]. rewrite Hday, Hsto.
    cbn [files currentDayData]. rewrite todayRecord_cached by exact Hdate.
    unfold saveDebounceTimer_fires. rewrite run_bind. cbn.
    unfold saveDailyData, modStorage, fileRecord. cbn.
    rewrite updateSessionOn_date, Hdate, lookup_insert_eq.
    split; [reflexivity|].
    intros Hid. apply list_elem_of_fmap. exists old. split; [reflexivity|].
    rewrite updateSessionOn_eq. cbn.
    now apply elem_of_putSession_other.
Qed.

Lemma resetTodayData_keeps_memory_witness :
  let w' := exec (resetTodayData (always 9000) someSuffix editorInA)
                 busyWorld in
  fileRecord w' "1970-01-01" = Some (createEmptyDailyData "1970-01-01") ∧
  TrackingState.isTracking (state (tracker w')) = true.
Proof.
  assert (Hd : DailyData.date
                 (updateSessionOn
                    (closedAt 9000
                       (tracker (beforeFinalSave (always 9000) busyWorld)))
                    (todayRecord "1970-01-01"
                       (storage (beforeFinalSave (always 9000) busyWorld))))
               = "1970-01-01")
    by (vm_compute; reflexivity).
  destruct (resetTodayData_keeps_memory (always 9000) someSuffix
              (always 9500) editorInA
              (closedAt 9500 (tracker busyWorld)) busyWorld eq_refl Hd)
    as (H1 & _ & _ & _ & H2 & _).
  split; [exact H1|exact H2].
Defined.

(** ** Remote URLs *)

Lemma substring_0_length s t :
  String.substring 0 (String.length s) (s +:+ t) = s.
Proof. induction s as [|c s IH]; simpl; [now destruct t|now rewrite IH]. Qed.

Lemma substring_all s : String.substring 0 (String.length s) s = s.
Proof. induction s as [|c s IH]; simpl; [reflexivity|now rewrite IH]. Qed.

Lemma endsWith_app suffix s : endsWith suffix (s +:+ suffix) = true.
Proof.
  unfold endsWith. rewrite length_app.
  replace (String.length s + String.length suffix - String.length suffix)%nat
    with (String.length s) by lia.
  rewrite substring_app_length, substring_all, String.eqb_refl.
  apply andb_true_intro. split; [apply Nat.leb_le; lia|reflexivity].
Qed.

Lemma dropLast_app s t : dropLast (String.length t) (s +:+ t) = s.
Proof.
  unfold dropLast. rewrite length_app.
  replace (String.length s + String.length t - String.length t)%nat
    with (String.length s) by lia.
  apply substring_0_length.
Qed.

Lemma app_assoc_string (s t u : string) : (s +:+ t) +:+ u = s +:+ (t +:+ u).
Proof.
  induction s as [|c s IH]; [reflexivity|].
  change (String c ((s +:+ t) +:+ u) = String c (s +:+ (t +:+ u))).
  now rewrite IH.
Qed.

Lemma indexOfAt_app cred rest :
  charFree "@" cred = true →
  indexOfAt (cred +:+ String "@" rest) = Some (String.length cred).
Proof.
  induction cred as [|c cred IH]; intros H; simpl; [reflexivity|].
  simpl in H. apply andb_prop in H as [Hc H].
  apply negb_true_iff in Hc. rewrite Hc, (IH H). reflexivity.
Qed.

Lemma substring_tail s t m :
  String.substring (String.length s) m (s +:+ t) = String.substring 0 m t.
Proof. apply substring_app_length. Qed.

Lemma afterCredentials_app cred rest :
  cred ≠ EmptyString → charFree "@" cred = true →
  afterCredentials (cred +:+ String "@" rest) = Some rest.
Proof.
  intros Hne H. unfold afterCredentials. rewrite indexOfAt_app by exact H.
  destruct cred as [|c cred]; [contradiction|].
  change (String.length (String c cred)) with (S (String.length cred)).
  f_equal.
  change (String c cred +:+ String "@" rest)
    with (String c (cred +:+ String "@" rest)).
  change (String.length (String c (cred +:+ String "@" rest)))
    with (S (String.length (cred +:+ String "@" rest))).
  rewrite length_app.
  change (String.length (String "@" rest)) with (S (String.length rest)).
  replace (S (String.length cred + S (String.length rest))
           - S (S (String.length cred)))%nat
    with (String.length rest) by lia.
  change (String.substring (S (S (String.length cred))) (String.length rest)
            (String c (cred +:+ String "@" rest)))
    with (String.substring (S (String.length cred)) (String.length rest)
            (cred +:+ String "@" rest)).
  replace (S (String.length cred))
    with (String.length (cred +:+ "@")) by (rewrite length_app; simpl; lia).
  replace (cred +:+ String "@" rest) with ((cred +:+ "@") +:+ rest)
    by (rewrite app_assoc_string; reflexivity).
  rewrite substring_app_length. apply substring_all.
Qed.

Lemma stripCredentials_app scheme cred rest :
  charFree "/" scheme = true →
  cred ≠ EmptyString → charFree "@" cred = true →
  stripCredentials (scheme +:+ "//" +:+ cred +:+ String "@" rest)
  = scheme +:+ "//" +:+ rest.
Proof.
  intros Hs Hne Hc. induction scheme as [|c scheme IH].
  - change (stripCredentials (String "/" (String "/" (cred +:+ String "@" rest)))
            = "//" +:+ rest).
    cbn [stripCredentials]. cbn [Ascii.eqb Bool.eqb].
    now rewrite afterCredentials_app.
  - simpl in Hs. apply andb_prop in Hs as [Hc' Hs].
    apply negb_true_iff in Hc'.
    change (stripCredentials
              (String c (scheme +:+ "//" +:+ cred +:+ String "@" rest))
            = String c (scheme +:+ "//" +:+ rest)).
    cbn [stripCredentials]. rewrite Hc'. now rewrite (IH Hs).
Qed.

Lemma stripCredentials_charFree s :
  charFree "@" s = true → stripCredentials s = s.
Proof.
  assert (Hi : ∀ t, charFree "@" t = true → indexOfAt t = None).
  { induction t as [|c t IH]; intros H; simpl; [reflexivity|].
    simpl in H. apply andb_prop in H as [Hc H].
    apply negb_true_iff in Hc. now rewrite Hc, (IH H). }
  induction s as [|c s IH]; intros H; [reflexivity|].
  simpl in H. apply andb_prop in H as [Hc H].
  cbn [stripCredentials]. rewrite (IH H).
  destruct (Ascii.eqb c "/"); [|reflexivity].
  destruct s as [|c' rest]; [reflexivity|].
  destruct (Ascii.eqb c' "/"); [|reflexivity].
  simpl in H. apply andb_prop in H as [_ H].
  unfold afterCredentials. now rewrite (Hi rest H).
Qed.

Lemma prefix_cons a p c s :
  String.prefix (String a p) (String c s)
  = if Ascii.eqb a c then String.prefix p s else false.
Proof.
  change (String.prefix (String a p) (String c s))
    with (if ascii_dec a c then String.prefix p s else false).
  destruct (ascii_dec a c) as [->|Hne].
  - now rewrite Ascii.eqb_refl.
  - destruct (Ascii.eqb_spec a c); [contradiction|reflexivity].
Qed.

Lemma prefix_nil_r a p : String.prefix (String a p) EmptyString = false.
Proof. reflexivity. Qed.

Lemma prefix_git_scheme scheme x :
  charFree "/" scheme = true → charFree "@" scheme = true →
  String.prefix "git@" (scheme +:+ "//" +:+ x) = false.
Proof.
  intros H1 H2.
  assert (Hcons : ∀ c s, String c s +:+ "//" +:+ x
                         = String c (s +:+ "//" +:+ x)) by reflexivity.
  assert (Hnil : "" +:+ "//" +:+ x = String "/" (String "/" x))
    by reflexivity.
  destruct scheme as [|a s]; [now rewrite Hnil, prefix_cons|].
  rewrite Hcons, prefix_cons. destruct (Ascii.eqb "g" a); [|reflexivity].
  simpl in H1, H2.
  apply andb_prop in H1 as [_ H1]. apply andb_prop in H2 as [_ H2].
  destruct s as [|b s]; [now rewrite Hnil, prefix_cons|].
  rewrite Hcons, prefix_cons. destruct (Ascii.eqb "i" b); [|reflexivity].
  simpl in H1, H2.
  apply andb_prop in H1 as [_ H1]. apply andb_prop in H2 as [_ H2].
  destruct s as [|c s]; [now rewrite Hnil, prefix_cons|].
  rewrite Hcons, prefix_cons. destruct (Ascii.eqb "t" c); [|reflexivity].
  simpl in H1, H2.
  apply andb_prop in H1 as [_ H1]. apply andb_prop in H2 as [_ H2].
  destruct s as [|d s]; [now rewrite Hnil, prefix_cons|].
  rewrite Hcons, prefix_cons. simpl in H2.
  apply andb_prop in H2 as [H2 _]. apply negb_true_iff in H2.
  rewrite Ascii.eqb_sym, H2. reflexivity.
Qed.

(** X22. [cleanRemoteUrl] takes the credentials and the [.git] suffix
    off a URL [scheme//credentials@rest], where the scheme has no [/] and
    no [@] and the credentials are not empty and have no [@]. *)
Theorem cleanRemoteUrl_strips_credentials scheme cred rest :
  charFree "/" scheme = true → charFree "@" scheme = true →
  cred ≠ EmptyString → charFree "@" cred = true →
  cleanRemoteUrl (scheme +:+ "//" +:+ cred +:+ "@" +:+ rest +:+ ".git")
  = scheme +:+ "//" +:+ rest ∧
  (endsWith ".git" (scheme +:+ "//" +:+ cred +:+ "@" +:+ rest) = false →
   cleanRemoteUrl (scheme +:+ "//" +:+ cred +:+ "@" +:+ rest)
   = scheme +:+ "//" +:+ rest).
Proof.
  intros H1 H2 Hne Hc. split.
  - unfold cleanRemoteUrl.
    replace (scheme +:+ "//" +:+ cred +:+ "@" +:+ rest +:+ ".git")
      with ((scheme +:+ "//" +:+ cred +:+ "@" +:+ rest) +:+ ".git")
      by now rewrite !app_assoc_string.
    rewrite endsWith_app. change 4%nat with (String.length ".git").
    rewrite dropLast_app.
    change ("@" +:+ rest) with (String "@" rest).
    rewrite stripCredentials_app by assumption.
    now rewrite prefix_git_scheme.
  - intros He. unfold cleanRemoteUrl. rewrite He.
    change ("@" +:+ rest) with (String "@" rest).
    rewrite stripCredentials_app by assumption.
    now rewrite prefix_git_scheme.
Qed.

Lemma cleanRemoteUrl_strips_credentials_witness :
  cleanRemoteUrl ("https:" +:+ "//" +:+ "user:secret" +:+ "@" +:+
                  "github.com/o/r" +:+ ".git")
  = "https:" +:+ "//" +:+ "github.com/o/r".
Proof.
  refine (proj1 (cleanRemoteUrl_strips_credentials "https:" "user:secret"
                   "github.com/o/r" _ _ _ _));
    [reflexivity|reflexivity|discriminate|reflexivity].
Defined.

Lemma prefix_app pat s : String.prefix pat (pat +:+ s) = true.
Proof.
  induction pat as [|c pat IH]; [now destruct s|].
  change (String c pat +:+ s) with (String c (pat +:+ s)).
  now rewrite prefix_cons, Ascii.eqb_refl.
Qed.

Lemma replaceFirst_prefix pat rep s :
  replaceFirst pat rep (pat +:+ s) = rep +:+ s.
Proof.
  assert (E : ∀ x, replaceFirst pat rep x =
                   if String.prefix pat x
                   then rep +:+ String.substring (String.length pat)
                          (String.length x - String.length pat) x
                   else match x with
                        | EmptyString => EmptyString
                        | String c x' => String c (replaceFirst pat rep x')
                        end)
    by (intros [|c x]; reflexivity).
  rewrite E, prefix_app, length_app.
  replace (String.length pat + String.length s - String.length pat)%nat
    with (String.length s) by lia.
  now rewrite substring_app_length, substring_all.
Qed.

(** X23. An SSH remote [git@rest] with no other [@] loses its [.git]
    suffix and has [git@] replaced by [https://]; the colon that
    [replace(':', '/')] then finds is the one of [https:], so that the
    result starts with [https///] and keeps the colon after the host. *)
Theorem cleanRemoteUrl_ssh rest :
  charFree "@" rest = true →
  cleanRemoteUrl ("git@" +:+ rest +:+ ".git") = "https///" +:+ rest ∧
  (endsWith ".git" ("git@" +:+ rest) = false →
   cleanRemoteUrl ("git@" +:+ rest) = "https///" +:+ rest).
Proof.
  intros H.
  assert (Hs : stripCredentials ("git@" +:+ rest) = "git@" +:+ rest).
  { change ("git@" +:+ rest)
      with (String "g" (String "i" (String "t" (String "@" rest)))).
    cbn [stripCredentials Ascii.eqb Bool.eqb].
    now rewrite stripCredentials_charFree. }
  assert (Hr : replaceFirst ":" "/" (replaceFirst "git@" "https://"
                                       ("git@" +:+ rest))
               = "https///" +:+ rest).
  { rewrite replaceFirst_prefix.
    change ("https://" +:+ rest)
      with (String "h" (String "t" (String "t" (String "p" (String "s"
              (":" +:+ String "/" (String "/" rest))))))).
    rewrite !replaceFirst_cons by (now rewrite prefix_cons).
    now rewrite replaceFirst_prefix. }
  split.
  - unfold cleanRemoteUrl.
    replace ("git@" +:+ rest +:+ ".git")
      with (("git@" +:+ rest) +:+ ".git") by now rewrite !app_assoc_string.
    rewrite endsWith_app. change 4%nat with (String.length ".git").
    now rewrite dropLast_app, Hs, prefix_app.
  - intros He. unfold cleanRemoteUrl. now rewrite He, Hs, prefix_app.
Qed.

Lemma cleanRemoteUrl_ssh_witness :
  cleanRemoteUrl ("git@" +:+ "github.com:o/r" +:+ ".git")
  = "https///" +:+ "github.com:o/r".
Proof.
  refine (proj1 (cleanRemoteUrl_ssh "github.com:o/r" _)). reflexivity.
Defined.

(** ** Session ids *)

Lemma to_int_not_nil z :
  Z.to_int z ≠ Decimal.Pos Decimal.Nil ∧ Z.to_int z ≠ Decimal.Neg Decimal.Nil.
Proof.
  assert (E : Z.to_int z = Decimal.norm (Z.to_int z))
    by now rewrite <- DecimalZ.to_of, DecimalZ.of_to.
  destruct (Z.to_int z) as [d|d].
  - split; [|discriminate]. intros [= ->]. discriminate.
  - split; [discriminate|]. intros [= ->]. discriminate.
Qed.

Lemma showZ_inj a b : showZ a = showZ b → a = b.
Proof.
  unfold showZ. intros E.
  apply (f_equal NilZero.int_of_string) in E.
  destruct (to_int_not_nil a) as [Ha1 Ha2], (to_int_not_nil b) as [Hb1 Hb2].
  rewrite !NilZero.isi in E by assumption.
  injection E as E. now apply DecimalZ.to_int_inj.
Qed.

Lemma string_of_uint_charFree d :
  charFree "_" (NilEmpty.string_of_uint d) = true.
Proof. induction d; cbn; [reflexivity|assumption..]. Qed.

Lemma showZ_charFree z : charFree "_" (showZ z) = true.
Proof.
  unfold showZ, NilZero.string_of_int, NilZero.string_of_uint.
  destruct (Z.to_int z) as [[]|[]]; cbn;
    rewrite ?string_of_uint_charFree; reflexivity.
Qed.

Lemma split_at_underscore a b r r' :
  charFree "_" a = true → charFree "_" b = true →
  a +:+ String "_" r = b +:+ String "_" r' → a = b ∧ r = r'.
Proof.
  revert b. induction a as [|c a IH]; intros [|c' b] Ha Hb E.
  - injection E as E. now split.
  - exfalso. change (String "_" r = String c' (b +:+ String "_" r')) in E.
    injection E as <- _. discriminate.
  - exfalso. change (String c (a +:+ String "_" r) = String "_" r') in E.
    injection E as -> _. discriminate.
  - change (String c (a +:+ String "_" r)
            = String c' (b +:+ String "_" r')) in E.
    injection E as -> E. cbn in Ha, Hb.
    apply andb_prop in Ha as [_ Ha]. apply andb_prop in Hb as [_ Hb].
    destruct (IH b Ha Hb E) as [-> ->]. now split.
Qed.

(** X3. Two session ids are equal only when they were made in the same
    millisecond with the same random suffix. *)
Theorem generateSessionId_distinct clock random clock' random' w w' :
  fst (generateSessionId clock random w)
  = fst (generateSessionId clock' random' w') ↔
  clock (queries w) = clock' (queries w') ∧
  random (S (queries w)) = random' (S (queries w')).
Proof.
  unfold generateSessionId. rewrite !run_bind. cbn. split.
  - intros E.
    change ("session_" +:+ ?x) with (String "s" (String "e" (String "s"
      (String "s" (String "i" (String "o" (String "n" (String "_" x))))))))
      in E.
    injection E as E.
    apply split_at_underscore in E as [E1 E2];
      [|apply showZ_charFree..].
    split; [now apply showZ_inj|exact E2].
  - now intros [-> ->].
Qed.

(** ** Aggregate totals *)

Section AggregateFacts.
Variable parseDate : string → option Z.
Variable starts : Starts.

Lemma addFiles_run files : ∀ acc w,
  addFiles parseDate starts files acc w
  = (fold_left (addFile parseDate (storage w) starts) files acc, w).
Proof.
  induction files as [|file files IH]; intros acc w; [reflexivity|].
  cbn [addFiles fold_left]. unfold addFile at 2.
  destruct (negb (endsWith ".json" file)); [apply IH|].
  cbn zeta. case_bool_decide; [apply IH|].
  rewrite run_bind, loadDailyData_run. cbn [fst snd]. apply IH.
Qed.

Lemma amount_uncounted start data :
  counted parseDate data = false → amount parseDate start data = 0.
Proof.
  unfold counted, amount.
  destruct (String.eqb (DailyData.date data) ""); [reflexivity|].
  cbn [negb andb]. destruct (parseDate _); [|reflexivity].
  rewrite bool_decide_eq_true_2 by eauto. discriminate.
Qed.

(** [addData] on a record whose date is not processed yet. *)
Lemma addData_new data totals processed :
  DailyData.date data ∉ processed →
  addData parseDate starts data (totals, processed) =
  (AggregateTotals.mk
     (AggregateTotals.last7Days totals
      + amount parseDate (Some (startOfLast7 starts)) data)
     (AggregateTotals.overall totals + amount parseDate None data)
     (AggregateTotals.weekToDate totals
      + amount parseDate (Some (startOfWeek starts)) data)
     (AggregateTotals.monthToDate totals
      + amount parseDate (Some (startOfMonth starts)) data)
     (AggregateTotals.yearToDate totals
      + amount parseDate (Some (startOfYear starts)) data),
   if counted parseDate data then DailyData.date data :: processed
   else processed).
Proof.
  intros Hnew. unfold addData, amount, counted.
  rewrite (bool_decide_eq_false_2 _ Hnew), orb_false_r.
  destruct (String.eqb (DailyData.date data) "").
  - cbn. rewrite !Z.add_0_r. now destruct totals.
  - cbn [negb andb]. destruct (parseDate (DailyData.date data)) as [t|].
    + rewrite bool_decide_eq_true_2 by eauto.
      destruct (startOfLast7 starts <=? t), (startOfWeek starts <=? t),
        (startOfMonth starts <=? t), (startOfYear starts <=? t);
        rewrite ?Z.add_0_r; reflexivity.
    + rewrite bool_decide_eq_false_2 by (intros [? ?]; discriminate).
      rewrite !Z.add_0_r. now destruct totals.
Qed.

Lemma addData_uncounted data acc :
  counted parseDate data = false →
  addData parseDate starts data acc = acc.
Proof.
  intros H. destruct acc as [totals processed]. unfold addData, counted in *.
  destruct (String.eqb (DailyData.date data) ""); [reflexivity|].
  cbn [negb andb orb] in *.
  destruct (bool_decide (DailyData.date data ∈ processed)); [reflexivity|].
  destruct (parseDate _); [|reflexivity].
  rewrite bool_decide_eq_true_2 in H by eauto. discriminate.
Qed.
End AggregateFacts.

Lemma loadedRecord_date date s :
  namedByDate (files s) → DailyData.date (loadedRecord date s) = date.
Proof.
  intros H. unfold loadedRecord.
  destruct (files s !! getDataFilePath date) as [[d|]|] eqn:E;
    [|reflexivity..].
  apply H in E. now apply getDataFilePath_inj in E.
Qed.

Lemma totalsFrom_snoc parseDate starts today others data :
  totalsFrom parseDate starts today (others ++ [data]) =
  AggregateTotals.mk
    (totalFrom parseDate (Some (startOfLast7 starts)) today others
     + amount parseDate (Some (startOfLast7 starts)) data)
    (totalFrom parseDate None today others + amount parseDate None data)
    (totalFrom parseDate (Some (startOfWeek starts)) today others
     + amount parseDate (Some (startOfWeek starts)) data)
    (totalFrom parseDate (Some (startOfMonth starts)) today others
     + amount parseDate (Some (startOfMonth starts)) data)
    (totalFrom parseDate (Some (startOfYear starts)) today others
     + amount parseDate (Some (startOfYear starts)) data).
Proof.
  unfold totalsFrom, totalFrom.
  rewrite !sumOf_app, !sumOf_cons, !sumOf_nil. f_equal; lia.
Qed.

Lemma otherRecords_snoc s today pre file :
  otherRecords s today (pre ++ [file]) =
  otherRecords s today pre ++
  (if endsWith ".json" file
   then if String.eqb (replaceFirst ".json" "" file) (DailyData.date today)
        then []
        else [loadedRecord (replaceFirst ".json" "" file) s]
   else []).
Proof.
  unfold otherRecords. rewrite filter_app, map_app. f_equal.
  rewrite filter_cons, filter_nil.
  destruct (endsWith ".json" file) eqn:Ee.
  - destruct (String.eqb_spec (replaceFirst ".json" "" file)
                (DailyData.date today)) as [E|N].
    + rewrite decide_False; [reflexivity|]. intros [_ H]. contradiction.
    + rewrite decide_True; [reflexivity|]. now split.
  - rewrite decide_False; [reflexivity|]. intros [H _]. discriminate.
Qed.

Section AggregateLoop.
Variable parseDate : string → option Z.
Variable starts : Starts.
Variable s : StorageFields.
Variable today : DailyData.t.
Hypothesis Hnamed : namedByDate (files s).

Lemma loopState_step pre file acc :
  NoDup (pre ++ [file]) → plainNames (pre ++ [file]) →
  loopState parseDate starts s today pre acc →
  loopState parseDate starts s today (pre ++ [file])
            (addFile parseDate s starts acc file).
Proof.
  intros Hnd Hplain (Ht & Hc & Hp).
  apply NoDup_app in Hnd as (_ & Hfresh & _).
  assert (Hfile : file ∉ pre).
  { intros Hin. apply (Hfresh file Hin). now apply list_elem_of_singleton. }
  unfold addFile. destruct (endsWith ".json" file) eqn:Ee; cbn [negb].
  - destruct (Hplain file) as (x & -> & Hx);
      [apply elem_of_app; right; now apply list_elem_of_singleton|exact Ee|].
    unfold getDataFilePath in *. rewrite replaceFirst_json by exact Hx.
    assert (Hprev : x ∈ snd acc → x = DailyData.date today).
    { intros Hin. destruct (Hp x Hin) as [E|(f' & Hf' & He' & Hd')];
        [exact E|].
      exfalso. apply Hfile.
      destruct (Hplain f') as (x' & -> & Hx');
        [apply elem_of_app; now left|exact He'|].
      unfold getDataFilePath in *.
      rewrite replaceFirst_json in Hd' by exact Hx'. now subst x'. }
    assert (Hpre : ∀ y, y ∈ snd acc →
              y = DailyData.date today ∨
              ∃ f, f ∈ pre ++ [x +:+ ".json"] ∧ endsWith ".json" f = true ∧
                   replaceFirst ".json" "" f = y).
    { intros y Hy. destruct (Hp y Hy) as [E|(f & Hf & He & Hd)];
        [now left|right].
      exists f. split; [apply elem_of_app; now left|now split]. }
    split; [|split].
    + rewrite otherRecords_snoc, Ee, replaceFirst_json by exact Hx.
      case_bool_decide as Hin.
      * rewrite (Hprev Hin), String.eqb_refl, app_nil_r. exact Ht.
      * destruct (String.eqb_spec x (DailyData.date today)) as [E|N].
        -- rewrite app_nil_r. rewrite addData_uncounted; [exact Ht|].
           destruct (counted parseDate today) eqn:Ec.
           ++ exfalso. apply Hin. rewrite E. now apply Hc.
           ++ unfold counted in *. rewrite loadedRecord_date by exact Hnamed.
              now rewrite E.
        -- destruct acc as [totals processed]. cbn [fst snd] in *.
           rewrite addData_new
             by (rewrite loadedRecord_date by exact Hnamed; exact Hin).
           cbn [fst]. rewrite totalsFrom_snoc, Ht. reflexivity.
    + intros Hct. specialize (Hc Hct). case_bool_decide as Hin; [exact Hc|].
      destruct acc as [totals processed]. cbn [fst snd] in *.
      rewrite addData_new
        by (rewrite loadedRecord_date by exact Hnamed; exact Hin).
      cbn [snd]. destruct (counted parseDate (loadedRecord x s)); [|exact Hc].
      now apply list_elem_of_further.
    + intros y. case_bool_decide as Hin; [apply Hpre|].
      destruct acc as [totals processed]. cbn [fst snd] in *.
      rewrite addData_new
        by (rewrite loadedRecord_date by exact Hnamed; exact Hin).
      cbn [snd].
      destruct (counted parseDate (loadedRecord x s)); [|apply Hpre].
      intros Hy. apply elem_of_cons in Hy as [->|Hy]; [|now apply Hpre].
      right. exists (x +:+ ".json").
      rewrite loadedRecord_date by exact Hnamed.
      split; [apply elem_of_app; right; now apply list_elem_of_singleton|].
      split; [exact Ee|now apply replaceFirst_json].
  - split; [|split].
    + rewrite otherRecords_snoc, Ee, app_nil_r. exact Ht.
    + exact Hc.
    + intros y Hy. destruct (Hp y Hy) as [E|(f & Hf & He & Hd)];
        [now left|right].
      exists f. split; [apply elem_of_app; now left|now split].
Qed.

Lemma loopState_fold files : ∀ pre acc,
  NoDup (pre ++ files) → plainNames (pre ++ files) →
  loopState parseDate starts s today pre acc →
  loopState parseDate starts s today (pre ++ files)
            (fold_left (addFile parseDate s starts) files acc).
Proof.
  induction files as [|file files IH]; intros pre acc Hnd Hplain Hst.
  - now rewrite app_nil_r.
  - cbn [fold_left].
    replace (pre ++ file :: files) with ((pre ++ [file]) ++ files) in *
      by now rewrite <- app_assoc.
    apply IH; [exact Hnd|exact Hplain|].
    apply loopState_step; [| |exact Hst].
    + now apply NoDup_app in Hnd as (? & _).
    + intros f Hf. apply Hplain. apply elem_of_app. now left.
Qed.
End AggregateLoop.

Lemma getAggregateTotals_run clock parseDate localTZA readdirSync w :
  getAggregateTotals clock parseDate localTZA readdirSync w =
  let starts := startsAt localTZA (clock (queries w)) in
  let today := todayRecord (isoDate (clock (S (queries w)))) (storage w) in
  let s := set_currentDayData (Some today) (storage w) in
  (fst (fold_left (addFile parseDate s starts)
          (readdirSync (files (storage w)))
          (addData parseDate starts today
             (AggregateTotals.mk 0 0 0 0 0, []))),
   mkWorld (tracker w) s (S (S (queries w)))).
Proof.
  unfold getAggregateTotals. rewrite run_bind. cbn [fst snd newDate].
  rewrite run_bind, getTodayData_run. cbn [fst snd].
  rewrite run_bind. cbn [fst snd getStorage].
  rewrite run_bind, addFiles_run. reflexivity.
Qed.

Lemma amount_le parseDate start data :
  0 ≤ DailyData.totalTime data →
  0 ≤ amount parseDate start data ≤ amount parseDate None data.
Proof.
  intros H. unfold amount.
  destruct (String.eqb _ _); [lia|]. destruct (parseDate _); [|lia].
  destruct start as [b|]; [destruct (b <=? z)|]; lia.
Qed.

Lemma totalFrom_le parseDate start today others :
  0 ≤ DailyData.totalTime today →
  Forall (λ d, 0 ≤ DailyData.totalTime d) others →
  0 ≤ totalFrom parseDate start today others
    ≤ totalFrom parseDate None today others.
Proof.
  intros Ht Ho. unfold totalFrom.
  pose proof (amount_le parseDate start today Ht).
  assert (0 ≤ sumOf (amount parseDate start) others
            ≤ sumOf (amount parseDate None) others).
  { induction Ho as [|d others Hd _ IH]; [rewrite !sumOf_nil; lia|].
    rewrite !sumOf_cons. pose proof (amount_le parseDate start d Hd). lia. }
  lia.
Qed.

Lemma getAggregateTotals_totals clock parseDate localTZA readdirSync w :
  let starts := startsAt localTZA (clock (queries w)) in
  let today := todayRecord (isoDate (clock (S (queries w)))) (storage w) in
  let listing := readdirSync (files (storage w)) in
  NoDup listing → plainNames listing → namedByDate (files (storage w)) →
  fst (getAggregateTotals clock parseDate localTZA readdirSync w)
  = totalsFrom parseDate starts today
      (otherRecords (storage w) today listing).
Proof.
  intros starts today listing Hnd Hplain Hnamed.
  rewrite getAggregateTotals_run. cbn zeta. cbn [fst snd].
  fold starts today listing.
  set (s := set_currentDayData (Some today) (storage w)).
  assert (H0 : loopState parseDate starts s today []
                 (addData parseDate starts today
                    (AggregateTotals.mk 0 0 0 0 0, []))).
  { rewrite addData_new by apply not_elem_of_nil. split; [|split].
    - cbn [fst]. unfold totalsFrom, totalFrom, otherRecords.
      rewrite filter_nil. cbn [map]. rewrite !sumOf_nil.
      cbn [AggregateTotals.last7Days AggregateTotals.overall
           AggregateTotals.weekToDate AggregateTotals.monthToDate
           AggregateTotals.yearToDate].
      f_equal; lia.
    - cbn [snd]. intros ->. apply list_elem_of_here.
    - cbn [snd]. intros x Hx. left.
      destruct (counted parseDate today); [|now apply elem_of_nil in Hx].
      now apply list_elem_of_singleton in Hx. }
  pose proof (loopState_fold parseDate starts s today Hnamed listing [] _
                Hnd Hplain H0) as (Ht & _).
  exact Ht.
Qed.

(** X12. On a directory whose listing has no name twice, whose record
    files are named after the dates of their records and whose names
    [x.json] have no full stop in [x], [getAggregateTotals] counts
    today's record as the service holds it and the record of every other
    date once, from its file; it writes no file and leaves the tracker
    alone.  With no negative total among the records, each of the four
    partial totals lies between 0 and the overall total. *)
Theorem getAggregateTotals_sums clock parseDate localTZA readdirSync w :
  let starts := startsAt localTZA (clock (queries w)) in
  let today := todayRecord (isoDate (clock (S (queries w)))) (storage w) in
  let listing := readdirSync (files (storage w)) in
  let others := otherRecords (storage w) today listing in
  let result := getAggregateTotals clock parseDate localTZA readdirSync w in
  NoDup listing → plainNames listing → namedByDate (files (storage w)) →
  fst result = totalsFrom parseDate starts today others ∧
  files (storage (snd result)) = files (storage w) ∧
  tracker (snd result) = tracker w ∧
  (0 ≤ DailyData.totalTime today →
   Forall (λ d, 0 ≤ DailyData.totalTime d) others →
   let total := AggregateTotals.overall (fst result) in
   0 ≤ AggregateTotals.last7Days (fst result) ≤ total ∧
   0 ≤ AggregateTotals.weekToDate (fst result) ≤ total ∧
   0 ≤ AggregateTotals.monthToDate (fst result) ≤ total ∧
   0 ≤ AggregateTotals.yearToDate (fst result) ≤ total).
Proof.
  intros starts today listing others result Hnd Hplain Hnamed.
  pose proof (getAggregateTotals_totals clock parseDate localTZA readdirSync
                w Hnd Hplain Hnamed) as Ht.
  fold starts today listing others result in Ht.
  split; [exact Ht|]. subst result. rewrite getAggregateTotals_run.
  split; [reflexivity|]. split; [reflexivity|].
  intros Hp Hall. rewrite <- getAggregateTotals_run, Ht.
  cbn [AggregateTotals.overall AggregateTotals.last7Days
       AggregateTotals.weekToDate AggregateTotals.monthToDate
       AggregateTotals.yearToDate totalsFrom].
  repeat split; apply totalFrom_le; assumption.
Qed.

Lemma archive_listing :
  directoryListing (files (storage archiveWorld))
  = ["1970-01-02.json"; "1970-04-01.json"; "notes.json"].
Proof. vm_compute. reflexivity. Qed.

Lemma archive_plainNames :
  plainNames (directoryListing (files (storage archiveWorld))).
Proof.
  rewrite archive_listing. intros file Hin _.
  apply elem_of_cons in Hin as [->|Hin]; [now exists "1970-01-02"|].
  apply elem_of_cons in Hin as [->|Hin]; [now exists "1970-04-01"|].
  apply elem_of_cons in Hin as [->|Hin]; [now exists "notes"|].
  now apply elem_of_nil in Hin.
Qed.

Lemma archive_namedByDate : namedByDate (files (storage archiveWorld)).
Proof.
  intros file d E. unfold archiveWorld in E. cbn [files storage] in E.
  apply lookup_insert_Some in E as [[<- [= <-]]|[_ E]]; [reflexivity|].
  apply lookup_insert_Some in E as [[<- [= <-]]|[_ E]]; [reflexivity|].
  apply lookup_insert_Some in E as [[_ [=]]|[_ E]].
  now rewrite lookup_empty in E.
Qed.

Lemma getAggregateTotals_sums_witness :
  fst (getAggregateTotals (always (92 * msPerDay)) parseDateOnly
                          centralEurope directoryListing archiveWorld)
  = AggregateTotals.mk 500 1500 500 500 1500.
Proof.
  refine (eq_trans
            (proj1 (getAggregateTotals_sums (always (92 * msPerDay))
                      parseDateOnly centralEurope directoryListing
                      archiveWorld _ archive_plainNames
                      archive_namedByDate))
            _).
  - apply NoDup_fst_map_to_list.
  - vm_compute. reflexivity.
Defined.

(** ** The four starts in a zone of fixed offset *)

Lemma daysFromCivil_month_le y m :
  1 ≤ m ≤ 12 → daysFromCivil y 1 1 ≤ daysFromCivil y m 1.
Proof.
  intros H.
  assert (Hm : m = 1 ∨ m = 2 ∨ m = 3 ∨ m = 4 ∨ m = 5 ∨ m = 6 ∨ m = 7 ∨
               m = 8 ∨ m = 9 ∨ m = 10 ∨ m = 11 ∨ m = 12) by lia.
  unfold daysFromCivil.
  repeat (destruct Hm as [->|Hm]); try subst m;
    cbn -[Z.div Z.mul Z.add Z.sub]; Z.div_mod_to_equations; lia.
Qed.

Lemma civilFromDays_month n :
  1 ≤ snd (fst (civilFromDays n)) ≤ 12.
Proof.
  unfold civilFromDays. cbn zeta. cbn [fst snd].
  match goal with
  | |- context [if ?a <? ?b then _ else _] => destruct (Z.ltb_spec a b)
  end; Z.div_mod_to_equations; lia.
Qed.

Lemma startsAt_fixed_offset localTZA c now :
  (∀ t b, localTZA t b = c) →
  let starts := startsAt localTZA now in
  startOfLast7 starts ≤ startOfWeek starts ∧
  startOfYear starts ≤ startOfMonth starts.
Proof.
  intros Hc starts. subst starts.
  unfold startsAt, getStartOfWeek, newDateFirstOf, setHoursZero,
    setDateBack, getFullYear, getMonth, getDay, dayOf, utcTime, localTime.
  cbn [startOfLast7 startOfWeek startOfYear startOfMonth].
  rewrite !Hc. split.
  - unfold msPerDay.
    pose proof (Z.mod_pos_bound (((now + c) / 86400000 + 4) mod 7 + 6) 7
                  eq_refl) as Hd.
    set (diff := (((now + c) / 86400000 + 4) mod 7 + 6) mod 7) in *.
    Z.div_mod_to_equations. lia.
  - pose proof (civilFromDays_month ((now + c) / msPerDay)) as Hm.
    destruct (civilFromDays ((now + c) / msPerDay)) as [[y m] d].
    cbn [fst snd] in Hm.
    replace (m - 1 + 1) with m by lia.
    set (yr := if (0 <=? y) && (y <=? 99) then 1900 + y else y).
    pose proof (daysFromCivil_month_le yr m Hm) as Hle.
    replace (0 + 1) with 1 by lia.
    unfold msPerDay. Z.div_mod_to_equations. lia.
Qed.

Lemma amount_antitone parseDate a b data :
  a ≤ b → 0 ≤ DailyData.totalTime data →
  amount parseDate (Some b) data ≤ amount parseDate (Some a) data.
Proof.
  intros Hab H. unfold amount.
  destruct (String.eqb _ _); [lia|]. destruct (parseDate _) as [t|]; [|lia].
  destruct (Z.leb_spec a t), (Z.leb_spec b t); lia.
Qed.

Lemma totalFrom_antitone parseDate a b today others :
  a ≤ b → 0 ≤ DailyData.totalTime today →
  Forall (λ d, 0 ≤ DailyData.totalTime d) others →
  totalFrom parseDate (Some b) today others
  ≤ totalFrom parseDate (Some a) today others.
Proof.
  intros Hab Ht Ho. unfold totalFrom.
  pose proof (amount_antitone parseDate a b today Hab Ht).
  assert (sumOf (amount parseDate (Some b)) others
          ≤ sumOf (amount parseDate (Some a)) others).
  { induction Ho as [|d others Hd _ IH]; [rewrite !sumOf_nil; lia|].
    rewrite !sumOf_cons.
    pose proof (amount_antitone parseDate a b d Hab Hd). lia. }
  lia.
Qed.

(** X13. On such a directory with no negative total, where local time
    is UTC plus a fixed offset, the week to date is at most the total of
    the last seven days and the month to date at most the year to
    date. *)
Theorem getAggregateTotals_nested clock parseDate localTZA readdirSync c w :
  let today := todayRecord (isoDate (clock (S (queries w)))) (storage w) in
  let listing := readdirSync (files (storage w)) in
  let others := otherRecords (storage w) today listing in
  let totals :=
    fst (getAggregateTotals clock parseDate localTZA readdirSync w) in
  (∀ t b, localTZA t b = c) →
  NoDup listing → plainNames listing → namedByDate (files (storage w)) →
  0 ≤ DailyData.totalTime today →
  Forall (λ d, 0 ≤ DailyData.totalTime d) others →
  AggregateTotals.weekToDate totals ≤ AggregateTotals.last7Days totals ∧
  AggregateTotals.monthToDate totals ≤ AggregateTotals.yearToDate totals.
Proof.
  intros today listing others totals Hc Hnd Hplain Hnamed Ht Ho.
  subst totals.
  rewrite (getAggregateTotals_totals clock parseDate localTZA readdirSync
             w Hnd Hplain Hnamed).
  fold today listing others.
  destruct (startsAt_fixed_offset localTZA c (clock (queries w)) Hc)
    as [H1 H2].
  cbn [AggregateTotals.last7Days AggregateTotals.weekToDate
       AggregateTotals.monthToDate AggregateTotals.yearToDate totalsFrom].
  split; apply totalFrom_antitone; assumption.
Qed.

Lemma getAggregateTotals_nested_witness :
  let totals :=
    fst (getAggregateTotals (always (92 * msPerDay)) parseDateOnly
                            centralEurope directoryListing archiveWorld) in
  AggregateTotals.weekToDate totals ≤ AggregateTotals.last7Days totals ∧
  AggregateTotals.monthToDate totals ≤ AggregateTotals.yearToDate totals.
Proof.
  refine (getAggregateTotals_nested (always (92 * msPerDay)) parseDateOnly
            centralEurope directoryListing 3600000 archiveWorld
            _ _ archive_plainNames archive_namedByDate _ _).
  - reflexivity.
  - apply NoDup_fst_map_to_list.
  - vm_compute. discriminate.
  - rewrite archive_listing. vm_compute.
    repeat constructor; discriminate.
Defined.

(** ** Names of the record files *)

Section Preserves.
Context (P : World → Prop).

Lemma preserves_ret {A} (a : A) : preserves P (ret a).
Proof. intros w H. exact H. Qed.

Lemma preserves_bind {A B} (m : M A) (k : A → M B) :
  preserves P m → (∀ a, preserves P (k a)) → preserves P (bind m k).
Proof. intros Hm Hk w H. rewrite run_bind. apply Hk, Hm, H. Qed.

Lemma preserves_when b m : preserves P m → preserves P (when b m).
Proof. destruct b; [auto|intros _; apply preserves_ret]. Qed.

Lemma preserves_keeps {A X} (obs : World → X) (m : M A) :
  (∀ w w', obs w' = obs w → P w → P w') →
  keeps obs m → preserves P m.
Proof. intros Hobs Hm w H. apply (Hobs w); [apply Hm|exact H]. Qed.
End Preserves.

Lemma wellNamed_files w w' :
  files (storage w') = files (storage w) → wellNamed w → wellNamed w'.
Proof. unfold wellNamed. now intros ->. Qed.

Lemma preserves_wellNamed_saveDailyData data :
  preserves wellNamed (saveDailyData data).
Proof.
  intros w H file d E. unfold saveDailyData in E.
  cbn [snd storage files modStorage set_files] in E.
  apply lookup_insert_Some in E as [[<- [= <-]]|[_ E]].
  - reflexivity.
  - now apply H.
Qed.

Lemma preserves_wellNamed_modStorage f :
  (∀ s, files (f s) = files s) → preserves wellNamed (modStorage f).
Proof. intros Hf w. apply wellNamed_files. cbn. apply Hf. Qed.

Lemma preserves_wellNamed_of_keeps {A} (m : M A) :
  keeps storage m → preserves wellNamed m.
Proof.
  apply preserves_keeps. intros w w' E. apply wellNamed_files. now rewrite E.
Qed.

Ltac preserves_steps :=
  repeat first
    [ progress intros
    | apply preserves_bind
    | apply preserves_when
    | apply preserves_ret
    | apply preserves_wellNamed_saveDailyData
    | apply preserves_wellNamed_modStorage; intros; reflexivity
    | apply preserves_wellNamed_of_keeps; solve [auto with keeps]
    | match goal with
      | |- preserves _ (match ?x with _ => _ end) => destruct x
      | |- preserves _ (if ?x then _ else _) => destruct x
      end ].

Section Named.
Variable clock : nat → Z.
Variable random : nat → string.
Variable parseDate : string → option Z.
Variable localTZA : Z → bool → Z.

Lemma preserves_wellNamed_getTodayData :
  preserves wellNamed (getTodayData clock).
Proof.
  intros w. rewrite getTodayData_run. now apply wellNamed_files.
Qed.

Lemma preserves_wellNamed_updateSession s :
  preserves wellNamed (updateSession clock s).
Proof.
  intros w. rewrite updateSession_run. now apply wellNamed_files.
Qed.

Lemma preserves_wellNamed_saveCurrentSession :
  preserves wellNamed (saveCurrentSession clock).
Proof.
  intros w. rewrite saveCurrentSession_run. now apply wellNamed_files.
Qed.

Lemma preserves_wellNamed_forceSave : preserves wellNamed forceSave.
Proof. unfold forceSave. preserves_steps. Qed.

Lemma keeps_storage_recordActivity : keeps storage (recordActivity clock).
Proof. intros w. apply (recordActivity_frame clock w). Qed.

Lemma keeps_storage_updateCurrentRepo ide fp :
  keeps storage (updateCurrentRepo clock ide fp).
Proof.
  unfold updateCurrentRepo, finalizeRepoTime, addTimeToRepo, modState.
  keeps_steps.
Qed.

Lemma keeps_storage_recordFileEdit fsPath :
  keeps storage (recordFileEdit fsPath).
Proof. unfold recordFileEdit. keeps_steps. Qed.

Lemma keeps_storage_exitIdleState : keeps storage (exitIdleState clock).
Proof. unfold exitIdleState, modState. keeps_steps. Qed.

Lemma keeps_storage_enterIdleState : keeps storage enterIdleState.
Proof. unfold enterIdleState, modState. keeps_steps. Qed.

Lemma keeps_storage_updateTimeCounters :
  keeps storage (updateTimeCounters clock).
Proof. unfold updateTimeCounters. keeps_steps. Qed.

#[local] Hint Resolve keeps_storage_recordActivity
  keeps_storage_updateCurrentRepo keeps_storage_recordFileEdit
  keeps_storage_exitIdleState keeps_storage_enterIdleState
  keeps_storage_updateTimeCounters keeps_storage_start : keeps.

Lemma preserves_wellNamed_handle e :
  preserves wellNamed (handle clock random parseDate localTZA e).
Proof.
  destruct e; cbn [handle].
  - apply preserves_wellNamed_of_keeps. auto with keeps.
  - unfold stop, finalizeRepoTime, addTimeToRepo, modState.
    repeat first
      [ apply preserves_wellNamed_saveCurrentSession
      | apply preserves_wellNamed_forceSave
      | progress preserves_steps ].
  - unfold heartbeat, handleDayChange, getTodayDateString, initializeState,
      createNewSession, generateSessionId, onTimeUpdate, modState.
    repeat first
      [ apply preserves_wellNamed_saveCurrentSession
      | apply preserves_wellNamed_forceSave
      | apply preserves_wellNamed_getTodayData
      | progress preserves_steps ].
  - apply preserves_wellNamed_of_keeps. auto with keeps.
  - apply preserves_wellNamed_of_keeps. keeps_steps.
  - apply preserves_wellNamed_of_keeps.
    unfold handleWindowStateChange, modState. keeps_steps.
  - apply preserves_wellNamed_of_keeps.
    unfold handleEditorChange, modState. keeps_steps.
  - apply preserves_wellNamed_of_keeps. auto with keeps.
  - apply preserves_wellNamed_of_keeps. auto with keeps.
  - unfold saveDebounceTimer_fires. preserves_steps.
  - apply preserves_bind; [apply preserves_wellNamed_getTodayData|].
    intros. apply preserves_ret.
  - intros w H. rewrite markEmailSent_run. intros file d E.
    cbn [snd storage files] in E.
    apply lookup_insert_Some in E as [[<- [= <-]]|[_ E]];
      [reflexivity|now apply H].
  - apply preserves_wellNamed_forceSave.
  - unfold writeEmptyToday, getTodayDateString. preserves_steps.
  - unfold cleanupOldData. preserves_steps.
    intros w H file d E. cbn [snd storage files modStorage set_files] in E.
    apply map_lookup_filter_Some in E as [E _]. now apply H.
Qed.
End Named.

Lemma todayRecord_date today s :
  namedByDate (files s) → DailyData.date (todayRecord today s) = today.
Proof.
  intros H. unfold todayRecord.
  destruct (currentDayData s) as [d|]; [|now apply loadedRecord_date].
  destruct (String.eqb_spec (DailyData.date d) today); [assumption|].
  now apply loadedRecord_date.
Qed.

(** X14. Every event keeps the record files named after the dates of
    their records; a record loaded for a date then carries this date,
    and so does the record [getTodayData] returns. *)
Theorem record_files_named_by_date clock random parseDate localTZA e w :
  wellNamed w →
  let w' := exec (handle clock random parseDate localTZA e) w in
  wellNamed w' ∧
  (∀ date, DailyData.date (fst (loadDailyData date w')) = date) ∧
  (∀ clock', DailyData.date (fst (getTodayData clock' w'))
             = isoDate (clock' (queries w'))).
Proof.
  intros H w'.
  assert (H' : wellNamed w')
    by now apply preserves_wellNamed_handle.
  split; [exact H'|]. split.
  - intros date. rewrite loadDailyData_run. now apply loadedRecord_date.
  - intros clock'. rewrite getTodayData_run. now apply todayRecord_date.
Qed.

Lemma record_files_named_by_date_witness :
  let w' := exec (handle (always (92 * msPerDay)) someSuffix parseDateOnly
                         centralEurope EmailSent)
                 archiveWorld in
  (DailyData.emailSent <$> fileRecord w' "1970-04-03") = Some true ∧
  wellNamed w' ∧
  DailyData.date (fst (loadDailyData "1970-04-01" w')) = "1970-04-01".
Proof.
  split; [vm_compute; reflexivity|].
  destruct (record_files_named_by_date (always (92 * msPerDay)) someSuffix
              parseDateOnly centralEurope EmailSent archiveWorld
              archive_namedByDate) as (H1 & H2 & _).
  split; [exact H1|exact (H2 "1970-04-01")].
Defined.
